(** * VRBBoxHead: target assignment, loss composition and decoding

    A shallow embedding of [mmdet/models/roi_heads/bbox_heads/vr_bbox_head.py].

    Tensors are modelled as a shape together with row-major data, the way
    PyTorch stores a contiguous tensor.  Tensor entries are finite and are
    modelled by exact rationals ([Qc]): rounding is not part of the model,
    and neither are tensors that hold an infinity or NaN.  The scalar that
    a reduction returns is a float32 value ([Scalar]), which may have
    overflowed to an infinity and may then become NaN.  Every operation
    that PyTorch or Python can reject returns a [result], whose [Raise]
    case names the exception class.

    The coders and the loss callables are fields of the head record; the
    names the module imports ([hbb2poly], [bbox2type], [F.softmax],
    [torch.sigmoid], [F.affine_grid], [F.grid_sample], [multiclass_arb_nms],
    [accuracy]) are fields of the record [Imports].  All of them are total
    functions on tensors that the development never unfolds; the checks
    with which [F.affine_grid] rejects its arguments are written out in
    front of the grid generator.  The
    decorators [auto_fp16] and [force_fp32] only change the precision of
    their arguments and have no counterpart here. *)

From Stdlib Require Import QArith Qcanon.
From stdpp Require Import base list strings gmap sorting.

Set Default Proof Using "Type".

(** ** Exceptions *)

Inductive exn : Set :=
  | AssertionError
  | RuntimeError
  | IndexError
  | KeyError
  | ZeroDivisionError
  | ValueError
  | NotImplementedError.

Inductive result (A : Type) : Type :=
  | Ok (a : A)
  | Raise (e : exn).
Arguments Ok {A} a.
Arguments Raise {A} e.

Definition rbind {A B} (m : result A) (k : A -> result B) : result B :=
  match m with
  | Ok a => k a
  | Raise e => Raise e
  end.

Notation "'do' x <- m ; k" := (rbind m (fun x => k))
  (at level 10, x name, m at level 100, k at level 200).
Notation "'do' ' p <- m ; k" := (rbind m (fun p => k))
  (at level 10, p pattern, m at level 100, k at level 200).

Definition of_option {A} (e : exn) (o : option A) : result A :=
  match o with
  | Some a => Ok a
  | None => Raise e
  end.

Definition assert (b : bool) : result unit :=
  if b then Ok tt else Raise AssertionError.

Fixpoint mapR {A B} (f : A -> result B) (l : list A) : result (list B) :=
  match l with
  | [] => Ok []
  | x :: l' => do y <- f x; do ys <- mapR f l'; Ok (y :: ys)
  end.

(** ** Tensors *)

Record Tensor (A : Type) : Type := mkTensor {
  shape : list nat;
  data : list A
}.
Arguments mkTensor {A} shape data.
Arguments shape {A} t.
Arguments data {A} t.

Definition numel_of (s : list nat) : nat := foldr Nat.mul 1 s.

Definition numel {A} (t : Tensor A) : nat := numel_of (shape t).

(** A tensor is well formed when its storage has one entry per index. *)
Definition wf {A} (t : Tensor A) : Prop := length (data t) = numel t.

(** [t.size(d)] *)
Definition size {A} (t : Tensor A) (d : nat) : result nat :=
  of_option IndexError (shape t !! d).

(** [t.new_full(s, x)], and [t.new_zeros(s)] when [x] is zero. *)
Definition full {A} (s : list nat) (x : A) : Tensor A :=
  mkTensor s (replicate (numel_of s) x).

(** The first [n] consecutive blocks of width [w] of a storage. *)
Fixpoint chunks {A} (n w : nat) (d : list A) : list (list A) :=
  match n with
  | 0 => []
  | S n' => take w d :: chunks n' w (drop w d)
  end.

(** [t.view(dims)], where [None] stands for the inferred entry [-1]. *)
Definition known_dims (dims : list (option nat)) : nat :=
  foldr (fun d acc => default 1 d * acc) 1 dims.

Definition view {A} (t : Tensor A) (dims : list (option nat)) : result (Tensor A) :=
  let holes := length (filter (fun d => d = None) dims) in
  let k := known_dims dims in
  if decide (holes = 0) then
    if decide (k = numel t)
    then Ok (mkTensor (default 0 <$> dims) (data t))
    else Raise RuntimeError
  else if decide (holes = 1) then
    if decide (k = 0) then Raise RuntimeError
    else if decide (numel t `mod` k = 0)
    then Ok (mkTensor (default (numel t `div` k) <$> dims) (data t))
    else Raise RuntimeError
  else Raise RuntimeError.

(** *** Broadcasting a value for an assignment

    [dst[...] = v] first drops the leading dimensions of size one of [v],
    aligns the remaining shape with the destination on the right, and
    repeats [v] along every dimension where it has size one.  Any other
    mismatch is a [RuntimeError]. *)

Fixpoint strip_ones (s : list nat) : list nat :=
  match s with
  | 1 :: s' => strip_ones s'
  | _ => s
  end.

Fixpoint expand_aligned {A} (vs ts : list nat) (d : list A) : option (list A) :=
  match vs, ts with
  | [], [] => Some d
  | v :: vs', t :: ts' =>
      if decide (v = t) then
        (fun bs => concat bs) <$> mapM (expand_aligned vs' ts') (chunks v (numel_of vs') d)
      else if decide (v = 1) then
        (fun r => concat (replicate t r)) <$> expand_aligned vs' ts' d
      else None
  | _, _ => None
  end.

Definition expand_to {A} (v : Tensor A) (ts : list nat) : result (list A) :=
  let vs := strip_ones (shape v) in
  if decide (length vs <= length ts) then
    of_option RuntimeError
      (expand_aligned (replicate (length ts - length vs) 1 ++ vs) ts (data v))
  else Raise RuntimeError.

(** [t[:n] = v] (with [rank = 1]) and [t[:n, :] = v] (with [rank = 2]):
    the slice is clamped to the first dimension, as Python slices are. *)
Definition setitem_prefix {A} (rank : nat) (t : Tensor A) (n : nat)
    (v : Tensor A) : result (Tensor A) :=
  match shape t with
  | s0 :: rest =>
      if decide (rank <= length (shape t)) then
        let n' := n `min` s0 in
        do d <- expand_to v (n' :: rest);
        Ok (mkTensor (shape t) (d ++ drop (n' * numel_of rest) (data t)))
      else Raise IndexError
  | [] => Raise IndexError
  end.

(** [t[:n] = x] and [t[:n, :] = x] for a Python scalar [x]. *)
Definition fill_prefix {A} (rank : nat) (t : Tensor A) (n : nat) (x : A)
    : result (Tensor A) :=
  match shape t with
  | s0 :: rest =>
      if decide (rank <= length (shape t)) then
        let k := (n `min` s0) * numel_of rest in
        Ok (mkTensor (shape t) (replicate k x ++ drop k (data t)))
      else Raise IndexError
  | [] => Raise IndexError
  end.

(** [t[-n:] = x] for a Python scalar [x] and [n > 0]. *)
Definition fill_suffix {A} (t : Tensor A) (n : nat) (x : A) : result (Tensor A) :=
  match shape t with
  | s0 :: rest =>
      let m := n `min` s0 in
      Ok (mkTensor (shape t)
            (take ((s0 - m) * numel_of rest) (data t)
               ++ replicate (m * numel_of rest) x))
  | [] => Raise IndexError
  end.

(** [torch.cat(ts, 0)].  An empty list is rejected; one-dimensional tensors
    without entries are skipped; the others must agree on every dimension
    but the first. *)
Definition skipped {A} (t : Tensor A) : bool := bool_decide (shape t = [0]).

Definition cat0 {A} (ts : list (Tensor A)) : result (Tensor A) :=
  match ts with
  | [] => Raise RuntimeError
  | _ :: _ =>
      match filter (fun t => skipped t = false) ts with
      | [] => Ok (mkTensor [0] [])
      | (t0 :: _) as live =>
          match shape t0 with
          | [] => Raise RuntimeError
          | _ :: rest =>
              if forallb (fun t => bool_decide (tail (shape t) = rest
                                                /\ shape t <> [])) live
              then Ok (mkTensor (sum_list ((fun t => default 0 (head (shape t)))
                                       <$> live) :: rest)
                         (concat (data <$> live)))
              else Raise RuntimeError
          end
      end
  end.

(** *** Boolean masks

    [t[mask]] and [t[mask] = v]: the shape of [mask] has to be a prefix of
    the shape of [t]; the blocks of [t] under a true entry are selected, in
    storage order. *)

Definition count_true (m : list bool) : nat := length (filter (fun b => b = true) m).

Fixpoint select_blocks {A} (w : nat) (m : list bool) (d : list A) : list A :=
  match m with
  | [] => []
  | b :: m' =>
      (if b then take w d else []) ++ select_blocks w m' (drop w d)
  end.

Fixpoint scatter_blocks {A} (w : nat) (m : list bool) (old new : list A) : list A :=
  match m with
  | [] => []
  | true :: m' => take w new ++ scatter_blocks w m' (drop w old) (drop w new)
  | false :: m' => take w old ++ scatter_blocks w m' (drop w old) new
  end.

Definition mask_fits {A} (mask : Tensor bool) (t : Tensor A) : bool :=
  bool_decide (take (length (shape mask)) (shape t) = shape mask).

Definition mask_select {A} (t : Tensor A) (mask : Tensor bool) : result (Tensor A) :=
  if mask_fits mask t then
    let rest := drop (length (shape mask)) (shape t) in
    Ok (mkTensor (count_true (data mask) :: rest)
          (select_blocks (numel_of rest) (data mask) (data t)))
  else Raise IndexError.

Definition mask_assign {A} (t : Tensor A) (mask : Tensor bool) (v : Tensor A)
    : result (Tensor A) :=
  if mask_fits mask t then
    let rest := drop (length (shape mask)) (shape t) in
    do d <- expand_to v (count_true (data mask) :: rest);
    Ok (mkTensor (shape t) (scatter_blocks (numel_of rest) (data mask) (data t) d))
  else Raise IndexError.

(** *** Gathering and slicing along dimension 1 *)

(** [torch.gather(input, 1, index)] on matrices: the index may have fewer
    rows than the input, and every index has to name a column. *)
Definition gather_row {A} (r : list A) (ix : list Z) : option (list A) :=
  mapM (fun i : Z => if decide (0 <= i)%Z then r !! Z.to_nat i else None) ix.

Definition gather1 {A} (input : Tensor A) (index : Tensor Z) : result (Tensor A) :=
  match shape input, shape index with
  | [R; C], [r; c] =>
      if decide (r <= R) then
        do rows <- of_option RuntimeError
                     (mapM (fun p => gather_row p.1 p.2)
                        (zip (chunks r C (data input)) (chunks r c (data index))));
        Ok (mkTensor [r; c] (concat rows))
      else Raise RuntimeError
  | _, _ => Raise RuntimeError
  end.

(** [t[:, None]] *)
Definition unsqueeze1 {A} (t : Tensor A) : result (Tensor A) :=
  match shape t with
  | s0 :: rest => Ok (mkTensor (s0 :: 1 :: rest) (data t))
  | [] => Raise IndexError
  end.

(** [t.squeeze(1)] *)
Definition squeeze1 {A} (t : Tensor A) : result (Tensor A) :=
  match shape t with
  | s0 :: s1 :: rest =>
      if decide (s1 = 1) then Ok (mkTensor (s0 :: rest) (data t)) else Ok t
  | _ => Raise IndexError
  end.

(** [t.flatten(1)] *)
Definition flatten1 {A} (t : Tensor A) : result (Tensor A) :=
  match shape t with
  | s0 :: s1 :: rest => Ok (mkTensor [s0; numel_of (s1 :: rest)] (data t))
  | _ => Raise IndexError
  end.

(** [t[:, 1:]] *)
Definition cols_from1 {A} (t : Tensor A) : result (Tensor A) :=
  match shape t with
  | s0 :: s1 :: rest =>
      let w := numel_of rest in
      Ok (mkTensor (s0 :: (s1 - 1) :: rest)
            (concat (drop w <$> chunks s0 (s1 * w) (data t))))
  | _ => Raise IndexError
  end.

(** [t[:, [0]]] *)
Definition col0 {A} (t : Tensor A) : result (Tensor A) :=
  match shape t with
  | s0 :: s1 :: rest =>
      if decide (0 < s1) then
        let w := numel_of rest in
        Ok (mkTensor (s0 :: 1 :: rest)
              (concat (take w <$> chunks s0 (s1 * w) (data t))))
      else Raise IndexError
  | _ => Raise IndexError
  end.

(** [torch.cat((a, b), dim=1)] *)
Definition cat1 {A} (a b : Tensor A) : result (Tensor A) :=
  if skipped a then (if skipped b then Ok (mkTensor [0] []) else
                       match shape b with
                       | _ :: _ :: _ => Ok b
                       | _ => Raise IndexError
                       end)
  else if skipped b then match shape a with
                         | _ :: _ :: _ => Ok a
                         | _ => Raise IndexError
                         end
  else
    match shape a, shape b with
    | a0 :: a1 :: arest, b0 :: b1 :: brest =>
        if decide (a0 = b0 /\ arest = brest) then
          let w := numel_of arest in
          Ok (mkTensor (a0 :: (a1 + b1) :: arest)
                (concat (zip_with app (chunks a0 (a1 * w) (data a))
                                      (chunks a0 (b1 * w) (data b)))))
        else Raise RuntimeError
    | _, _ => Raise IndexError
    end.

(** *** 64-bit integer tensors *)

Definition wrap64 (z : Z) : Z := ((z + 2 ^ 63) `mod` 2 ^ 64 - 2 ^ 63)%Z.

Definition tmap {A B} (f : A -> B) (t : Tensor A) : Tensor B :=
  mkTensor (shape t) (f <$> data t).

(** [torch.stack([t + i for i in range(4)], 1)] on 64-bit integers. *)
Definition stack4_offsets (t : Tensor Z) : result (Tensor Z) :=
  match shape t with
  | s0 :: rest =>
      let w := numel_of rest in
      Ok (mkTensor (s0 :: 4 :: rest)
            (concat ((fun b : list Z =>
                        concat ((fun i : Z => (fun l => wrap64 (l + i)) <$> b)
                                  <$> [0; 1; 2; 3]%Z))
                       <$> chunks s0 w (data t))))
  | [] => Raise IndexError
  end.

(** *** Arithmetic on rational tensors *)

Definition tsum (t : Tensor Qc) : Qc := foldr Qcplus 0%Qc (data t).

Definition gt_scalar (t : Tensor Qc) (x : Qc) : Tensor bool :=
  tmap (fun v => bool_decide (x < v)%Qc) t.

Definition Qc_of_nat (n : nat) : Qc := Q2Qc (inject_Z (Z.of_nat n)).

Definition Qcmax (a b : Qc) : Qc := if decide (a < b)%Qc then b else a.

(** [v.expand(ts)]: broadcasting that keeps every dimension of [v], as in
    [dst.copy_(v)], in the bias of a linear layer and in arithmetic. *)
Definition expand_strict {A} (v : Tensor A) (ts : list nat) : result (list A) :=
  if decide (length (shape v) <= length ts) then
    of_option RuntimeError
      (expand_aligned (replicate (length ts - length (shape v)) 1 ++ shape v)
         ts (data v))
  else Raise RuntimeError.

(** [a /= b] and the like: [b] is broadcast to the shape of [a], which the
    result keeps. *)
Definition zip_inplace (f : Qc -> Qc -> Qc) (a b : Tensor Qc) : result (Tensor Qc) :=
  do d <- expand_strict b (shape a);
  Ok (mkTensor (shape a) (zip_with f (data a) d)).

(** [a + b], both sides broadcast to their common shape. *)
Fixpoint common_shape_rev (a b : list nat) : option (list nat) :=
  match a, b with
  | [], _ => Some b
  | _, [] => Some a
  | x :: a', y :: b' =>
      if decide (x = y) then cons x <$> common_shape_rev a' b'
      else if decide (x = 1) then cons y <$> common_shape_rev a' b'
      else if decide (y = 1) then cons x <$> common_shape_rev a' b'
      else None
  end.

Definition tadd (a b : Tensor Qc) : result (Tensor Qc) :=
  do s <- of_option RuntimeError
            (reverse <$> common_shape_rev (reverse (shape a)) (reverse (shape b)));
  do da <- expand_strict a s;
  do db <- expand_strict b s;
  Ok (mkTensor s (zip_with Qcplus da db)).

(** [t[mask, idx]] for a one-dimensional mask and a one-dimensional index:
    the positions of the true entries are paired with the indices (either
    side may have a single entry, which is then repeated) and select the
    blocks [t[i, j]]; a negative index counts from the end. *)
Definition true_positions (m : list bool) : list nat :=
  (fun p => p.1) <$> filter (fun p => p.2 = true) (imap (fun i b => (i, b)) m).

Definition pair_up {A B} (l : list A) (k : list B) : option (list (A * B)) :=
  if decide (length l = length k) then Some (zip l k)
  else match l, k with
       | [a], _ => Some (zip (replicate (length k) a) k)
       | _, [b] => Some (zip l (replicate (length l) b))
       | _, _ => None
       end.

Definition norm_index (n : nat) (j : Z) : option nat :=
  if decide (0 <= j < Z.of_nat n)%Z then Some (Z.to_nat j)
  else if decide (- Z.of_nat n <= j < 0)%Z then Some (Z.to_nat (j + Z.of_nat n))
  else None.

Definition index_mask_long {A} (t : Tensor A) (mask : Tensor bool) (idx : Tensor Z)
    : result (Tensor A) :=
  match shape t, shape mask, shape idx with
  | s0 :: s1 :: rest, [m0], [_] =>
      if decide (m0 = s0) then
        let w := numel_of rest in
        do ps <- of_option IndexError
                   (pair_up (true_positions (data mask)) (data idx));
        do blocks <- of_option IndexError
                       (mapM (fun p : nat * Z =>
                                (fun j => take w (drop ((p.1 * s1 + j) * w) (data t)))
                                  <$> norm_index s1 p.2)
                          ps);
        Ok (mkTensor (length ps :: rest) (concat blocks))
      else Raise IndexError
  | _, _, _ => Raise IndexError
  end.

(** ** The collaborators of the head *)

(** A float32 scalar, the result of a reduction: a finite number, an
    infinity or NaN.  An operation on finite numbers overflows to an
    infinity when the magnitude of its result reaches [2^128 - 2^103],
    half a unit in the last place above the largest finite float32.  The
    rounding of a result that stays finite is not modelled: it changes
    which finite number a sum is, not what becomes of it when it is
    multiplied by zero. *)
Inductive Scalar : Type :=
  | Finite (q : Qc)
  | PosInf
  | NegInf
  | NaN.

Definition overflow_bound : Qc := Q2Qc (inject_Z (2 ^ 128 - 2 ^ 103)).

Definition to_float (q : Qc) : Scalar :=
  if decide (overflow_bound <= q)%Qc then PosInf
  else if decide (q <= - overflow_bound)%Qc then NegInf
  else Finite q.

Definition fadd (a b : Scalar) : Scalar :=
  match a, b with
  | NaN, _ | _, NaN => NaN
  | PosInf, NegInf | NegInf, PosInf => NaN
  | PosInf, _ | _, PosInf => PosInf
  | NegInf, _ | _, NegInf => NegInf
  | Finite x, Finite y => to_float (x + y)
  end.

(** [t.sum()]: the entries are added to the running sum in storage order
    (PyTorch does not fix the order, which matters only when a partial sum
    overflows although the total does not). *)
Definition sum_of (t : Tensor Qc) : Scalar :=
  foldl (fun acc v => fadd acc (Finite v)) (Finite 0%Qc) (data t).

(** [s * c] for a Python number [c]: an infinity times zero is NaN. *)
Definition times (s : Scalar) (c : Qc) : Scalar :=
  match s with
  | Finite x => to_float (x * c)
  | PosInf =>
      if decide (c = 0%Qc) then NaN else if decide (0 < c)%Qc then PosInf else NegInf
  | NegInf =>
      if decide (c = 0%Qc) then NaN else if decide (0 < c)%Qc then NegInf else PosInf
  | NaN => NaN
  end.

Record BBoxCoder : Type := {
  bbox_encode : Tensor Qc -> Tensor Qc -> Tensor Qc;
  bbox_decode : Tensor Qc -> Tensor Qc -> list nat -> Tensor Qc
}.

Record BinCoder : Type := {
  bin_encode : Tensor Qc -> Tensor Qc * Tensor Qc * Tensor Qc * Tensor Qc;
  bin_decode : Tensor Qc -> Tensor Qc -> Tensor Qc -> Tensor Qc
}.

Record RatioCoder : Type := {
  ratio_encode : Tensor Qc -> Tensor Qc
}.

Definition RegLoss : Type :=
  Tensor Qc -> Tensor Qc -> Tensor Qc -> Qc -> option string -> Scalar.

Definition ClsLoss : Type :=
  Tensor Qc -> Tensor Z -> Tensor Qc -> Qc -> option string -> Scalar.

Record TrainCfg : Type := { pos_weight : Qc }.

Record TestCfg : Type := {
  score_thr : Qc;
  nms : gmap string Qc;
  max_per_img : nat
}.

(** The names the module imports. *)
Record Imports : Type := {
  hbb2poly : Tensor Qc -> Tensor Qc;
  bbox2type : Tensor Qc -> string -> Tensor Qc;
  multiclass_arb_nms :
    Tensor Qc -> Tensor Qc -> Qc -> gmap string Qc -> nat -> string
    -> Tensor Qc * Tensor Z;
  accuracy : Tensor Qc -> Tensor Z -> Scalar;
  softmax1 : Tensor Qc -> Tensor Qc;
  sigmoid : Qc -> Qc;
  (** the grid generator that [F.affine_grid] calls once its checks pass *)
  affine_grid : Tensor Qc -> list nat -> Tensor Qc;
  grid_sample : Tensor Qc -> Tensor Qc -> Tensor Qc
}.

(** ** Linear layers *)

Record Linear : Type := mkLinear {
  weight : Tensor Qc;   (* out_features x in_features *)
  bias : Tensor Qc      (* out_features *)
}.

(** [nn.Linear(n_in, n_out)]: the initial entries are whatever the
    initialiser draws. *)
Definition new_linear (n_in n_out : nat) (draw : nat -> Qc) : Linear :=
  mkLinear (mkTensor [n_out; n_in] (draw <$> seq 0 (n_out * n_in)))
           (mkTensor [n_out] (draw <$> seq (n_out * n_in) n_out)).

Definition dot (r w : list Qc) : Qc :=
  foldr (fun p acc => (p.1 * p.2 + acc)%Qc) 0%Qc (zip r w).

(** [fc(x)]: every row of [x] is multiplied by the transposed weight and
    shifted by the bias. *)
Definition linear (fc : Linear) (x : Tensor Qc) : result (Tensor Qc) :=
  match shape (weight fc), reverse (shape x) with
  | [n_out; n_in], last :: lead =>
      if decide (last = n_in) then
        let rows := chunks (numel_of lead) n_in (data x) in
        let ws := chunks n_out n_in (data (weight fc)) in
        do b <- expand_strict (bias fc) [n_out];
        Ok (mkTensor (reverse lead ++ [n_out])
              (concat ((fun r => zip_with Qcplus ((fun w => dot r w) <$> ws) b)
                         <$> rows)))
      else Raise RuntimeError
  | _, _ => Raise RuntimeError
  end.

Definition relu (t : Tensor Qc) : Tensor Qc := tmap (fun v => Qcmax v 0) t.

(** ** The head *)

Record VRBBoxHead : Type := mkHead {
  num_shared_fcs : nat;
  roi_feat_size : nat * nat;
  in_channels : nat;
  fc_out_channels : nat;
  num_classes : nat;
  reg_class_agnostic : bool;
  ratio_thr : Qc;
  num_bins : nat;
  bbox_coder : BBoxCoder;
  bin_coder : BinCoder;
  ratio_coder : RatioCoder;
  loss_cls : ClsLoss;
  loss_bbox : RegLoss;
  loss_bin_cls : RegLoss;
  loss_bin_offset : RegLoss;
  loss_ratio : RegLoss;
  shared_fcs_cls : list Linear;
  shared_fcs_reg : list Linear;
  fc_cls : Linear;
  fc_reg : Linear;
  fc_bin_cls : Linear;
  fc_bin_offset : Linear;
  fc_ratio : Linear;
  fc_theta : option Linear
}.

Definition roi_feat_area (self : VRBBoxHead) : nat :=
  (roi_feat_size self).1 * (roi_feat_size self).2.

Definition set_fc_theta (self : VRBBoxHead) (fc : Linear) : VRBBoxHead :=
  mkHead (num_shared_fcs self) (roi_feat_size self) (in_channels self)
    (fc_out_channels self) (num_classes self) (reg_class_agnostic self)
    (ratio_thr self) (num_bins self) (bbox_coder self) (bin_coder self)
    (ratio_coder self) (loss_cls self) (loss_bbox self) (loss_bin_cls self)
    (loss_bin_offset self) (loss_ratio self) (shared_fcs_cls self)
    (shared_fcs_reg self) (fc_cls self) (fc_reg self) (fc_bin_cls self)
    (fc_bin_offset self) (fc_ratio self) (Some fc).

(** ** The functions of the head *)

Record Targets : Type := mkTargets {
  tg_labels : Tensor Z;
  tg_label_weights : Tensor Qc;
  tg_bbox_targets : Tensor Qc;
  tg_bbox_weights : Tensor Qc;
  tg_bin_cls_targets : Tensor Qc;
  tg_bin_cls_weights : Tensor Qc;
  tg_bin_offset_targets : Tensor Qc;
  tg_bin_offset_weights : Tensor Qc;
  tg_ratio_targets : Tensor Qc;
  tg_ratio_weights : Tensor Qc
}.

Record SamplingResult : Type := mkSampling {
  pos_bboxes : Tensor Qc;
  neg_bboxes : Tensor Qc;
  pos_gt_bboxes : Tensor Qc;
  pos_gt_labels : Tensor Z
}.

Record Predictions : Type := mkPredictions {
  p_cls_score : Tensor Qc;
  p_bbox_pred : Tensor Qc;
  p_bin_cls_pred : Tensor Qc;
  p_bin_offset_pred : Tensor Qc;
  p_ratio_pred : Tensor Qc
}.

(** What [get_targets] returns: the ten concatenated tensors, or, with
    [concat] disabled, the outputs of the images (kept here image by image
    rather than as ten lists). *)
Inductive TargetsOut : Type :=
  | Concatenated (t : Targets)
  | PerImage (ts : list Targets).

Inductive ClsScores : Type :=
  | OneScore (t : Tensor Qc)
  | ScoreList (l : list (Tensor Qc)).

Inductive ScaleFactor : Type :=
  | ScaleFloat (q : Qc)
  | ScaleSeq (l : list Qc).

Inductive Detections : Type :=
  | Raw (polys scores : Tensor Qc)
  | Final (det_bboxes : Tensor Qc) (det_labels : Tensor Z).

(** Modelled from the spec: [multi_apply] (mmdet.core) is not part of this
    file; it applies the per-image routine to every image independently
    and hands back the outputs, here image by image.  (The library
    transposes them into one list per output; with no image that tuple is
    empty, which is what the unpacking in [get_targets] rejects.) *)
Definition multi_apply {A B} (f : A -> result B) (args : list A) : result (list B) :=
  mapR f args.

Section Head.

Variable E : Imports.

(** *** [affine_trans] and [forward] *)

Definition affine_trans (self : VRBBoxHead) (draw : nat -> Qc) (feats : Tensor Qc)
    : result (VRBBoxHead * Tensor Qc) :=
  let fc := new_linear (in_channels self * roi_feat_area self) 6 draw in
  let fc := mkLinear (tmap (fun _ => 0%Qc) (weight fc)) (bias fc) in
  do b <- expand_strict (mkTensor [6] [1; 0; 0; 0; 1; 0]%Qc) (shape (bias fc));
  let fc := mkLinear (weight fc) (mkTensor (shape (bias fc)) b) in
  let self := set_fc_theta self fc in
  do theta <- linear fc feats;
  Ok (self, theta).

(** [F.affine_grid(theta, size)]: the checks of the library function that
    precede the grid generator [affine_grid E].  A size of four entries
    asks for matrices of shape N x 2 x 3, a size of five entries for
    matrices of shape N x 3 x 4, no other size is supported, and no entry
    of the size may be zero. *)
Definition F_affine_grid (theta : Tensor Qc) (size : list nat) : result (Tensor Qc) :=
  do _ <-
    match length size with
    | 4 => match shape theta with
           | [_; 2; 3] => Ok tt
           | _ => Raise ValueError
           end
    | 5 => match shape theta with
           | [_; 3; 4] => Ok tt
           | _ => Raise ValueError
           end
    | _ => Raise NotImplementedError
    end;
  if forallb (fun d => bool_decide (0 < d)) size
  then Ok (affine_grid E theta size)
  else Raise ValueError.

(** The first four statements of [forward]: the warped feature map. *)
Definition warp (self : VRBBoxHead) (draw : nat -> Qc) (x : Tensor Qc)
    : result (VRBBoxHead * Tensor Qc) :=
  do feats <- flatten1 x;
  do '(self, theta) <- affine_trans self draw feats;
  do theta <- view theta [None; Some 2; Some 3];
  do grid <- F_affine_grid theta (shape x);
  Ok (self, grid_sample E x grid).

Fixpoint tower (fcs : list Linear) (x : Tensor Qc) : result (Tensor Qc) :=
  match fcs with
  | [] => Ok x
  | fc :: fcs' => do y <- linear fc x; tower fcs' (relu y)
  end.

Definition forward (self : VRBBoxHead) (draw : nat -> Qc) (x : Tensor Qc)
    : result (VRBBoxHead * Predictions) :=
  do '(self, x_affine) <- warp self draw x;
  do x_for_cls <- flatten1 x_affine;
  do x_for_reg <- flatten1 x;
  do x_for_cls <- tower (shared_fcs_cls self) x_for_cls;
  do x_for_reg <- tower (shared_fcs_reg self) x_for_reg;
  do cls_score <- linear (fc_cls self) x_for_cls;
  do bbox_pred <- linear (fc_reg self) x_for_reg;
  do bin_cls_pred <- linear (fc_bin_cls self) x_for_reg;
  do bin_offset <- linear (fc_bin_offset self) x_for_reg;
  let bin_offset_pred := tmap (fun v => (sigmoid E v - Q2Qc (1 # 2))%Qc) bin_offset in
  do ratio <- linear (fc_ratio self) x_for_reg;
  let ratio_pred := tmap (sigmoid E) ratio in
  Ok (self, mkPredictions cls_score bbox_pred bin_cls_pred bin_offset_pred ratio_pred).

(** *** [_get_target_single] and [get_targets] *)

Definition _get_target_single (self : VRBBoxHead)
    (pos_bboxes neg_bboxes pos_gt_bboxes : Tensor Qc) (pos_gt_labels : Tensor Z)
    (cfg : TrainCfg) : result Targets :=
  do num_pos <- size pos_bboxes 0;
  do num_neg <- size neg_bboxes 0;
  let num_samples := num_pos + num_neg in
  let labels := full [num_samples] (Z.of_nat (num_classes self)) in
  let label_weights := full [num_samples] 0%Qc in
  let bbox_targets := full [num_samples; 4] 0%Qc in
  let bbox_weights := full [num_samples; 4] 0%Qc in
  let bin_cls_targets := full [num_samples; 4 * num_bins self] 0%Qc in
  let bin_cls_weights := full [num_samples; 4 * num_bins self] 0%Qc in
  let bin_offset_targets := full [num_samples; 4] 0%Qc in
  let bin_offset_weights := full [num_samples; 4] 0%Qc in
  let ratio_targets := full [num_samples; 1] 0%Qc in
  let ratio_weights := full [num_samples; 1] 0%Qc in
  do t <-
    (if decide (0 < num_pos) then
       do labels <- setitem_prefix 1 labels num_pos pos_gt_labels;
       let pos_weight :=
         if decide (pos_weight cfg <= 0)%Qc then 1%Qc else pos_weight cfg in
       do label_weights <- fill_prefix 1 label_weights num_pos pos_weight;
       let pos_bbox_targets :=
         bbox_encode (bbox_coder self) pos_bboxes (bbox2type E pos_gt_bboxes "hbb") in
       do bbox_targets <- setitem_prefix 2 bbox_targets num_pos pos_bbox_targets;
       do bbox_weights <- fill_prefix 2 bbox_weights num_pos 1%Qc;
       let '(_bin_cls_targets, _bin_cls_weights,
             _bin_offset_targets, _bin_offset_weights) :=
         bin_encode (bin_coder self) (bbox2type E pos_gt_bboxes "poly") in
       do bin_cls_targets <- setitem_prefix 2 bin_cls_targets num_pos _bin_cls_targets;
       do bin_cls_weights <- setitem_prefix 2 bin_cls_weights num_pos _bin_cls_weights;
       do bin_offset_targets <-
         setitem_prefix 2 bin_offset_targets num_pos _bin_offset_targets;
       do bin_offset_weights <-
         setitem_prefix 2 bin_offset_weights num_pos _bin_offset_weights;
       let pos_ratio_targets :=
         ratio_encode (ratio_coder self) (bbox2type E pos_gt_bboxes "poly") in
       do ratio_targets <- setitem_prefix 2 ratio_targets num_pos pos_ratio_targets;
       do ratio_weights <- fill_prefix 2 ratio_weights num_pos 1%Qc;
       Ok (mkTargets labels label_weights bbox_targets bbox_weights
             bin_cls_targets bin_cls_weights bin_offset_targets
             bin_offset_weights ratio_targets ratio_weights)
     else
       Ok (mkTargets labels label_weights bbox_targets bbox_weights
             bin_cls_targets bin_cls_weights bin_offset_targets
             bin_offset_weights ratio_targets ratio_weights));
  do label_weights <-
    (if decide (0 < num_neg)
     then fill_suffix (tg_label_weights t) num_neg 1%Qc
     else Ok (tg_label_weights t));
  Ok (mkTargets (tg_labels t) label_weights (tg_bbox_targets t)
        (tg_bbox_weights t) (tg_bin_cls_targets t) (tg_bin_cls_weights t)
        (tg_bin_offset_targets t) (tg_bin_offset_weights t)
        (tg_ratio_targets t) (tg_ratio_weights t)).

(** The ten names are unpacked from the outputs of [multi_apply] before
    [concat] is looked at: with no image there is nothing to unpack, and
    the call ends with [ValueError]. *)
Definition get_targets (self : VRBBoxHead) (sampling_results : list SamplingResult)
    (gt_bboxes : list (Tensor Qc)) (gt_labels : list (Tensor Z))
    (rcnn_train_cfg : TrainCfg) (concat : bool) : result TargetsOut :=
  do outputs <-
    multi_apply
      (fun res => _get_target_single self (pos_bboxes res) (neg_bboxes res)
                    (pos_gt_bboxes res) (pos_gt_labels res) rcnn_train_cfg)
      sampling_results;
  do _ <- match outputs with
          | [] => Raise ValueError
          | _ :: _ => Ok tt
          end;
  if concat then
    do labels <- cat0 (tg_labels <$> outputs);
    do label_weights <- cat0 (tg_label_weights <$> outputs);
    do bbox_targets <- cat0 (tg_bbox_targets <$> outputs);
    do bbox_weights <- cat0 (tg_bbox_weights <$> outputs);
    do bin_cls_targets <- cat0 (tg_bin_cls_targets <$> outputs);
    do bin_cls_weights <- cat0 (tg_bin_cls_weights <$> outputs);
    do bin_offset_targets <- cat0 (tg_bin_offset_targets <$> outputs);
    do bin_offset_weights <- cat0 (tg_bin_offset_weights <$> outputs);
    do ratio_targets <- cat0 (tg_ratio_targets <$> outputs);
    do ratio_weights <- cat0 (tg_ratio_weights <$> outputs);
    Ok (Concatenated
          (mkTargets labels label_weights bbox_targets bbox_weights
             bin_cls_targets bin_cls_weights bin_offset_targets
             bin_offset_weights ratio_targets ratio_weights))
  else Ok (PerImage outputs).

(** *** [loss] *)

(** [pred.view(pred.size(0), -1, width)[pos_inds, labels[pos_inds]]]: the
    slice of every positive sample that belongs to its own class. *)
Definition pos_pred_by_class (pred : Tensor Qc) (width : nat) (labels : Tensor Z)
    (pos_inds : Tensor bool) : result (Tensor Qc) :=
  do n <- size pred 0;
  do v <- view pred [Some n; None; Some width];
  do pos_labels <- mask_select labels pos_inds;
  index_mask_long v pos_inds pos_labels.

(** [pred.view(pred.size(0), width)[pos_inds]] *)
Definition pos_pred_agnostic (pred : Tensor Qc) (width : nat) (pos_inds : Tensor bool)
    : result (Tensor Qc) :=
  do n <- size pred 0;
  do v <- view pred [Some n; Some width];
  mask_select v pos_inds.

Definition loss (self : VRBBoxHead)
    (cls_score bbox_pred bin_cls_pred bin_offset_pred ratio_pred rois : Tensor Qc)
    (labels : Tensor Z)
    (label_weights bbox_targets bbox_weights bin_cls_targets bin_cls_weights
       bin_offset_targets bin_offset_weights ratio_targets ratio_weights : Tensor Qc)
    (reduction_override : option string) : result (gmap string Scalar) :=
  let losses : gmap string Scalar := ∅ in
  let avg_factor :=
    Qcmax (Qc_of_nat (count_true (data (gt_scalar label_weights 0%Qc)))) 1%Qc in
  let losses :=
    if decide (0 < numel cls_score) then
      let losses :=
        <["loss_cls" := loss_cls self cls_score labels label_weights avg_factor
                          reduction_override]> losses in
      <["acc" := accuracy E cls_score labels]> losses
    else losses in
  let bg_class_ind := Z.of_nat (num_classes self) in
  let pos_inds :=
    tmap (fun l => bool_decide (0 <= l)%Z && bool_decide (l < bg_class_ind)%Z) labels in
  if existsb id (data pos_inds) then
    do '(pos_bbox_pred, pos_bin_cls_pred, pos_bin_offset_pred, pos_ratio_pred) <-
      (if reg_class_agnostic self then
         do a <- pos_pred_agnostic bbox_pred 4 pos_inds;
         do b <- pos_pred_agnostic bin_cls_pred (4 * num_bins self) pos_inds;
         do c <- pos_pred_agnostic bin_offset_pred 4 pos_inds;
         do d <- pos_pred_agnostic ratio_pred 1 pos_inds;
         Ok (a, b, c, d)
       else
         do a <- pos_pred_by_class bbox_pred 4 labels pos_inds;
         do b <- pos_pred_by_class bin_cls_pred (4 * num_bins self) labels pos_inds;
         do c <- pos_pred_by_class bin_offset_pred 4 labels pos_inds;
         do d <- pos_pred_by_class ratio_pred 1 labels pos_inds;
         Ok (a, b, c, d));
    do t1 <- mask_select bbox_targets pos_inds;
    do w1 <- mask_select bbox_weights pos_inds;
    do n1 <- size bbox_targets 0;
    let losses :=
      <["loss_bbox" := loss_bbox self pos_bbox_pred t1 w1 (Qc_of_nat n1)
                         reduction_override]> losses in
    do t2 <- mask_select bin_cls_targets pos_inds;
    do w2 <- mask_select bin_cls_weights pos_inds;
    do n2 <- size bin_cls_targets 0;
    let losses :=
      <["loss_bin_cls" := loss_bin_cls self pos_bin_cls_pred t2 w2
                            (Qc_of_nat (n2 * num_bins self))
                            reduction_override]> losses in
    do t3 <- mask_select bin_offset_targets pos_inds;
    do w3 <- mask_select bin_offset_weights pos_inds;
    do n3 <- size bin_offset_targets 0;
    let losses :=
      <["loss_bin_offset" := loss_bin_offset self pos_bin_offset_pred t3 w3
                               (Qc_of_nat n3) reduction_override]> losses in
    do t4 <- mask_select ratio_targets pos_inds;
    do w4 <- mask_select ratio_weights pos_inds;
    do n4 <- size ratio_targets 0;
    let losses :=
      <["loss_ratio" := loss_ratio self pos_ratio_pred t4 w4 (Qc_of_nat n4)
                          reduction_override]> losses in
    Ok losses
  else
    let losses := <["loss_bbox" := times (sum_of bbox_pred) 0%Qc]> losses in
    let losses := <["loss_bin_cls" := times (sum_of bin_cls_pred) 0%Qc]> losses in
    let losses := <["loss_bin_offset" := times (sum_of bin_offset_pred) 0%Qc]> losses in
    let losses := <["loss_ratio" := times (sum_of ratio_pred) 0%Qc]> losses in
    Ok losses.

(** *** [get_bboxes] *)

(** [sum(cls_score) / float(len(cls_score))] *)
Definition mean_scores (l : list (Tensor Qc)) : result (Tensor Qc) :=
  match l with
  | [] => Raise ZeroDivisionError
  | t :: l' =>
      do s <- foldl (fun acc u => do a <- acc; tadd a u) (Ok t) l';
      Ok (tmap (fun v => (v / Qc_of_nat (length l))%Qc) s)
  end.

Definition get_bboxes (self : VRBBoxHead) (rois : Tensor Qc) (cls_score : ClsScores)
    (bbox_pred bin_cls_pred bin_offset_pred ratio_pred : Tensor Qc)
    (img_shape : list nat) (scale_factor : ScaleFactor) (rescale : bool)
    (cfg : option TestCfg) : result Detections :=
  do cls_score <-
    match cls_score with
    | OneScore t => Ok t
    | ScoreList l => mean_scores l
    end;
  let scores := softmax1 E cls_score in
  do boxes_in <- cols_from1 rois;
  let bboxes := bbox_decode (bbox_coder self) boxes_in bbox_pred img_shape in
  let polys := bin_decode (bin_coder self) bboxes bin_cls_pred bin_offset_pred in
  do bboxes <- view bboxes ((Some <$> shape ratio_pred) ++ [Some 4]);
  do polys <- view polys ((Some <$> shape ratio_pred) ++ [Some 8]);
  let mask := gt_scalar ratio_pred (ratio_thr self) in
  do rect <- mask_select bboxes mask;
  do polys <- mask_assign polys mask (hbb2poly E rect);
  do polys <-
    (if rescale then
       let factors :=
         match scale_factor with
         | ScaleFloat q => replicate 4 q
         | ScaleSeq l => l
         end in
       zip_inplace Qcdiv polys (mkTensor [2 * length factors] (factors ++ factors))
     else Ok polys);
  do n <- size polys 0;
  do polys <- view polys [Some n; None];
  match cfg with
  | None => Ok (Raw polys scores)
  | Some c =>
      let '(det_bboxes, det_labels) :=
        multiclass_arb_nms E polys scores (score_thr c) (nms c) (max_per_img c) "poly" in
      Ok (Final det_bboxes det_labels)
  end.

(** *** [regress_by_class] *)

(** The gathers of the class-aware branch. *)
Definition gather_by_class (self : VRBBoxHead) (label : Tensor Z)
    (bbox_pred bin_cls_pred bin_offset_pred ratio_pred : Tensor Qc)
    : result (Tensor Qc * Tensor Qc * Tensor Qc * Tensor Qc) :=
  do column <- unsqueeze1 label;
  do ratio_pred <- gather1 ratio_pred column;
  do bin_cls_pred <- view bin_cls_pred [None; Some (4 * num_classes self)];
  let label := tmap (fun l => wrap64 (l * 4)) label in
  do inds <- stack4_offsets label;
  do bbox_pred <- gather1 bbox_pred inds;
  do bin_cls_pred <- gather1 bin_cls_pred inds;
  do bin_offset_pred <- gather1 bin_offset_pred inds;
  do bin_cls_pred <- view bin_cls_pred [None; Some (4 * num_bins self)];
  Ok (bbox_pred, bin_cls_pred, bin_offset_pred, ratio_pred).

Definition regress_by_class (self : VRBBoxHead) (rois : Tensor Qc) (label : Tensor Z)
    (bbox_pred bin_cls_pred bin_offset_pred ratio_pred : Tensor Qc)
    (img_meta : gmap string (list nat)) : result (Tensor Qc) :=
  do c <- size rois 1;
  do _ <- assert (bool_decide (c = 4) || bool_decide (c = 5));
  do '(bbox_pred, bin_cls_pred, bin_offset_pred, ratio_pred) <-
    (if reg_class_agnostic self
     then Ok (bbox_pred, bin_cls_pred, bin_offset_pred, ratio_pred)
     else gather_by_class self label bbox_pred bin_cls_pred bin_offset_pred ratio_pred);
  do c1 <- size bbox_pred 1;
  do _ <- assert (bool_decide (c1 = 4));
  do c2 <- size bin_cls_pred 1;
  do _ <- assert (bool_decide (c2 = 4 * num_bins self));
  do c3 <- size bin_offset_pred 1;
  do _ <- assert (bool_decide (c3 = 4));
  if decide (c = 4) then
    do img_shape <- of_option KeyError (img_meta !! "img_shape");
    let bboxes := bbox_decode (bbox_coder self) rois bbox_pred img_shape in
    let new_rois := bin_decode (bin_coder self) bboxes bin_cls_pred bin_offset_pred in
    do ratio_pred <- squeeze1 ratio_pred;
    mask_assign new_rois (gt_scalar ratio_pred (ratio_thr self)) (hbb2poly E bboxes)
  else
    do boxes_in <- cols_from1 rois;
    do img_shape <- of_option KeyError (img_meta !! "img_shape");
    let bboxes := bbox_decode (bbox_coder self) boxes_in bbox_pred img_shape in
    let polys := bin_decode (bin_coder self) bboxes bin_cls_pred bin_offset_pred in
    do ratio_pred <- squeeze1 ratio_pred;
    do polys <-
      mask_assign polys (gt_scalar ratio_pred (ratio_thr self)) (hbb2poly E bboxes);
    do ids <- col0 rois;
    cat1 ids polys.

End Head.

(** ** Construction and initialisation *)







(** ** [refine_bboxes] *)

(** [t[:, 0]] *)
Definition select_col0 {A} (t : Tensor A) : result (Tensor A) :=
  match shape t with
  | s0 :: s1 :: rest =>
      if decide (0 < s1) then
        let w := numel_of rest in
        Ok (mkTensor (s0 :: rest)
              (concat (take w <$> chunks s0 (s1 * w) (data t))))
      else Raise IndexError
  | _ => Raise IndexError
  end.

(** [t[inds]] for a one-dimensional index of non-negative entries. *)
Definition rows_at {A} (t : Tensor A) (inds : list nat) : result (Tensor A) :=
  match shape t with
  | s0 :: rest =>
      let w := numel_of rest in
      do blocks <- of_option IndexError
                     (mapM (fun i => if decide (i < s0)
                                     then Some (take w (drop (i * w) (data t)))
                                     else None)
                        inds);
      Ok (mkTensor (length inds :: rest) (concat blocks))
  | [] => Raise IndexError
  end.

(** [x.long()]: truncation towards zero. *)
Definition Qc_to_long (q : Qc) : Z :=
  wrap64 (Z.quot (Qnum (this q)) (Zpos (Qden (this q)))).

(** [ids.unique(sorted=True)] *)
Definition unique_sorted (l : list Z) : list Z := merge_sort Z.le (remove_dups l).

(** The end of the loop body: [keep_inds] holds a one for every RoI, its
    first entries are overwritten by [1 - pos_is_gts_] (unsigned 8-bit
    arithmetic), and the rows with a non-zero entry are kept. *)
Definition drop_gts (bboxes : Tensor Qc) (pos_is_gts_ : list Z) (num_rois : nat)
    : result (Tensor Qc) :=
  let pos_keep :=
    mkTensor [length pos_is_gts_] ((fun x => (1 - x) `mod` 256)%Z <$> pos_is_gts_) in
  let keep_inds := full [num_rois] 1%Z in
  do keep_inds <- setitem_prefix 1 keep_inds (length pos_is_gts_) pos_keep;
  mask_select bboxes (tmap (fun x => bool_decide (x <> 0%Z)) keep_inds).

Section Callers.

Variable E : Imports.

(** [rois] is the matrix of the docstring; the flags of an image are a
    vector of unsigned 8-bit integers.  A [rois] tensor of three or more
    dimensions is outside the model and answered with [IndexError]. *)
Definition refine_bboxes (self : VRBBoxHead) (rois : Tensor Qc) (labels : Tensor Z)
    (bbox_preds bin_cls_preds bin_offset_preds ratio_preds : Tensor Qc)
    (pos_is_gts : list (list Z)) (img_metas : list (gmap string (list nat)))
    : result (list (Tensor Qc)) :=
  match shape rois with
  | _ :: _ :: _ :: _ => Raise IndexError
  | _ =>
      do ids <- select_col0 rois;
      let img_ids := unique_sorted (Qc_to_long <$> data ids) in
      do _ <- assert (bool_decide (length img_ids <= length img_metas));
      mapR
        (fun i =>
           let inds :=
             true_positions ((fun v => bool_decide (v = Qc_of_nat i)) <$> data ids) in
           let num_rois := length inds in
           do picked <- rows_at rois inds;
           do bboxes_ <- cols_from1 picked;
           do label_ <- rows_at labels inds;
           do bbox_pred_ <- rows_at bbox_preds inds;
           do bin_cls_pred_ <- rows_at bin_cls_preds inds;
           do bin_offset_pred_ <- rows_at bin_offset_preds inds;
           do ratio_pred_ <- rows_at ratio_preds inds;
           do img_meta_ <- of_option IndexError (img_metas !! i);
           do pos_is_gts_ <- of_option IndexError (pos_is_gts !! i);
           do bboxes <-
             regress_by_class E self bboxes_ label_ bbox_pred_ bin_cls_pred_
               bin_offset_pred_ ratio_pred_ img_meta_;
           drop_gts bboxes pos_is_gts_ num_rois)
        (seq 0 (length img_metas))
  end.

End Callers.

(** ** A concrete head

    Stand-ins for the collaborators, used to run the functions above on
    explicit inputs: the box decoder returns the deltas as boxes, the bin
    decoder lists every box twice, and [hbb2poly] lists the corners
    clockwise from the top left. *)

Definition lead_dims (s : list nat) : list nat := take (length s - 1) s.

Definition per_row {A} (w w' : nat) (f : list A -> list A) (t : Tensor A) : Tensor A :=
  mkTensor (lead_dims (shape t) ++ [w'])
    (concat (f <$> chunks (numel_of (lead_dims (shape t))) w (data t))).

Definition corners (b : list Qc) : list Qc :=
  match b with
  | [l; t; r; b] => [l; t; r; t; r; b; l; b]
  | _ => replicate 8 0%Qc
  end.

Definition demo_scalar : Scalar := Finite 0%Qc.

Definition demo_imports : Imports := {|
  hbb2poly := per_row 4 8 corners;
  bbox2type := fun t _ => t;
  multiclass_arb_nms := fun polys _ _ _ _ _ => (polys, mkTensor [0] []);
  accuracy := fun _ _ => demo_scalar;
  softmax1 := fun t => t;
  sigmoid := fun _ => Q2Qc (1 # 2);
  affine_grid := fun theta _ => theta;
  grid_sample := fun x _ => x
|}.



Definition rows_of {A} (t : Tensor A) : nat := default 0 (head (shape t)).

Definition demo_bbox_coder : BBoxCoder := {|
  bbox_encode := fun rois _ => mkTensor [rows_of rois; 4] (replicate (rows_of rois * 4) 1%Qc);
  bbox_decode := fun _ deltas _ => deltas
|}.

Definition demo_bin_coder (bins : nat) : BinCoder := {|
  bin_encode := fun gt =>
    (full [rows_of gt; 4 * bins] 1%Qc, full [rows_of gt; 4 * bins] 1%Qc,
     full [rows_of gt; 4] 1%Qc, full [rows_of gt; 4] 1%Qc);
  bin_decode := fun bboxes _ _ => per_row 4 8 (fun b => b ++ b) bboxes
|}.

Definition demo_ratio_coder : RatioCoder := {|
  ratio_encode := fun gt => full [rows_of gt; 1] 1%Qc
|}.

Definition demo_linear (n_in n_out : nat) : Linear :=
  new_linear n_in n_out (fun _ => 1%Qc).

Definition demo_head (classes bins : nat) (agnostic : bool) : VRBBoxHead := {|
  num_shared_fcs := 0;
  roi_feat_size := (1, 1);
  in_channels := 2;
  fc_out_channels := 2;
  num_classes := classes;
  reg_class_agnostic := agnostic;
  ratio_thr := Q2Qc (8 # 10);
  num_bins := bins;
  bbox_coder := demo_bbox_coder;
  bin_coder := demo_bin_coder bins;
  ratio_coder := demo_ratio_coder;
  loss_cls := fun _ _ _ _ _ => demo_scalar;
  loss_bbox := fun _ _ _ _ _ => demo_scalar;
  loss_bin_cls := fun _ _ _ _ _ => demo_scalar;
  loss_bin_offset := fun _ _ _ _ _ => demo_scalar;
  loss_ratio := fun _ _ _ _ _ => demo_scalar;
  shared_fcs_cls := [];
  shared_fcs_reg := [];
  fc_cls := demo_linear 2 (classes + 1);
  fc_reg := demo_linear 2 (if agnostic then 4 else 4 * classes);
  fc_bin_cls := demo_linear 2 (if agnostic then 4 * bins else 4 * bins * classes);
  fc_bin_offset := demo_linear 2 (if agnostic then 4 else 4 * classes);
  fc_ratio := demo_linear 2 (if agnostic then 1 else classes);
  fc_theta := None
|}.

(** Rational and integer tensors from integer literals. *)
Definition qt (s : list nat) (l : list Z) : Tensor Qc :=
  mkTensor s ((fun z => Q2Qc (inject_Z z)) <$> l).
Definition tenths (s : list nat) (l : list Z) : Tensor Qc :=
  mkTensor s ((fun z => Q2Qc (z # 10)) <$> l).

(** * Vocabulary of the statements *)

Definition well_shaped {A} (t : Tensor A) (s : list nat) : Prop :=
  shape t = s /\ wf t.

(** A tensor of [np + nn] rows: the rows of the positives, then [nn] rows
    that hold [neg] everywhere. *)
Definition pos_then_neg {A} (np nn : nat) (cols : list nat) (pos : list A) (neg : A)
    : Tensor A :=
  mkTensor ((np + nn) :: cols) (pos ++ replicate (nn * numel_of cols) neg).

Definition n_pos (res : SamplingResult) : nat := rows_of (pos_bboxes res).
Definition n_neg (res : SamplingResult) : nat := rows_of (neg_bboxes res).

Section TargetSpec.

Variable E : Imports.
Variable self : VRBBoxHead.
Variable cfg : TrainCfg.

Definition enc_bbox (res : SamplingResult) : Tensor Qc :=
  bbox_encode (bbox_coder self) (pos_bboxes res) (bbox2type E (pos_gt_bboxes res) "hbb").
Definition enc_bin (res : SamplingResult)
    : Tensor Qc * Tensor Qc * Tensor Qc * Tensor Qc :=
  bin_encode (bin_coder self) (bbox2type E (pos_gt_bboxes res) "poly").
Definition enc_ratio (res : SamplingResult) : Tensor Qc :=
  ratio_encode (ratio_coder self) (bbox2type E (pos_gt_bboxes res) "poly").

Definition label_weight_pos : Qc :=
  if decide (pos_weight cfg <= 0)%Qc then 1%Qc else pos_weight cfg.

(** What the sampler and the coders have to deliver: one label and one
    encoded row per positive RoI. *)
Definition sampling_ok (res : SamplingResult) : Prop :=
  shape (pos_bboxes res) <> [] /\
  shape (neg_bboxes res) <> [] /\
  well_shaped (pos_gt_labels res) [n_pos res] /\
  well_shaped (enc_bbox res) [n_pos res; 4] /\
  well_shaped (enc_bin res).1.1.1 [n_pos res; 4 * num_bins self] /\
  well_shaped (enc_bin res).1.1.2 [n_pos res; 4 * num_bins self] /\
  well_shaped (enc_bin res).1.2 [n_pos res; 4] /\
  well_shaped (enc_bin res).2 [n_pos res; 4] /\
  well_shaped (enc_ratio res) [n_pos res; 1].

Definition assigned (res : SamplingResult) : Targets :=
  let np := n_pos res in
  let nn := n_neg res in
  mkTargets
    (pos_then_neg np nn [] (data (pos_gt_labels res)) (Z.of_nat (num_classes self)))
    (pos_then_neg np nn [] (replicate (np * 1) label_weight_pos) 1%Qc)
    (pos_then_neg np nn [4] (data (enc_bbox res)) 0%Qc)
    (pos_then_neg np nn [4] (replicate (np * 4) 1%Qc) 0%Qc)
    (pos_then_neg np nn [4 * num_bins self] (data (enc_bin res).1.1.1) 0%Qc)
    (pos_then_neg np nn [4 * num_bins self] (data (enc_bin res).1.1.2) 0%Qc)
    (pos_then_neg np nn [4] (data (enc_bin res).1.2) 0%Qc)
    (pos_then_neg np nn [4] (data (enc_bin res).2) 0%Qc)
    (pos_then_neg np nn [1] (data (enc_ratio res)) 0%Qc)
    (pos_then_neg np nn [1] (replicate (np * 1) 1%Qc) 0%Qc).

End TargetSpec.

(** Row [i] of a tensor: the block of its storage that the first index
    [i] addresses. *)
Definition row {A} (t : Tensor A) (i : nat) : list A :=
  let w := numel_of (tail (shape t)) in
  take w (drop (i * w) (data t)).

(** Every output is the per-image blocks in image order, and inside one
    image the rows of the positives come before the rows of the
    negatives. *)
Definition stacked {A} (srs : list SamplingResult) (cols : list nat)
    (pos : SamplingResult -> list A) (neg : A) (t : Tensor A) : Prop :=
  shape t = sum_list ((fun res => n_pos res + n_neg res) <$> srs) :: cols /\
  data t = concat ((fun res => pos res ++ replicate (n_neg res * numel_of cols) neg)
                     <$> srs) /\
  Forall (fun res => length (pos res) = n_pos res * numel_of cols) srs.

Definition stacks_images (E : Imports) (self : VRBBoxHead) (cfg : TrainCfg)
    (srs : list SamplingResult) (t : Targets) : Prop :=
  stacked srs [] (fun res => data (pos_gt_labels res))
    (Z.of_nat (num_classes self)) (tg_labels t) /\
  stacked srs [] (fun res => replicate (n_pos res * 1) (label_weight_pos cfg))
    1%Qc (tg_label_weights t) /\
  stacked srs [4] (fun res => data (enc_bbox E self res)) 0%Qc (tg_bbox_targets t) /\
  stacked srs [4] (fun res => replicate (n_pos res * 4) 1%Qc) 0%Qc (tg_bbox_weights t) /\
  stacked srs [4 * num_bins self] (fun res => data (enc_bin E self res).1.1.1)
    0%Qc (tg_bin_cls_targets t) /\
  stacked srs [4 * num_bins self] (fun res => data (enc_bin E self res).1.1.2)
    0%Qc (tg_bin_cls_weights t) /\
  stacked srs [4] (fun res => data (enc_bin E self res).1.2) 0%Qc
    (tg_bin_offset_targets t) /\
  stacked srs [4] (fun res => data (enc_bin E self res).2) 0%Qc
    (tg_bin_offset_weights t) /\
  stacked srs [1] (fun res => data (enc_ratio E self res)) 0%Qc (tg_ratio_targets t) /\
  stacked srs [1] (fun res => replicate (n_pos res * 1) 1%Qc) 0%Qc (tg_ratio_weights t).

Definition demo_cfg : TrainCfg := {| pos_weight := Q2Qc (-1) |}.

(** One image with one positive RoI of class 1 and one negative RoI. *)
Definition demo_sampling : SamplingResult := {|
  pos_bboxes := qt [1; 4] [0; 0; 10; 10]%Z;
  neg_bboxes := qt [1; 4] [20; 20; 30; 30]%Z;
  pos_gt_bboxes := qt [1; 8] [0; 0; 10; 0; 10; 10; 0; 10]%Z;
  pos_gt_labels := mkTensor [1] [1%Z]
|}.

(** An entry of the loss mapping that is [pred.sum() * 0]: it is zero
    when the sum of [pred] is finite, and NaN when the sum has overflowed. *)
Definition zero_reduction_of (pred : Tensor Qc) (entry : option Scalar) : Prop :=
  entry = Some (times (sum_of pred) 0%Qc)
  /\ (forall q, sum_of pred = Finite q -> entry = Some (Finite 0%Qc))
  /\ (sum_of pred = PosInf \/ sum_of pred = NegInf -> entry = Some NaN).

Definition identity_row : list Qc := [1; 0; 0; 0; 1; 0]%Qc.

Definition identity_fc (self : VRBBoxHead) : Linear :=
  mkLinear (full [6; in_channels self * roi_feat_area self] 0%Qc)
           (mkTensor [6] identity_row).

Definition rmap {A B} (f : A -> B) (r : result A) : result B :=
  do a <- r; Ok (f a).

Definition demo_meta : gmap string (list nat) := {["img_shape" := [100; 100; 3]]}.

(** What the selection rule asks for, block by block: the image of the box
    where the mask holds, the polygon elsewhere. *)
Fixpoint choose_geometry {A} (w w' : nat) (f : list A -> list A) (mask : list bool)
    (polys boxes : list A) : list A :=
  match mask with
  | [] => []
  | b :: mask' =>
      (if b then f (take w boxes) else take w' polys)
        ++ choose_geometry w w' f mask' (drop w' polys) (drop w boxes)
  end.

(** The rows of [t] under the true entries of a mask over its first
    dimension. *)
Definition rows_where {A} (t : Tensor A) (mask : list bool) : Tensor A :=
  mkTensor (count_true mask :: tail (shape t))
    (select_blocks (numel_of (tail (shape t))) mask (data t)).

(** The foreground test of [loss]: a label in [0, num_classes). *)
Definition foreground (num_classes : nat) (l : Z) : bool :=
  bool_decide (0 <= l)%Z && bool_decide (l < Z.of_nat num_classes)%Z.

(** A class-agnostic batch of two samples, for running [loss]. *)
Definition demo_loss (labels : Tensor Z) : result (gmap string Scalar) :=
  loss demo_imports (demo_head 2 2 true)
    (qt [2; 3] [1; 2; 3; 4; 5; 6]%Z) (qt [2; 4] [1; 2; 3; 4; 5; 6; 7; 8]%Z)
    (qt [2; 8] (replicate 16 0%Z)) (qt [2; 4] (replicate 8 0%Z))
    (tenths [2; 1] [9; 1]%Z) (qt [2; 5] (replicate 10 0%Z))
    labels (qt [2] [1; 1]%Z)
    (qt [2; 4] (replicate 8 0%Z)) (qt [2; 4] (replicate 8 1%Z))
    (qt [2; 8] (replicate 16 0%Z)) (qt [2; 8] (replicate 16 1%Z))
    (qt [2; 4] (replicate 8 0%Z)) (qt [2; 4] (replicate 8 1%Z))
    (qt [2; 1] [0; 0]%Z) (qt [2; 1] [1; 1]%Z) None.

(** The slice of every sample that belongs to its own class, for a
    prediction with [C] classes of width [w]: the rows that [loss] selects
    in class-aware mode when every sample is a foreground sample. *)
Definition class_slices (C w : nat) (pred : Tensor Qc) (label : list Z) : Tensor Qc :=
  mkTensor [length label; w]
    (concat ((fun p : nat * Z =>
                take w (drop ((p.1 * C + Z.to_nat p.2) * w) (data pred)))
               <$> zip (seq 0 (length label)) label)).

(** The polygons of [get_bboxes] before the optional rescaling: for every
    entry of the ratio prediction, the polygon of the decoded box where the
    ratio exceeds the threshold, the bin-decoded polygon elsewhere. *)
Definition selected_polys (E : Imports) (self : VRBBoxHead)
    (f : list Qc -> list Qc) (boxes_in bbox_pred bin_cls_pred bin_offset_pred
    ratio_pred : Tensor Qc) (img_shape : list nat) : list Qc :=
  let bboxes := bbox_decode (bbox_coder self) boxes_in bbox_pred img_shape in
  let polys := bin_decode (bin_coder self) bboxes bin_cls_pred bin_offset_pred in
  choose_geometry 4 8 f (data (gt_scalar ratio_pred (ratio_thr self)))
    (data polys) (data bboxes).

(** What [get_bboxes] asks of its collaborators on [n] RoIs with [k] ratio
    entries each: [hbb2poly] works box by box, and the decoders return one
    box and one polygon per ratio entry. *)
Definition decoders_ok (E : Imports) (self : VRBBoxHead)
    (f : list Qc -> list Qc) (boxes_in bbox_pred bin_cls_pred bin_offset_pred
    ratio_pred : Tensor Qc) (img_shape : list nat) (n k : nat) : Prop :=
  let bboxes := bbox_decode (bbox_coder self) boxes_in bbox_pred img_shape in
  let polys := bin_decode (bin_coder self) bboxes bin_cls_pred bin_offset_pred in
  (forall r, length (f r) = 8) /\
  (forall t, hbb2poly E t = per_row 4 8 f t) /\
  well_shaped ratio_pred [n; k] /\
  numel bboxes = n * k * 4 /\ wf bboxes /\
  numel polys = n * k * 8 /\ wf polys.

(** The scale factors as [get_bboxes] uses them: a float stands for four
    equal factors. *)
Definition factors_of (scale_factor : ScaleFactor) : list Qc :=
  match scale_factor with
  | ScaleFloat q => replicate 4 q
  | ScaleSeq l => l
  end.





(** The slice of every foreground sample that belongs to its own class,
    for a prediction with [C] classes of width [w]: sample [i] with label
    [l] in [0, C) contributes the [w] entries of row [i] from column
    [l * w] on; the other samples contribute nothing. *)
Definition positive_slices (C w : nat) (pred : Tensor Qc) (labels : list Z)
    : Tensor Qc :=
  let pos :=
    filter (fun p : nat * Z => foreground C p.2 = true)
      (zip (seq 0 (length labels)) labels) in
  mkTensor [length pos; w]
    (concat ((fun p : nat * Z =>
                take w (drop ((p.1 * C + Z.to_nat p.2) * w) (data pred))) <$> pos)).

(** The rows of the sampled positives in the concatenated targets: for
    every image, true on its positives, then false on its negatives. *)
Definition sampled_positive_mask (srs : list SamplingResult) : list bool :=
  concat ((fun res => replicate (n_pos res) true ++ replicate (n_neg res) false) <$> srs).

(** One image with two negative RoIs and no positive RoI. *)
Definition demo_negatives : SamplingResult := {|
  pos_bboxes := qt [0; 4] [];
  neg_bboxes := qt [2; 4] [20; 20; 30; 30; 40; 40; 50; 50]%Z;
  pos_gt_bboxes := qt [0; 8] [];
  pos_gt_labels := mkTensor [0] []
|}.


(** * Properties *)

(** ** The tensor operations on small inputs *)

Example view_infers_rows :
  view (qt [2; 6] [1; 2; 3; 4; 5; 6; 7; 8; 9; 10; 11; 12]%Z) [None; Some 4]
  = Ok (qt [3; 4] [1; 2; 3; 4; 5; 6; 7; 8; 9; 10; 11; 12]%Z).
Proof. reflexivity. Qed.

Example view_rejects_remainder :
  view (qt [2; 6] [1; 2; 3; 4; 5; 6; 7; 8; 9; 10; 11; 12]%Z) [None; Some 5]
  = Raise RuntimeError.
Proof. reflexivity. Qed.

Example cat0_skips_legacy_empty :
  cat0 [qt [1; 2] [1; 2]%Z; qt [0] []; qt [2; 2] [3; 4; 5; 6]%Z]
  = Ok (qt [3; 2] [1; 2; 3; 4; 5; 6]%Z).
Proof. reflexivity. Qed.

Example cat0_rejects_columns :
  cat0 [qt [1; 2] [1; 2]%Z; qt [2; 3] [3; 4; 5; 6; 7; 8]%Z] = Raise RuntimeError.
Proof. reflexivity. Qed.

Example gather1_picks_columns :
  gather1 (qt [3; 3] [1; 2; 3; 4; 5; 6; 7; 8; 9]%Z) (mkTensor [2; 2] [0; 2; 1; 1]%Z)
  = Ok (qt [2; 2] [1; 3; 5; 5]%Z).
Proof. reflexivity. Qed.

Example gather1_rejects_column :
  gather1 (qt [3; 3] [1; 2; 3; 4; 5; 6; 7; 8; 9]%Z) (mkTensor [2; 2] [0; 3; 1; 1]%Z)
  = Raise RuntimeError.
Proof. reflexivity. Qed.

Example mask_assign_rows :
  mask_assign (qt [3; 2] [1; 2; 3; 4; 5; 6]%Z) (mkTensor [3] [true; false; true])
    (qt [2; 2] [7; 8; 9; 10]%Z)
  = Ok (qt [3; 2] [7; 8; 3; 4; 9; 10]%Z).
Proof. reflexivity. Qed.

Example mask_assign_repeats_single_row :
  mask_assign (qt [3; 2] [1; 2; 3; 4; 5; 6]%Z) (mkTensor [3] [true; false; true])
    (qt [1; 2] [7; 8]%Z)
  = Ok (qt [3; 2] [7; 8; 3; 4; 7; 8]%Z).
Proof. reflexivity. Qed.

Example mask_assign_rejects_all_rows :
  mask_assign (qt [3; 2] [1; 2; 3; 4; 5; 6]%Z) (mkTensor [3] [true; false; true])
    (qt [3; 2] [7; 8; 9; 10; 11; 12]%Z)
  = Raise RuntimeError.
Proof. reflexivity. Qed.

Example mask_select_blocks :
  mask_select (qt [2; 2; 2] [1; 2; 3; 4; 5; 6; 7; 8]%Z)
    (mkTensor [2; 2] [true; false; false; true])
  = Ok (qt [2; 2] [1; 2; 7; 8]%Z).
Proof. reflexivity. Qed.

Example index_mask_long_pairs :
  index_mask_long (qt [2; 2; 2] [1; 2; 3; 4; 5; 6; 7; 8]%Z)
    (mkTensor [2] [true; true]) (mkTensor [2] [1; 0]%Z)
  = Ok (qt [2; 2] [3; 4; 5; 6]%Z).
Proof. reflexivity. Qed.

Example stack4_offsets_rows :
  stack4_offsets (mkTensor [2] [0; 4]%Z)
  = Ok (mkTensor [2; 4] [0; 1; 2; 3; 4; 5; 6; 7]%Z).
Proof. reflexivity. Qed.

Example setitem_prefix_rows :
  setitem_prefix 2 (qt [3; 2] [0; 0; 0; 0; 0; 0]%Z) 2 (qt [2; 2] [1; 2; 3; 4]%Z)
  = Ok (qt [3; 2] [1; 2; 3; 4; 0; 0]%Z).
Proof. reflexivity. Qed.

Example fill_suffix_rows :
  fill_suffix (qt [3] [1; 2; 3]%Z) 2 (Q2Qc 9) = Ok (qt [3] [1; 9; 9]%Z).
Proof. reflexivity. Qed.

Example linear_rows :
  rmap (fun t => (shape t, this <$> data t))
    (linear (mkLinear (qt [2; 3] [1; 0; 0; 0; 1; 1]%Z) (qt [2] [10; 20]%Z))
       (qt [2; 3] [1; 2; 3; 4; 5; 6]%Z))
  = Ok ([2; 2], [11; 25; 14; 31]%Q).
Proof. reflexivity. Qed.

Example cols_and_ids :
  (do ids <- col0 (qt [2; 3] [1; 2; 3; 4; 5; 6]%Z);
   do boxes <- cols_from1 (qt [2; 3] [1; 2; 3; 4; 5; 6]%Z);
   cat1 ids boxes)
  = Ok (qt [2; 3] [1; 2; 3; 4; 5; 6]%Z).
Proof. reflexivity. Qed.

Example targets_of_one_image :
  rmap (fun t => (tg_labels t, tg_label_weights t, tg_bbox_weights t))
    (_get_target_single demo_imports (demo_head 2 2 false)
       (pos_bboxes demo_sampling) (neg_bboxes demo_sampling)
       (pos_gt_bboxes demo_sampling) (pos_gt_labels demo_sampling) demo_cfg)
  = Ok (mkTensor [2] [1; 2]%Z, qt [2] [1; 1]%Z, qt [2; 4] [1; 1; 1; 1; 0; 0; 0; 0]%Z).
Proof. reflexivity. Qed.

(** ** The result monad *)

Lemma rbind_Ok {A B} (m : result A) (k : A -> result B) (b : B) :
  rbind m k = Ok b -> exists a, m = Ok a /\ k a = Ok b.
Proof. destruct m as [a|e]; simpl; [eauto | discriminate]. Qed.

Lemma mapR_length {A B} (f : A -> result B) (l : list A) (k : list B) :
  mapR f l = Ok k -> length k = length l.
Proof.
  revert k. induction l as [|x l IH]; intros k; simpl.
  - intros [= <-]. reflexivity.
  - intros H. apply rbind_Ok in H as (y & _ & H).
    apply rbind_Ok in H as (ys & Hys & [= <-]).
    simpl. f_equal. auto.
Qed.

Lemma mapR_ext_Ok {A B} (f : A -> result B) (g : A -> B) (l : list A) :
  Forall (fun x => f x = Ok (g x)) l -> mapR f l = Ok (g <$> l).
Proof.
  induction 1 as [|x l Hx _ IH]; simpl; [reflexivity|].
  rewrite Hx. simpl. rewrite IH. reflexivity.
Qed.

(** ** Storage blocks *)

Lemma length_chunks {A} (n w : nat) (d : list A) : length (chunks n w d) = n.
Proof. revert d. induction n; intros; simpl; auto. Qed.

Lemma concat_chunks {A} (n w : nat) (d : list A) :
  length d = n * w -> concat (chunks n w d) = d.
Proof.
  revert d. induction n as [|n IH]; intros d Hd; simpl in *.
  - symmetry. apply nil_length_inv. exact Hd.
  - rewrite IH.
    + apply take_drop.
    + rewrite length_drop. lia.
Qed.

Lemma Forall_length_chunks {A} (n w : nat) (d : list A) :
  length d = n * w -> Forall (fun b => length b = w) (chunks n w d).
Proof.
  revert d. induction n as [|n IH]; intros d Hd; simpl in *; constructor.
  - rewrite length_take. lia.
  - apply IH. rewrite length_drop. lia.
Qed.

Lemma chunks_replicate {A} (n w : nat) (x : A) :
  chunks n w (replicate (n * w) x) = replicate n (replicate w x).
Proof.
  induction n as [|n IH]; simpl; [reflexivity|].
  rewrite take_replicate, drop_replicate.
  replace (w `min` (w + n * w)) with w by lia.
  replace (w + n * w - w) with (n * w) by lia.
  rewrite IH. reflexivity.
Qed.

Lemma numel_of_cons (n : nat) (s : list nat) : numel_of (n :: s) = n * numel_of s.
Proof. reflexivity. Qed.

(** ** Broadcasting *)

Lemma expand_aligned_same {A} (s : list nat) (d : list A) :
  length d = numel_of s -> expand_aligned s s d = Some d.
Proof.
  revert d. induction s as [|v s IH]; intros d Hd; simpl; [reflexivity|].
  rewrite decide_True by reflexivity.
  rewrite numel_of_cons in Hd.
  assert (mapM (expand_aligned s s) (chunks v (numel_of s) d)
          = Some (chunks v (numel_of s) d)) as ->.
  { apply mapM_Some, Forall_Forall2_diag.
    eapply Forall_impl; [apply Forall_length_chunks; exact Hd|].
    intros b Hb. apply IH. exact Hb. }
  simpl. rewrite concat_chunks by exact Hd. reflexivity.
Qed.

Lemma strip_ones_pad (s : list nat) :
  length (strip_ones s) <= length s /\
  replicate (length s - length (strip_ones s)) 1 ++ strip_ones s = s.
Proof.
  induction s as [|v s [IHl IHe]]; simpl; [split; [lia | reflexivity]|].
  destruct v as [|[|v]]; simpl.
  - split; [lia|]. rewrite Nat.sub_diag. reflexivity.
  - split; [lia|].
    replace (S (length s) - length (strip_ones s))
      with (S (length s - length (strip_ones s))) by lia.
    simpl. rewrite IHe. reflexivity.
  - split; [lia|]. rewrite Nat.sub_diag. reflexivity.
Qed.

Lemma expand_to_same {A} (v : Tensor A) :
  wf v -> expand_to v (shape v) = Ok (data v).
Proof.
  intros Hv. unfold expand_to.
  destruct (strip_ones_pad (shape v)) as [Hl He].
  rewrite decide_True by exact Hl.
  rewrite He, expand_aligned_same by exact Hv. reflexivity.
Qed.

Lemma expand_strict_same {A} (v : Tensor A) :
  wf v -> expand_strict v (shape v) = Ok (data v).
Proof.
  intros Hv. unfold expand_strict.
  rewrite decide_True by lia.
  rewrite Nat.sub_diag. simpl.
  rewrite expand_aligned_same by exact Hv. reflexivity.
Qed.

(** ** Assignments into freshly allocated tensors *)

Lemma size0_rows {A} (t : Tensor A) : shape t <> [] -> size t 0 = Ok (rows_of t).
Proof. unfold size, rows_of. destruct (shape t); [congruence | reflexivity]. Qed.

Lemma full_pos_then_neg {A} (np nn : nat) (cols : list nat) (x : A) :
  full ((np + nn) :: cols) x
  = pos_then_neg np nn cols (replicate (np * numel_of cols) x) x.
Proof.
  unfold full, pos_then_neg. f_equal.
  rewrite numel_of_cons, Nat.mul_add_distr_r. apply replicate_add.
Qed.

Lemma setitem_prefix_full {A} (rank np nn : nat) (cols : list nat) (x : A)
    (v : Tensor A) :
  rank <= S (length cols) ->
  well_shaped v (np :: cols) ->
  setitem_prefix rank (full ((np + nn) :: cols) x) np v
  = Ok (pos_then_neg np nn cols (data v) x).
Proof.
  intros Hr [Hs Hv]. unfold setitem_prefix. simpl.
  rewrite decide_True by exact Hr.
  replace (np `min` (np + nn)) with np by lia.
  rewrite <- Hs, expand_to_same by exact Hv. simpl.
  unfold pos_then_neg. do 2 f_equal.
  rewrite drop_replicate. do 2 f_equal. lia.
Qed.

Lemma fill_prefix_full {A} (rank np nn : nat) (cols : list nat) (x y : A) :
  rank <= S (length cols) ->
  fill_prefix rank (full ((np + nn) :: cols) x) np y
  = Ok (pos_then_neg np nn cols (replicate (np * numel_of cols) y) x).
Proof.
  intros Hr. unfold fill_prefix. simpl.
  rewrite decide_True by exact Hr.
  replace (np `min` (np + nn)) with np by lia.
  unfold pos_then_neg. do 3 f_equal.
  rewrite drop_replicate. f_equal. lia.
Qed.

Lemma fill_suffix_pos_then_neg {A} (np nn : nat) (cols : list nat) (pos : list A)
    (x y : A) :
  length pos = np * numel_of cols ->
  fill_suffix (pos_then_neg np nn cols pos x) nn y
  = Ok (pos_then_neg np nn cols pos y).
Proof.
  intros Hp. unfold fill_suffix, pos_then_neg. simpl.
  replace (nn `min` (np + nn)) with nn by lia.
  replace (np + nn - nn) with np by lia.
  rewrite <- Hp, take_app_length. reflexivity.
Qed.

Lemma pos_then_neg_no_neg {A} (np : nat) (cols : list nat) (pos : list A) (x y : A) :
  pos_then_neg np 0 cols pos x = pos_then_neg np 0 cols pos y.
Proof. reflexivity. Qed.

(** ** [_get_target_single] in closed form *)

Lemma nil_of_shape0 {A} (t : Tensor A) (cols : list nat) :
  well_shaped t (0 :: cols) -> data t = [].
Proof.
  intros [Hs Hw]. apply nil_length_inv.
  unfold wf, numel in Hw. rewrite Hw, Hs. reflexivity.
Qed.

Lemma _get_target_single_assigned (E : Imports) (self : VRBBoxHead) (cfg : TrainCfg)
    (res : SamplingResult) :
  sampling_ok E self res ->
  _get_target_single E self (pos_bboxes res) (neg_bboxes res) (pos_gt_bboxes res)
    (pos_gt_labels res) cfg
  = Ok (assigned E self cfg res).
Proof.
  intros (Hp & Hn & Hl & Hb & Hc1 & Hc2 & Ho1 & Ho2 & Hr).
  unfold _get_target_single.
  rewrite (size0_rows _ Hp), (size0_rows _ Hn). cbn [rbind].
  fold (n_pos res) (n_neg res).
  unfold assigned, label_weight_pos, enc_bbox, enc_ratio, enc_bin in *.
  destruct (bin_encode (bin_coder self) (bbox2type E (pos_gt_bboxes res) "poly"))
    as [[[c1 c2] o1] o2]. cbn [fst snd] in *.
  assert (length (replicate (n_pos res * 1) (label_weight_pos cfg))
          = n_pos res * numel_of []) as Hlw by apply length_replicate.
  unfold label_weight_pos in Hlw.
  destruct (decide (0 < n_pos res)) as [Hpos|Hpos].
  - rewrite (setitem_prefix_full 1), !(setitem_prefix_full 2),
      (fill_prefix_full 1), !(fill_prefix_full 2)
      by first [assumption | simpl; lia].
    cbn [rbind tg_labels tg_label_weights tg_bbox_targets tg_bbox_weights
         tg_bin_cls_targets tg_bin_cls_weights tg_bin_offset_targets
         tg_bin_offset_weights tg_ratio_targets tg_ratio_weights].
    destruct (decide (0 < n_neg res)) as [Hneg|Hneg].
    + rewrite fill_suffix_pos_then_neg by exact Hlw. reflexivity.
    + replace (n_neg res) with 0 by lia. reflexivity.
  - assert (n_pos res = 0) as H0 by lia. rewrite H0 in *.
    rewrite (nil_of_shape0 _ _ Hl), (nil_of_shape0 _ _ Hb),
      (nil_of_shape0 _ _ Hc1), (nil_of_shape0 _ _ Hc2),
      (nil_of_shape0 _ _ Ho1), (nil_of_shape0 _ _ Ho2), (nil_of_shape0 _ _ Hr).
    rewrite !full_pos_then_neg.
    cbn [rbind tg_labels tg_label_weights tg_bbox_targets tg_bbox_weights
         tg_bin_cls_targets tg_bin_cls_weights tg_bin_offset_targets
         tg_bin_offset_weights tg_ratio_targets tg_ratio_weights].
    destruct (decide (0 < n_neg res)) as [Hneg|Hneg].
    + rewrite fill_suffix_pos_then_neg by reflexivity. reflexivity.
    + replace (n_neg res) with 0 by lia. reflexivity.
Qed.

(** ** Concatenation along the first dimension *)

Lemma skipped_empty {A} (t : Tensor A) (n : nat) (cols : list nat) :
  well_shaped t (n :: cols) -> skipped t = true -> rows_of t = 0 /\ data t = [].
Proof.
  intros [Hs Hw] Hk. unfold skipped in Hk. apply bool_decide_eq_true in Hk.
  unfold rows_of. rewrite Hk. split; [reflexivity|].
  apply nil_length_inv. unfold wf, numel in Hw. rewrite Hw, Hk. reflexivity.
Qed.

Lemma live_keeps_rows {A} (cols : list nat) (ts : list (Tensor A)) :
  Forall (fun t => exists n, well_shaped t (n :: cols)) ts ->
  sum_list (rows_of <$> filter (fun t => skipped t = false) ts)
  = sum_list (rows_of <$> ts)
  /\ concat (data <$> filter (fun t => skipped t = false) ts)
     = concat (data <$> ts).
Proof.
  induction 1 as [|t ts [n Ht] _ [IHs IHc]]; [split; reflexivity|].
  destruct (skipped t) eqn:Hk.
  - rewrite filter_cons_False by (rewrite Hk; discriminate).
    rewrite !fmap_cons. cbn [sum_list concat].
    destruct (skipped_empty t n cols Ht Hk) as [-> ->]. simpl. auto.
  - rewrite filter_cons_True by exact Hk. rewrite !fmap_cons.
    cbn [sum_list concat]. rewrite IHs, IHc. auto.
Qed.

Lemma cat0_rows {A} (cols : list nat) (ts : list (Tensor A)) :
  ts <> [] ->
  Forall (fun t => exists n, well_shaped t (n :: cols)) ts ->
  cat0 ts = Ok (mkTensor (sum_list (rows_of <$> ts) :: cols) (concat (data <$> ts))).
Proof.
  intros Hne Hall. destruct (live_keeps_rows cols ts Hall) as [Hsum Hcat].
  unfold cat0. destruct ts as [|t1 ts1]; [congruence|].
  remember (t1 :: ts1) as ts eqn:Hts.
  assert (Forall (fun t => exists n, well_shaped t (n :: cols))
            (filter (fun t => skipped t = false) ts)) as Hlive.
  { apply Forall_forall. intros t Ht. apply list_elem_of_filter in Ht as [_ Ht].
    rewrite Forall_forall in Hall. auto. }
  destruct (filter (fun t => skipped t = false) ts) as [|t0 live] eqn:Hf.
  - simpl in Hsum, Hcat. rewrite <- Hsum, <- Hcat.
    assert (skipped t1 = true) as Hk.
    { destruct (skipped t1) eqn:Hk; [reflexivity|].
      rewrite Hts, filter_cons_True in Hf by exact Hk. discriminate. }
    rewrite Hts in Hall. apply Forall_cons in Hall as [[n [Hs _]] _].
    unfold skipped in Hk. apply bool_decide_eq_true in Hk.
    rewrite Hk in Hs. injection Hs as _ <-. reflexivity.
  - rewrite <- Hsum, <- Hcat.
    pose proof Hlive as Hlive'.
    apply Forall_cons in Hlive' as [[n0 [Hs0 _]] _]. rewrite Hs0.
    assert (forallb (fun t : Tensor A =>
                       bool_decide (tail (shape t) = cols /\ shape t <> []))
              (t0 :: live) = true) as ->.
    { apply forallb_forall. intros t Ht. apply bool_decide_eq_true.
      rewrite Forall_forall in Hlive. apply list_elem_of_In in Ht.
      destruct (Hlive t Ht) as [n [Hs _]]. rewrite Hs. split; [reflexivity | discriminate]. }
    reflexivity.
Qed.

Lemma pos_then_neg_well_shaped {A} (np nn : nat) (cols : list nat) (pos : list A)
    (neg : A) :
  length pos = np * numel_of cols ->
  well_shaped (pos_then_neg np nn cols pos neg) ((np + nn) :: cols).
Proof.
  intros Hp. split; [reflexivity|].
  unfold wf, numel, pos_then_neg. simpl.
  rewrite length_app, length_replicate, Hp. lia.
Qed.

(** ** Rows of the assigned targets *)

Lemma row_pos_then_neg {A} (np nn i : nat) (cols : list nat) (pos : list A) (neg : A) :
  length pos = np * numel_of cols ->
  np <= i < np + nn ->
  row (pos_then_neg np nn cols pos neg) i = replicate (numel_of cols) neg.
Proof.
  intros Hp Hi. unfold row, pos_then_neg. cbn [shape data tail].
  rewrite drop_app_ge by nia.
  rewrite drop_replicate, take_replicate. f_equal. nia.
Qed.

Lemma row_matrix_neg {A} (np nn i c : nat) (pos : list A) (neg : A) :
  length pos = np * numel_of [c] ->
  np <= i < np + nn ->
  row (pos_then_neg np nn [c] pos neg) i = replicate c neg.
Proof.
  intros Hp Hi. rewrite row_pos_then_neg by assumption.
  f_equal. unfold numel_of. simpl. lia.
Qed.

Lemma lookup_pos_then_neg {A} (np nn i : nat) (pos : list A) (neg : A) :
  length pos = np ->
  np <= i < np + nn ->
  data (pos_then_neg np nn [] pos neg) !! i = Some neg.
Proof.
  intros Hp Hi. unfold pos_then_neg. cbn [data].
  rewrite lookup_app_r by lia.
  apply lookup_replicate. split; [reflexivity|]. simpl. lia.
Qed.

Lemma cat0_stacked {A} (srs : list SamplingResult) (cols : list nat)
    (pos : SamplingResult -> list A) (neg : A) :
  srs <> [] ->
  Forall (fun res => length (pos res) = n_pos res * numel_of cols) srs ->
  exists t,
    cat0 ((fun res => pos_then_neg (n_pos res) (n_neg res) cols (pos res) neg) <$> srs)
    = Ok t /\ stacked srs cols pos neg t.
Proof.
  intros Hne Hlen. eexists. split.
  - apply (cat0_rows cols).
    + destruct srs; [congruence | discriminate].
    + apply Forall_fmap. eapply Forall_impl; [exact Hlen|].
      intros res Hres. eexists. apply pos_then_neg_well_shaped. exact Hres.
  - unfold stacked. cbn [shape data]. rewrite <- !list_fmap_compose.
    split; [reflexivity|]. split; [reflexivity | exact Hlen].
Qed.

Lemma well_shaped_length {A} (t : Tensor A) (n : nat) (cols : list nat) :
  well_shaped t (n :: cols) -> length (data t) = n * numel_of cols.
Proof. intros [Hs Hw]. unfold wf, numel in Hw. rewrite Hw, Hs. reflexivity. Qed.

Lemma demo_sampling_ok : sampling_ok demo_imports (demo_head 2 2 false) demo_sampling.
Proof. repeat split; discriminate. Defined.

(** For a non-empty list of per-image sampling results that carry one
    label and one encoded row per positive RoI, [get_targets] with [concat]
    returns, and what it returns is stacked image by image. *)
Lemma get_targets_concatenated (E : Imports) (self : VRBBoxHead) (cfg : TrainCfg)
    (srs : list SamplingResult) (gt_bboxes : list (Tensor Qc))
    (gt_labels : list (Tensor Z)) :
  srs <> [] ->
  Forall (sampling_ok E self) srs ->
  exists t,
    get_targets E self srs gt_bboxes gt_labels cfg true = Ok (Concatenated t)
    /\ stacks_images E self cfg srs t.
Proof.
  intros Hne Hok.
  unfold get_targets, multi_apply.
  rewrite (mapR_ext_Ok _ (assigned E self cfg)).
  2:{ eapply Forall_impl; [exact Hok|]. intros res Hres.
      apply _get_target_single_assigned. exact Hres. }
  cbn [rbind].
  destruct srs as [|res0 srs0]; [congruence|].
  rewrite fmap_cons. cbn [rbind]. rewrite <- fmap_cons.
  set (srs := res0 :: srs0) in *.
  rewrite <- !list_fmap_compose. unfold compose, assigned.
  cbn [tg_labels tg_label_weights tg_bbox_targets tg_bbox_weights
       tg_bin_cls_targets tg_bin_cls_weights tg_bin_offset_targets
       tg_bin_offset_weights tg_ratio_targets tg_ratio_weights].
  assert (forall P : SamplingResult -> Prop,
            (forall res, sampling_ok E self res -> P res) -> Forall P srs) as Hall.
  { intros P HP. eapply Forall_impl; [exact Hok | exact HP]. }
  destruct (cat0_stacked srs [] (fun res => data (pos_gt_labels res))
              (Z.of_nat (num_classes self)) Hne) as (t1 & -> & H1).
  { apply Hall. intros res H.
    apply well_shaped_length, H. }
  destruct (cat0_stacked srs [] (fun res => replicate (n_pos res * 1) (label_weight_pos cfg))
              1%Qc Hne) as (t2 & -> & H2).
  { apply Forall_forall. intros res _. apply length_replicate. }
  destruct (cat0_stacked srs [4] (fun res => data (enc_bbox E self res)) 0%Qc Hne)
    as (t3 & -> & H3).
  { apply Hall. intros res H.
    apply well_shaped_length, H. }
  destruct (cat0_stacked srs [4] (fun res => replicate (n_pos res * 4) 1%Qc) 0%Qc Hne)
    as (t4 & -> & H4).
  { apply Forall_forall. intros res _. apply length_replicate. }
  destruct (cat0_stacked srs [4 * num_bins self]
              (fun res => data (enc_bin E self res).1.1.1) 0%Qc Hne)
    as (t5 & -> & H5).
  { apply Hall. intros res H.
    rewrite (well_shaped_length _ (n_pos res) [4 * num_bins self]) by apply H.
    reflexivity. }
  destruct (cat0_stacked srs [4 * num_bins self]
              (fun res => data (enc_bin E self res).1.1.2) 0%Qc Hne)
    as (t6 & -> & H6).
  { apply Hall. intros res H.
    rewrite (well_shaped_length _ (n_pos res) [4 * num_bins self]) by apply H.
    reflexivity. }
  destruct (cat0_stacked srs [4] (fun res => data (enc_bin E self res).1.2) 0%Qc Hne)
    as (t7 & -> & H7).
  { apply Hall. intros res H.
    apply well_shaped_length, H. }
  destruct (cat0_stacked srs [4] (fun res => data (enc_bin E self res).2) 0%Qc Hne)
    as (t8 & -> & H8).
  { apply Hall. intros res H.
    apply well_shaped_length, H. }
  destruct (cat0_stacked srs [1] (fun res => data (enc_ratio E self res)) 0%Qc Hne)
    as (t9 & -> & H9).
  { apply Hall. intros res H.
    apply well_shaped_length, H. }
  destruct (cat0_stacked srs [1] (fun res => replicate (n_pos res * 1) 1%Qc) 0%Qc Hne)
    as (t10 & -> & H10).
  { apply Forall_forall. intros res _. apply length_replicate. }
  cbn [rbind]. eexists. split; [reflexivity|].
  unfold stacks_images.
  cbn [tg_labels tg_label_weights tg_bbox_targets tg_bbox_weights
       tg_bin_cls_targets tg_bin_cls_weights tg_bin_offset_targets
       tg_bin_offset_weights tg_ratio_targets tg_ratio_weights].
  auto 20.
Qed.

(** With no image there is nothing to unpack: the call ends with
    [ValueError], with and without [concat]. *)
Example get_targets_rejects_no_image :
  get_targets demo_imports (demo_head 2 2 false) [] [] [] demo_cfg true
  = Raise ValueError
  /\ get_targets demo_imports (demo_head 2 2 false) [] [] [] demo_cfg false
     = Raise ValueError.
Proof. split; reflexivity. Qed.

(** C3: for every list of per-image sampling results (each with one label
    and one encoded row per positive RoI), every tuple of tensors that
    [get_targets] with [concat] returns has as many rows as the sum over
    the images of [num_pos + num_neg], holds the rows in image order, and
    holds the rows of the positives of an image before the rows of its
    negatives.  For a non-empty list the call does return; for the empty
    list it raises [ValueError] and returns no tensor. *)
Theorem get_targets_stacks_images (E : Imports) (self : VRBBoxHead) (cfg : TrainCfg)
    (srs : list SamplingResult) (gt_bboxes : list (Tensor Qc))
    (gt_labels : list (Tensor Z)) :
  Forall (sampling_ok E self) srs ->
  (forall t,
     get_targets E self srs gt_bboxes gt_labels cfg true = Ok (Concatenated t) ->
     stacks_images E self cfg srs t)
  /\ (srs <> [] ->
      exists t, get_targets E self srs gt_bboxes gt_labels cfg true = Ok (Concatenated t))
  /\ (srs = [] ->
      get_targets E self srs gt_bboxes gt_labels cfg true = Raise ValueError).
Proof.
  intros Hok. destruct srs as [|res srs].
  - split; [intros t H; discriminate|]. split; [congruence | reflexivity].
  - destruct (get_targets_concatenated E self cfg (res :: srs) gt_bboxes gt_labels
                ltac:(discriminate) Hok) as (t0 & Hget & Hstack).
    split; [|split].
    + intros t H. rewrite Hget in H. injection H as <-. exact Hstack.
    + intros _. exists t0. exact Hget.
    + discriminate.
Qed.

Lemma get_targets_stacks_images_witness :
  (forall t,
     get_targets demo_imports (demo_head 2 2 false) [demo_sampling; demo_sampling]
       [] [] demo_cfg true = Ok (Concatenated t) ->
     stacks_images demo_imports (demo_head 2 2 false) demo_cfg
       [demo_sampling; demo_sampling] t)
  /\ ([demo_sampling; demo_sampling] <> [] ->
      exists t,
        get_targets demo_imports (demo_head 2 2 false) [demo_sampling; demo_sampling]
          [] [] demo_cfg true = Ok (Concatenated t))
  /\ ([demo_sampling; demo_sampling] = [] ->
      get_targets demo_imports (demo_head 2 2 false) [demo_sampling; demo_sampling]
        [] [] demo_cfg true = Raise ValueError).
Proof.
  apply (get_targets_stacks_images demo_imports (demo_head 2 2 false) demo_cfg
           [demo_sampling; demo_sampling] [] []).
  repeat constructor; apply demo_sampling_ok.
Defined.

(** C4: every negative sample gets the background label [num_classes] and
    label weight 1, and zero box, bin-classification, bin-offset and ratio
    targets and weights. *)
Theorem negatives_are_background (E : Imports) (self : VRBBoxHead) (cfg : TrainCfg)
    (res : SamplingResult) (i : nat) :
  sampling_ok E self res ->
  n_pos res <= i < n_pos res + n_neg res ->
  exists t,
    _get_target_single E self (pos_bboxes res) (neg_bboxes res) (pos_gt_bboxes res)
      (pos_gt_labels res) cfg = Ok t
    /\ data (tg_labels t) !! i = Some (Z.of_nat (num_classes self))
    /\ data (tg_label_weights t) !! i = Some 1%Qc
    /\ row (tg_bbox_targets t) i = replicate 4 0%Qc
    /\ row (tg_bbox_weights t) i = replicate 4 0%Qc
    /\ row (tg_bin_cls_targets t) i = replicate (4 * num_bins self) 0%Qc
    /\ row (tg_bin_cls_weights t) i = replicate (4 * num_bins self) 0%Qc
    /\ row (tg_bin_offset_targets t) i = replicate 4 0%Qc
    /\ row (tg_bin_offset_weights t) i = replicate 4 0%Qc
    /\ row (tg_ratio_targets t) i = replicate 1 0%Qc
    /\ row (tg_ratio_weights t) i = replicate 1 0%Qc.
Proof.
  intros Hok Hi. exists (assigned E self cfg res).
  split; [apply _get_target_single_assigned; exact Hok|].
  destruct Hok as (_ & _ & Hl & Hb & Hc1 & Hc2 & Ho1 & Ho2 & Hr).
  apply well_shaped_length in Hl, Hb, Hc1, Hc2, Ho1, Ho2, Hr.
  unfold assigned.
  cbn [tg_labels tg_label_weights tg_bbox_targets tg_bbox_weights
       tg_bin_cls_targets tg_bin_cls_weights tg_bin_offset_targets
       tg_bin_offset_weights tg_ratio_targets tg_ratio_weights].
  split; [apply lookup_pos_then_neg; [simpl in Hl; lia | exact Hi]|].
  split; [apply lookup_pos_then_neg; [rewrite length_replicate; lia | exact Hi]|].
  repeat split; apply row_matrix_neg;
    first [exact Hi | assumption | rewrite length_replicate; reflexivity].
Qed.

Lemma negatives_are_background_witness :
  exists t,
    _get_target_single demo_imports (demo_head 2 2 false)
      (pos_bboxes demo_sampling) (neg_bboxes demo_sampling)
      (pos_gt_bboxes demo_sampling) (pos_gt_labels demo_sampling) demo_cfg = Ok t
    /\ data (tg_labels t) !! 1 = Some 2%Z
    /\ data (tg_label_weights t) !! 1 = Some 1%Qc
    /\ row (tg_bbox_targets t) 1 = replicate 4 0%Qc
    /\ row (tg_bbox_weights t) 1 = replicate 4 0%Qc
    /\ row (tg_bin_cls_targets t) 1 = replicate 8 0%Qc
    /\ row (tg_bin_cls_weights t) 1 = replicate 8 0%Qc
    /\ row (tg_bin_offset_targets t) 1 = replicate 4 0%Qc
    /\ row (tg_bin_offset_weights t) 1 = replicate 4 0%Qc
    /\ row (tg_ratio_targets t) 1 = replicate 1 0%Qc
    /\ row (tg_ratio_weights t) 1 = replicate 1 0%Qc.
Proof.
  apply (negatives_are_background demo_imports (demo_head 2 2 false) demo_cfg
           demo_sampling 1).
  - apply demo_sampling_ok.
  - vm_compute. lia.
Defined.

(** C5: an image without positive and without negative samples is not an
    error; every target comes back with zero rows and its usual columns. *)
Theorem empty_image_targets (E : Imports) (self : VRBBoxHead) (cfg : TrainCfg)
    (pos neg gt : Tensor Qc) (gt_labels : Tensor Z) :
  size pos 0 = Ok 0 ->
  size neg 0 = Ok 0 ->
  _get_target_single E self pos neg gt gt_labels cfg
  = Ok (mkTargets (mkTensor [0] []) (mkTensor [0] [])
          (mkTensor [0; 4] []) (mkTensor [0; 4] [])
          (mkTensor [0; 4 * num_bins self] []) (mkTensor [0; 4 * num_bins self] [])
          (mkTensor [0; 4] []) (mkTensor [0; 4] [])
          (mkTensor [0; 1] []) (mkTensor [0; 1] [])).
Proof.
  intros Hp Hn. unfold _get_target_single. rewrite Hp, Hn. reflexivity.
Qed.

Lemma empty_image_targets_witness :
  _get_target_single demo_imports (demo_head 15 4 false)
    (qt [0; 4] []) (qt [0; 4] []) (qt [0; 8] []) (mkTensor [0] []) demo_cfg
  = Ok (mkTargets (mkTensor [0] []) (mkTensor [0] [])
          (mkTensor [0; 4] []) (mkTensor [0; 4] [])
          (mkTensor [0; 16] []) (mkTensor [0; 16] [])
          (mkTensor [0; 4] []) (mkTensor [0; 4] [])
          (mkTensor [0; 1] []) (mkTensor [0; 1] [])).
Proof.
  apply (empty_image_targets demo_imports (demo_head 15 4 false) demo_cfg
           (qt [0; 4] []) (qt [0; 4] []) (qt [0; 8] []) (mkTensor [0] []));
    reflexivity.
Defined.

(** ** [loss] *)

Lemma no_positive_mask (num : Z) (labels : list Z) :
  Forall (fun l => ~ (0 <= l < num)%Z) labels ->
  existsb id ((fun l => bool_decide (0 <= l)%Z && bool_decide (l < num)%Z) <$> labels)
  = false.
Proof.
  induction 1 as [|l labels Hl _ IH]; [reflexivity|].
  rewrite fmap_cons. cbn [existsb id]. rewrite IH, orb_false_r.
  apply andb_false_iff.
  destruct (decide (0 <= l)%Z) as [H0|H0].
  - right. apply bool_decide_eq_false. lia.
  - left. apply bool_decide_eq_false. exact H0.
Qed.

(** *** Sums in float32 *)

Lemma tsum_nonneg (d : list Qc) :
  Forall (fun v => (0 <= v)%Qc) d -> (0 <= foldr Qcplus 0%Qc d)%Qc.
Proof.
  induction 1 as [|v d Hv _ IH]; cbn [foldr]; [apply Qcle_refl|].
  rewrite <- (Qcplus_0_l 0). apply Qcplus_le_compat; assumption.
Qed.

Lemma to_float_in_range (q : Qc) :
  (0 <= q)%Qc -> (q < overflow_bound)%Qc -> to_float q = Finite q.
Proof.
  intros H0 Hb. unfold to_float.
  rewrite decide_False by (apply Qclt_not_le; exact Hb).
  rewrite decide_False; [reflexivity|].
  apply Qclt_not_le. apply Qclt_le_trans with 0%Qc; [reflexivity | exact H0].
Qed.

Lemma foldl_fadd_exact (d : list Qc) (a : Qc) :
  (0 <= a)%Qc ->
  Forall (fun v => (0 <= v)%Qc) d ->
  (a + foldr Qcplus 0%Qc d < overflow_bound)%Qc ->
  foldl (fun acc v => fadd acc (Finite v)) (Finite a) d
  = Finite (a + foldr Qcplus 0%Qc d).
Proof.
  intros Ha Hd. revert a Ha.
  induction Hd as [|v d Hv Hd IH]; intros a Ha Hb; cbn [foldl foldr] in *.
  - rewrite Qcplus_0_r. reflexivity.
  - cbn [fadd].
    assert (0 <= a + v)%Qc as Hav
      by (rewrite <- (Qcplus_0_l 0); apply Qcplus_le_compat; assumption).
    rewrite Qcplus_assoc in Hb.
    rewrite to_float_in_range; [|exact Hav|].
    + rewrite (IH (a + v)%Qc Hav Hb), Qcplus_assoc. reflexivity.
    + apply Qcle_lt_trans with (a + v + foldr Qcplus 0 d)%Qc; [|exact Hb].
      rewrite <- (Qcplus_0_r (a + v)) at 1.
      apply Qcplus_le_compat; [apply Qcle_refl | apply tsum_nonneg; exact Hd].
Qed.

(** The sum of non-negative entries is their exact sum as long as it
    stays below the overflow bound. *)
Lemma sum_of_exact (t : Tensor Qc) :
  Forall (fun v => (0 <= v)%Qc) (data t) ->
  (tsum t < overflow_bound)%Qc ->
  sum_of t = Finite (tsum t).
Proof.
  intros Hd Hb. unfold sum_of, tsum in *.
  rewrite (foldl_fadd_exact (data t) 0%Qc (Qcle_refl 0) Hd)
    by (rewrite Qcplus_0_l; exact Hb).
  rewrite Qcplus_0_l. reflexivity.
Qed.

Example sum_of_small :
  sum_of (qt [2; 2] [1; 2; -3; 4]%Z) = Finite (Q2Qc (inject_Z 4))
  /\ times (sum_of (qt [2; 2] [1; 2; -3; 4]%Z)) 0%Qc = Finite 0%Qc.
Proof. split; vm_compute; reflexivity. Qed.

(** Two entries of 2^127, the largest power of two of float32, already sum
    to an infinity, and an infinity times zero is NaN. *)
Example sum_of_overflow :
  sum_of (qt [2] [2 ^ 127; 2 ^ 127]%Z) = PosInf
  /\ sum_of (qt [2] [- 2 ^ 127; - 2 ^ 127]%Z) = NegInf
  /\ times (sum_of (qt [2] [2 ^ 127; 2 ^ 127]%Z)) 0%Qc = NaN.
Proof. repeat split; vm_compute; reflexivity. Qed.

Lemma to_float_zero : to_float 0%Qc = Finite 0%Qc.
Proof. reflexivity. Qed.

Lemma times_zero_finite (q : Qc) : times (Finite q) 0%Qc = Finite 0%Qc.
Proof.
  unfold times. replace (q * 0)%Qc with 0%Qc by ring. apply to_float_zero.
Qed.

Lemma times_zero_overflowed (s : Scalar) :
  s = PosInf \/ s = NegInf -> times s 0%Qc = NaN.
Proof. intros [-> | ->]; reflexivity. Qed.

Lemma zero_reduction_times (pred : Tensor Qc) :
  zero_reduction_of pred (Some (times (sum_of pred) 0%Qc)).
Proof.
  split; [reflexivity|]. split.
  - intros q ->. rewrite times_zero_finite. reflexivity.
  - intros H. rewrite (times_zero_overflowed _ H). reflexivity.
Qed.

(** C6, as stated, fails where a sum overflows: for a box prediction that
    holds the float32 number 2^127 twice the sum is an infinity, and the
    box loss of a batch without positives is NaN, not 0. *)
Lemma loss_of_overflowing_sum_is_nan :
  rmap (fun losses : gmap string Scalar => losses !! "loss_bbox")
    (loss demo_imports (demo_head 2 2 true)
       (qt [1; 3] [1; 2; 3]%Z) (qt [1; 4] [2 ^ 127; 2 ^ 127; 0; 0]%Z)
       (qt [1; 8] (replicate 8 0%Z)) (qt [1; 4] (replicate 4 0%Z))
       (qt [1; 1] [0]%Z) (qt [1; 5] (replicate 5 0%Z))
       (mkTensor [1] [2]%Z)
       (qt [1] [1]%Z) (qt [1; 4] (replicate 4 0%Z)) (qt [1; 4] (replicate 4 0%Z))
       (qt [1; 8] (replicate 8 0%Z)) (qt [1; 8] (replicate 8 0%Z))
       (qt [1; 4] (replicate 4 0%Z)) (qt [1; 4] (replicate 4 0%Z))
       (qt [1; 1] [0]%Z) (qt [1; 1] [0]%Z) None)
  = Ok (Some NaN).
Proof. vm_compute. reflexivity. Qed.

(** C6, as amended: when no label lies in [0, num_classes), [loss] raises
    nothing, and the box, bin-classification, bin-offset and ratio losses
    are the sum of the corresponding prediction tensor times zero, not a
    constant: zero whenever that sum is finite, NaN when it has overflowed
    to an infinity. *)
Theorem loss_without_positives (E : Imports) (self : VRBBoxHead)
    (cls_score bbox_pred bin_cls_pred bin_offset_pred ratio_pred rois : Tensor Qc)
    (labels : Tensor Z)
    (label_weights bbox_targets bbox_weights bin_cls_targets bin_cls_weights
       bin_offset_targets bin_offset_weights ratio_targets ratio_weights : Tensor Qc)
    (reduction_override : option string) :
  Forall (fun l => ~ (0 <= l < Z.of_nat (num_classes self))%Z) (data labels) ->
  exists losses : gmap string Scalar,
    loss E self cls_score bbox_pred bin_cls_pred bin_offset_pred ratio_pred rois
      labels label_weights bbox_targets bbox_weights bin_cls_targets
      bin_cls_weights bin_offset_targets bin_offset_weights ratio_targets
      ratio_weights reduction_override = Ok losses
    /\ zero_reduction_of bbox_pred (losses !! "loss_bbox")
    /\ zero_reduction_of bin_cls_pred (losses !! "loss_bin_cls")
    /\ zero_reduction_of bin_offset_pred (losses !! "loss_bin_offset")
    /\ zero_reduction_of ratio_pred (losses !! "loss_ratio").
Proof.
  intros Hneg. unfold loss. cbn [tmap data].
  rewrite (no_positive_mask _ _ Hneg).
  eexists. split; [reflexivity|].
  repeat split; simplify_map_eq; apply zero_reduction_times.
Qed.

Lemma loss_without_positives_witness :
  exists losses : gmap string Scalar,
    loss demo_imports (demo_head 2 2 false)
      (qt [2; 3] [1; 2; 3; 4; 5; 6]%Z) (qt [2; 8] (Z.of_nat <$> seq 0 16))
      (qt [2; 16] (Z.of_nat <$> seq 0 32)) (qt [2; 8] (Z.of_nat <$> seq 0 16))
      (qt [2; 2] [1; 2; 3; 4]%Z) (qt [2; 5] [0; 0; 0; 9; 9; 0; 1; 1; 8; 8]%Z)
      (mkTensor [2] [2; 2]%Z)
      (qt [2] [1; 1]%Z) (qt [2; 4] (replicate 8 0%Z)) (qt [2; 4] (replicate 8 0%Z))
      (qt [2; 8] (replicate 16 0%Z)) (qt [2; 8] (replicate 16 0%Z))
      (qt [2; 4] (replicate 8 0%Z)) (qt [2; 4] (replicate 8 0%Z))
      (qt [2; 1] [0; 0]%Z) (qt [2; 1] [0; 0]%Z) None = Ok losses
    /\ zero_reduction_of (qt [2; 8] (Z.of_nat <$> seq 0 16)) (losses !! "loss_bbox")
    /\ zero_reduction_of (qt [2; 16] (Z.of_nat <$> seq 0 32)) (losses !! "loss_bin_cls")
    /\ zero_reduction_of (qt [2; 8] (Z.of_nat <$> seq 0 16)) (losses !! "loss_bin_offset")
    /\ zero_reduction_of (qt [2; 2] [1; 2; 3; 4]%Z) (losses !! "loss_ratio").
Proof.
  apply loss_without_positives.
  repeat constructor; simpl; lia.
Defined.

Ltac peel H :=
  repeat (let a := fresh "a" in
          let Ha := fresh "Ha" in
          apply rbind_Ok in H as (a & Ha & H);
          match type of a with
          | (_ * _ * _ * _)%type => destruct a as [[[? ?] ?] ?]
          | _ => idtac
          end;
          cbn beta iota in H).

(** C10: a mapping returned for a classification-score tensor without
    elements has no [loss_cls] and no [acc] entry, while the four
    regression entries are there; with a non-empty score tensor both
    entries are computed. *)
Theorem loss_entries (E : Imports) (self : VRBBoxHead)
    (cls_score bbox_pred bin_cls_pred bin_offset_pred ratio_pred rois : Tensor Qc)
    (labels : Tensor Z)
    (label_weights bbox_targets bbox_weights bin_cls_targets bin_cls_weights
       bin_offset_targets bin_offset_weights ratio_targets ratio_weights : Tensor Qc)
    (reduction_override : option string) (losses : gmap string Scalar) :
  loss E self cls_score bbox_pred bin_cls_pred bin_offset_pred ratio_pred rois
    labels label_weights bbox_targets bbox_weights bin_cls_targets
    bin_cls_weights bin_offset_targets bin_offset_weights ratio_targets
    ratio_weights reduction_override = Ok losses ->
  (numel cls_score = 0 -> losses !! "loss_cls" = None /\ losses !! "acc" = None)
  /\ (0 < numel cls_score ->
      is_Some (losses !! "loss_cls") /\
      losses !! "acc" = Some (accuracy E cls_score labels))
  /\ is_Some (losses !! "loss_bbox")
  /\ is_Some (losses !! "loss_bin_cls")
  /\ is_Some (losses !! "loss_bin_offset")
  /\ is_Some (losses !! "loss_ratio").
Proof.
  unfold loss. intros H.
  destruct (existsb id _) in H.
  - peel H. injection H as <-.
    destruct (decide (0 < numel cls_score)) as [Hn|Hn];
      (split; [intros Hz | split; [intros Hp|]]);
      first [lia | simplify_map_eq; eauto 10].
  - injection H as <-.
    destruct (decide (0 < numel cls_score)) as [Hn|Hn];
      (split; [intros Hz | split; [intros Hp|]]);
      first [lia | simplify_map_eq; eauto 10].
Qed.

Lemma loss_entries_witness :
  exists losses : gmap string Scalar,
    loss demo_imports (demo_head 2 2 false)
      (qt [0; 3] []) (qt [0; 8] []) (qt [0; 16] []) (qt [0; 8] []) (qt [0; 2] [])
      (qt [0; 5] []) (mkTensor [0] []) (qt [0] []) (qt [0; 4] []) (qt [0; 4] [])
      (qt [0; 8] []) (qt [0; 8] []) (qt [0; 4] []) (qt [0; 4] []) (qt [0; 1] [])
      (qt [0; 1] []) None = Ok losses
    /\ losses !! "loss_cls" = None /\ losses !! "acc" = None
    /\ is_Some (losses !! "loss_bbox") /\ is_Some (losses !! "loss_bin_cls")
    /\ is_Some (losses !! "loss_bin_offset") /\ is_Some (losses !! "loss_ratio").
Proof.
  eexists. split; [reflexivity|].
  pose proof (loss_entries demo_imports (demo_head 2 2 false)
      (qt [0; 3] []) (qt [0; 8] []) (qt [0; 16] []) (qt [0; 8] []) (qt [0; 2] [])
      (qt [0; 5] []) (mkTensor [0] []) (qt [0] []) (qt [0; 4] []) (qt [0; 4] [])
      (qt [0; 8] []) (qt [0; 8] []) (qt [0; 4] []) (qt [0; 4] []) (qt [0; 1] [])
      (qt [0; 1] []) None _ eq_refl) as (Hz & _ & Hrest).
  destruct (Hz eq_refl) as [H1 H2].
  split; [exact H1|]. split; [exact H2 | exact Hrest].
Defined.

(** ** [regress_by_class] *)

(** C8: a RoI tensor whose column count is neither 4 nor 5 is rejected by
    the first assertion, before any regression is computed, so that no
    result is produced. *)
Theorem regress_by_class_rejects_columns (E : Imports) (self : VRBBoxHead)
    (rois : Tensor Qc) (label : Tensor Z)
    (bbox_pred bin_cls_pred bin_offset_pred ratio_pred : Tensor Qc)
    (img_meta : gmap string (list nat)) (c : nat) :
  size rois 1 = Ok c ->
  c <> 4 ->
  c <> 5 ->
  regress_by_class E self rois label bbox_pred bin_cls_pred bin_offset_pred
    ratio_pred img_meta = Raise AssertionError.
Proof.
  intros Hc H4 H5. unfold regress_by_class. rewrite Hc. cbn [rbind].
  rewrite !bool_decide_eq_false_2 by assumption. reflexivity.
Qed.

Lemma regress_by_class_rejects_columns_witness :
  regress_by_class demo_imports (demo_head 2 2 true)
    (qt [1; 3] [0; 0; 10]%Z) (mkTensor [1] [0%Z]) (qt [1; 4] [1; 2; 3; 4]%Z)
    (qt [1; 8] (replicate 8 0%Z)) (qt [1; 4] (replicate 4 0%Z)) (tenths [1; 1] [9]%Z)
    {["img_shape" := [100; 100; 3]]} = Raise AssertionError.
Proof.
  apply (regress_by_class_rejects_columns _ _ _ _ _ _ _ _ _ 3);
    [reflexivity | lia | lia].
Defined.

(** ** [affine_trans] and the warp of [forward] *)

Lemma fmap_const_replicate {A B} (c : B) (l : list A) :
  (fun _ => c) <$> l = replicate (length l) c.
Proof. induction l; simpl; [reflexivity | f_equal; assumption]. Qed.

Lemma dot_zeros (r : list Qc) (n : nat) : dot r (replicate n 0%Qc) = 0%Qc.
Proof.
  unfold dot. revert n. induction r as [|x r IH]; intros [|n]; simpl;
    try reflexivity.
  rewrite IH. ring.
Qed.

Lemma identity_row_out (r : list Qc) (d : nat) :
  zip_with Qcplus ((fun w => dot r w) <$> replicate 6 (replicate d 0%Qc)) identity_row
  = identity_row.
Proof.
  simpl. rewrite !dot_zeros. unfold identity_row.
  repeat f_equal; ring.
Qed.

Lemma affine_trans_identity (self : VRBBoxHead) (draw : nat -> Qc)
    (feats : Tensor Qc) (n : nat) :
  shape feats = [n; in_channels self * roi_feat_area self] ->
  affine_trans self draw feats
  = Ok (set_fc_theta self (identity_fc self),
        mkTensor [n; 6] (concat (replicate n identity_row))).
Proof.
  intros Hs. unfold affine_trans, new_linear, tmap. cbn [weight bias shape data].
  change (expand_strict (mkTensor [6] [1; 0; 0; 0; 1; 0]%Qc) [6])
    with (Ok identity_row).
  cbn [rbind]. rewrite !fmap_const_replicate, !length_fmap, !length_seq.
  unfold linear. cbn [weight bias shape data]. rewrite Hs.
  change (reverse [n; in_channels self * roi_feat_area self])
    with [in_channels self * roi_feat_area self; n].
  lazy beta iota. rewrite decide_True by reflexivity.
  change (expand_strict (mkTensor [6] identity_row) [6]) with (Ok identity_row).
  cbn [rbind]. rewrite chunks_replicate.
  assert (identity_fc self
          = mkLinear (mkTensor [6; in_channels self * roi_feat_area self]
                        (replicate (6 * (in_channels self * roi_feat_area self)) 0%Qc))
                     (mkTensor [6] identity_row)) as ->.
  { unfold identity_fc, full. do 3 f_equal. unfold numel_of. simpl. lia. }
  do 4 f_equal.
  erewrite list_fmap_ext; [|intros i r _; apply identity_row_out].
  rewrite fmap_const_replicate, length_chunks. f_equal.
  unfold numel_of. simpl. lia.
Qed.

Lemma view_theta (n : nat) (d : list Qc) :
  view (mkTensor [n; 6] d) [None; Some 2; Some 3] = Ok (mkTensor [n; 2; 3] d).
Proof.
  assert (length (filter (fun d : option nat => d = None) [None; Some 2; Some 3]) = 1)
    as Hh by reflexivity.
  assert (known_dims [None; Some 2; Some 3] = 6) as Hk by reflexivity.
  assert (numel (mkTensor [n; 6] d) = n * 6) as Hn
    by (unfold numel, numel_of; simpl; lia).
  unfold view. rewrite Hh, Hk, Hn.
  rewrite decide_False by lia. rewrite decide_True by reflexivity.
  rewrite decide_False by lia. rewrite decide_True by apply Nat.Div0.mod_mul.
  rewrite Nat.div_mul by lia. reflexivity.
Qed.

Lemma warp_theta (E : Imports) (self : VRBBoxHead) (draw : nat -> Qc)
    (x : Tensor Qc) (n c : nat) (rest : list nat) :
  shape x = n :: c :: rest ->
  numel_of (c :: rest) = in_channels self * roi_feat_area self ->
  (do feats <- flatten1 x; affine_trans self draw feats)
  = Ok (set_fc_theta self (identity_fc self),
        mkTensor [n; 6] (concat (replicate n identity_row)))
  /\ warp E self draw x
     = (do grid <- F_affine_grid E
                     (mkTensor [n; 2; 3] (concat (replicate n identity_row)))
                     (shape x);
        Ok (set_fc_theta self (identity_fc self), grid_sample E x grid)).
Proof.
  intros Hs Hd.
  assert (flatten1 x = Ok (mkTensor [n; in_channels self * roi_feat_area self] (data x)))
    as Hflat.
  { unfold flatten1. rewrite Hs, Hd. reflexivity. }
  unfold warp. rewrite Hflat. cbn [rbind].
  rewrite (affine_trans_identity self draw _ n) by reflexivity.
  split; [reflexivity|]. cbn [rbind].
  rewrite view_theta. reflexivity.
Qed.

(** A feature map of four positive sizes passes the checks of
    [F.affine_grid]; an empty one is rejected. *)
Lemma F_affine_grid_4d (E : Imports) (n : nat) (d : list Qc) (size : list nat) :
  length size = 4 ->
  Forall (fun k => 0 < k) size ->
  F_affine_grid E (mkTensor [n; 2; 3] d) size
  = Ok (affine_grid E (mkTensor [n; 2; 3] d) size).
Proof.
  intros Hl Hpos. unfold F_affine_grid. rewrite Hl. cbn [shape rbind].
  assert (forallb (fun k => bool_decide (0 < k)) size = true) as ->; [|reflexivity].
  apply forallb_forall. intros k Hk. apply bool_decide_eq_true_2.
  rewrite Forall_forall in Hpos. apply Hpos, list_elem_of_In, Hk.
Qed.

Lemma F_affine_grid_empty (E : Imports) (theta : Tensor Qc) (size : list nat) :
  length size = 4 ->
  0 ∈ size ->
  F_affine_grid E theta size = Raise ValueError.
Proof.
  intros Hl H0. unfold F_affine_grid. rewrite Hl.
  destruct (shape theta) as [|? [|[|[|[|?]]] [|[|[|[|[|?]]]] [|? ?]]]];
    try reflexivity.
  cbn [rbind].
  assert (forallb (fun k => bool_decide (0 < k)) size = false) as ->; [|reflexivity].
  apply not_true_is_false. intros Hall.
  rewrite forallb_forall in Hall.
  specialize (Hall 0 (proj1 (list_elem_of_In _ _) H0)).
  apply bool_decide_eq_true_1 in Hall. lia.
Qed.

Lemma warp_value (E : Imports) (self : VRBBoxHead) (draw : nat -> Qc)
    (x : Tensor Qc) (n c : nat) (rest : list nat) :
  shape x = n :: c :: rest ->
  numel_of (c :: rest) = in_channels self * roi_feat_area self ->
  length (shape x) = 4 ->
  Forall (fun k => 0 < k) (shape x) ->
  warp E self draw x
  = Ok (set_fc_theta self (identity_fc self),
        grid_sample E x
          (affine_grid E (mkTensor [n; 2; 3] (concat (replicate n identity_row)))
             (shape x))).
Proof.
  intros Hs Hd Hl Hpos.
  destruct (warp_theta E self draw x n c rest Hs Hd) as [_ ->].
  rewrite (F_affine_grid_4d E n _ _ Hl Hpos). reflexivity.
Qed.

(** An empty batch of feature maps does not pass [F.affine_grid]. *)
Example warp_rejects_empty_batch :
  warp demo_imports (demo_head 2 2 false) (fun _ => Q2Qc 7) (qt [0; 2; 1; 1] [])
  = Raise ValueError.
Proof. reflexivity. Qed.

(** C9: on every call, whatever the state of the head and whatever the
    initialiser draws, the affine matrix of every sample is the identity
    row [1, 0, 0, 0, 1, 0]; the result of the warp is therefore the same
    for every head of that input size, whatever its weights; and for a
    non-empty batch of two-dimensional feature maps it is the sampling of
    the input on the grid of the identity rows. *)
Theorem warp_is_identity_on_every_call (E : Imports) (self : VRBBoxHead)
    (draw : nat -> Qc) (x : Tensor Qc) (n c : nat) (rest : list nat) :
  shape x = n :: c :: rest ->
  numel_of (c :: rest) = in_channels self * roi_feat_area self ->
  rmap snd (do feats <- flatten1 x; affine_trans self draw feats)
  = Ok (mkTensor [n; 6] (concat (replicate n identity_row)))
  /\ (forall (other : VRBBoxHead) (draw' : nat -> Qc),
        in_channels other * roi_feat_area other
        = in_channels self * roi_feat_area self ->
        rmap snd (warp E other draw' x) = rmap snd (warp E self draw x))
  /\ (length rest = 2 ->
      Forall (fun k => 0 < k) (shape x) ->
      rmap snd (warp E self draw x)
      = Ok (grid_sample E x
              (affine_grid E
                 (mkTensor [n; 2; 3] (concat (replicate n identity_row)))
                 (shape x)))).
Proof.
  intros Hs Hd.
  destruct (warp_theta E self draw x n c rest Hs Hd) as [Ha Hw].
  split; [rewrite Ha; reflexivity|]. split.
  - intros other draw' Hsame.
    destruct (warp_theta E other draw' x n c rest Hs) as [_ Hw']; [congruence|].
    rewrite Hw, Hw'.
    destruct (F_affine_grid E _ (shape x)); reflexivity.
  - intros Hr Hpos.
    rewrite (warp_value E self draw x n c rest Hs Hd); [reflexivity| |exact Hpos].
    rewrite Hs. cbn [length]. rewrite Hr. reflexivity.
Qed.

Lemma warp_is_identity_on_every_call_witness :
  rmap snd (do feats <- flatten1 (qt [1; 2; 1; 1] [3; 4]%Z);
            affine_trans (demo_head 2 2 false) (fun _ => Q2Qc 7) feats)
  = Ok (mkTensor [1; 6] (concat (replicate 1 identity_row)))
  /\ (forall (other : VRBBoxHead) (draw' : nat -> Qc),
        in_channels other * roi_feat_area other
        = in_channels (demo_head 2 2 false) * roi_feat_area (demo_head 2 2 false) ->
        rmap snd (warp demo_imports other draw' (qt [1; 2; 1; 1] [3; 4]%Z))
        = rmap snd (warp demo_imports (demo_head 2 2 false) (fun _ => Q2Qc 7)
                      (qt [1; 2; 1; 1] [3; 4]%Z)))
  /\ (length [1; 1] = 2 ->
      Forall (fun k => 0 < k) (shape (qt [1; 2; 1; 1] [3; 4]%Z)) ->
      rmap snd (warp demo_imports (demo_head 2 2 false) (fun _ => Q2Qc 7)
                  (qt [1; 2; 1; 1] [3; 4]%Z))
      = Ok (grid_sample demo_imports (qt [1; 2; 1; 1] [3; 4]%Z)
              (affine_grid demo_imports
                 (mkTensor [1; 2; 3] (concat (replicate 1 identity_row)))
                 (shape (qt [1; 2; 1; 1] [3; 4]%Z))))).
Proof.
  apply (warp_is_identity_on_every_call demo_imports (demo_head 2 2 false)
           (fun _ => Q2Qc 7) (qt [1; 2; 1; 1] [3; 4]%Z) 1 2 [1; 1]);
    reflexivity.
Defined.

(** ** The box-or-polygon selection *)

(** An assignment under a mask takes one value row per selected row: a
    value with a row for every sample is rejected as soon as some, but not
    all, samples are selected. *)
Lemma mask_assign_unmasked_value {A} (t v : Tensor A) (mask : Tensor bool)
    (n w : nat) :
  shape t = [n; w] ->
  shape mask = [n] ->
  shape v = [n; w] ->
  count_true (data mask) <> n ->
  n <> 1 ->
  mask_assign t mask v = Raise RuntimeError.
Proof.
  intros Ht Hm Hv Hk H1. unfold mask_assign, mask_fits.
  rewrite Ht, Hm. cbn [length take drop].
  rewrite bool_decide_eq_true_2 by reflexivity.
  unfold expand_to. rewrite Hv.
  assert (strip_ones [n; w] = [n; w]) as ->
    by (destruct n as [|[|n]]; [reflexivity | congruence | reflexivity]).
  cbn [length]. rewrite decide_True by lia.
  cbn [Nat.sub replicate app expand_aligned].
  rewrite decide_False by congruence.
  rewrite decide_False by exact H1. reflexivity.
Qed.

(** C1 fails in [regress_by_class]: with one sample above and one below the
    ratio threshold the call raises, where [get_bboxes] on the same data
    returns the corners of the first box and the bin-decoded polygon of the
    second. *)
Theorem regress_by_class_mixed_ratios_raise :
  regress_by_class demo_imports (demo_head 2 1 true)
    (qt [2; 4] [0; 0; 10; 10; 0; 0; 20; 20]%Z) (mkTensor [2] [0; 0]%Z)
    (qt [2; 4] [1; 2; 3; 4; 5; 6; 7; 8]%Z) (qt [2; 4] (replicate 8 0%Z))
    (qt [2; 4] (replicate 8 0%Z)) (tenths [2; 1] [9; 1]%Z) demo_meta
  = Raise RuntimeError
  /\ regress_by_class demo_imports (demo_head 2 1 true)
       (qt [2; 5] [0; 0; 0; 10; 10; 0; 0; 0; 20; 20]%Z) (mkTensor [2] [0; 0]%Z)
       (qt [2; 4] [1; 2; 3; 4; 5; 6; 7; 8]%Z) (qt [2; 4] (replicate 8 0%Z))
       (qt [2; 4] (replicate 8 0%Z)) (tenths [2; 1] [9; 1]%Z) demo_meta
     = Raise RuntimeError
  /\ get_bboxes demo_imports (demo_head 2 1 true)
       (qt [2; 5] [0; 0; 0; 10; 10; 0; 0; 0; 20; 20]%Z)
       (OneScore (qt [2; 3] [1; 2; 3; 4; 5; 6]%Z))
       (qt [2; 4] [1; 2; 3; 4; 5; 6; 7; 8]%Z) (qt [2; 4] (replicate 8 0%Z))
       (qt [2; 4] (replicate 8 0%Z)) (tenths [2; 1] [9; 1]%Z) [100; 100; 3]
       (ScaleFloat 1%Qc) false None
     = Ok (Raw (qt [2; 8] [1; 2; 3; 2; 3; 4; 1; 4; 5; 6; 7; 8; 5; 6; 7; 8]%Z)
               (qt [2; 3] [1; 2; 3; 4; 5; 6]%Z)).
Proof. repeat split; vm_compute; reflexivity. Qed.

(** ** The class-conditional gather of the bin classification *)

(** C2 fails for more than one bin: for two classes, two bins and the
    labels 0 and 1, the loss selects the sixteen values of the two class
    slices, while [regress_by_class] gathers the eight values in columns
    [4 * label + {0, 1, 2, 3}] of the first two rows of the reshaped
    prediction. *)
Theorem class_gather_differs_from_loss_selection :
  let bin_cls_pred := qt [2; 16] (Z.of_nat <$> seq 0 32) in
  let label := mkTensor [2] [0; 1]%Z in
  pos_pred_by_class bin_cls_pred (4 * 2) label (mkTensor [2] [true; true])
  = Ok (qt [2; 8] [0; 1; 2; 3; 4; 5; 6; 7; 24; 25; 26; 27; 28; 29; 30; 31]%Z)
  /\ rmap (fun out => out.1.1.2)
       (gather_by_class (demo_head 2 2 false) label
          (qt [2; 8] (Z.of_nat <$> seq 0 16)) bin_cls_pred
          (qt [2; 8] (Z.of_nat <$> seq 0 16)) (qt [2; 2] [1; 2; 3; 4]%Z))
     = Ok (qt [1; 8] [0; 1; 2; 3; 12; 13; 14; 15]%Z).
Proof. repeat split; vm_compute; reflexivity. Qed.

(** With a single bin per side the two selections coincide. *)
Example class_gather_single_bin :
  let bin_cls_pred := qt [2; 8] (Z.of_nat <$> seq 0 16) in
  let label := mkTensor [2] [0; 1]%Z in
  pos_pred_by_class bin_cls_pred (4 * 1) label (mkTensor [2] [true; true])
  = Ok (qt [2; 4] [0; 1; 2; 3; 12; 13; 14; 15]%Z)
  /\ rmap (fun out => out.1.1.2)
       (gather_by_class (demo_head 2 1 false) label bin_cls_pred bin_cls_pred
          bin_cls_pred (qt [2; 2] [1; 2; 3; 4]%Z))
     = Ok (qt [2; 4] [0; 1; 2; 3; 12; 13; 14; 15]%Z).
Proof. repeat split; vm_compute; reflexivity. Qed.

(** ** Supplements to C1 and C2 *)

Lemma length_select_blocks {A} (w : nat) (mask : list bool) (d : list A) :
  length mask * w <= length d ->
  length (select_blocks w mask d) = count_true mask * w.
Proof.
  revert d. induction mask as [|b mask IH]; intros d Hd; [reflexivity|].
  cbn [select_blocks]. rewrite length_app, IH by (rewrite length_drop; simpl in Hd; lia).
  destruct b.
  - unfold count_true. rewrite filter_cons_True by reflexivity.
    rewrite length_take. simpl in *. lia.
  - unfold count_true. rewrite filter_cons_False by discriminate. reflexivity.
Qed.

Lemma scatter_select {A} (w w' : nat) (f : list A -> list A) (mask : list bool)
    (polys boxes : list A) :
  (forall r, length (f r) = w') ->
  length mask * w <= length boxes ->
  scatter_blocks w' mask polys
    (concat (f <$> chunks (count_true mask) w (select_blocks w mask boxes)))
  = choose_geometry w w' f mask polys boxes.
Proof.
  intros Hf. revert polys boxes.
  induction mask as [|b mask IH]; intros polys boxes Hb; [reflexivity|].
  assert (length mask * w <= length (drop w boxes))
    by (rewrite length_drop; simpl in Hb; lia).
  destruct b; cbn [select_blocks scatter_blocks choose_geometry].
  - unfold count_true. rewrite filter_cons_True by reflexivity.
    cbn [length chunks]. fold (count_true mask).
    assert (length (take w boxes) = w) as Hw
      by (rewrite length_take; simpl in Hb; lia).
    rewrite (take_app_length' _ _ w), (drop_app_length' _ _ w) by (symmetry; exact Hw).
    rewrite fmap_cons. cbn [concat].
    rewrite (take_app_length' _ _ w'), (drop_app_length' _ _ w')
      by (symmetry; apply Hf).
    f_equal. apply IH. assumption.
  - unfold count_true. rewrite filter_cons_False by discriminate.
    fold (count_true mask). cbn [app]. f_equal. apply IH. assumption.
Qed.

(** The statement of [get_bboxes] follows the rule, for any [hbb2poly] that
    works box by box. *)
Lemma get_bboxes_selection (E : Imports) (f : list Qc -> list Qc)
    (bboxes polys : Tensor Qc) (mask : Tensor bool) :
  (forall r, length (f r) = 8) ->
  (forall t, hbb2poly E t = per_row 4 8 f t) ->
  shape bboxes = shape mask ++ [4] ->
  shape polys = shape mask ++ [8] ->
  length (data mask) * 4 <= length (data bboxes) ->
  (do rect <- mask_select bboxes mask; mask_assign polys mask (hbb2poly E rect))
  = Ok (mkTensor (shape polys)
          (choose_geometry 4 8 f (data mask) (data polys) (data bboxes))).
Proof.
  intros Hf Hh Hb Hp Hlen.
  unfold mask_select, mask_assign, mask_fits.
  rewrite Hb, Hp, !take_app_length, !drop_app_length.
  rewrite !bool_decide_eq_true_2 by reflexivity. cbn [rbind].
  rewrite Hh. unfold per_row, lead_dims. cbn [shape data length].
  set (k := count_true (data mask)).
  change (take (2 - 1) [k; 4]) with [k].
  change (numel_of [k]) with (k * 1). rewrite Nat.mul_1_r.
  change (numel_of [4]) with 4. change (numel_of [8]) with 8.
  set (v := concat (f <$> chunks k 4 (select_blocks 4 (data mask) (data bboxes)))).
  assert (expand_to (mkTensor ([k] ++ [8]) v) [k; 8] = Ok v) as ->.
  { apply (expand_to_same (mkTensor [k; 8] v)).
    unfold wf, numel, v. cbn [shape data].
    rewrite length_concat, <- list_fmap_compose.
    erewrite (list_fmap_ext _ (fun _ => 8)); [|intros; apply Hf].
    rewrite fmap_const_replicate, length_chunks, sum_list_replicate.
    unfold numel_of. simpl. lia. }
  cbn [rbind]. do 2 f_equal.
  apply scatter_select; assumption.
Qed.

(** X7: [regress_by_class] in class-agnostic mode: whenever the collaborators
    return one row per RoI, a batch of at least two RoIs of which not all
    exceed the ratio threshold is answered with [RuntimeError]. *)
Lemma regress_by_class_partial_selection (E : Imports) (self : VRBBoxHead)
    (rois : Tensor Qc) (label : Tensor Z)
    (bbox_pred bin_cls_pred bin_offset_pred ratio_pred : Tensor Qc)
    (img_meta : gmap string (list nat)) (img_shape : list nat) (n : nat) :
  reg_class_agnostic self = true ->
  shape rois = [n; 4] ->
  shape bbox_pred = [n; 4] ->
  shape bin_cls_pred = [n; 4 * num_bins self] ->
  shape bin_offset_pred = [n; 4] ->
  shape ratio_pred = [n; 1] ->
  img_meta !! "img_shape" = Some img_shape ->
  let bboxes := bbox_decode (bbox_coder self) rois bbox_pred img_shape in
  shape (bin_decode (bin_coder self) bboxes bin_cls_pred bin_offset_pred) = [n; 8] ->
  shape (hbb2poly E bboxes) = [n; 8] ->
  count_true (data (gt_scalar ratio_pred (ratio_thr self))) <> n ->
  n <> 1 ->
  regress_by_class E self rois label bbox_pred bin_cls_pred bin_offset_pred
    ratio_pred img_meta = Raise RuntimeError.
Proof.
  intros Hag Hr Hb Hc Ho Hq Hm bboxes Hd Hh Hk H1.
  assert (forall (t : Tensor Qc) (c : nat), shape t = [n; c] -> size t 1 = Ok c)
    as Hsize by (intros t c Ht; unfold size; rewrite Ht; reflexivity).
  unfold regress_by_class.
  rewrite (Hsize _ _ Hr), Hag. cbn [rbind].
  rewrite (bool_decide_eq_true_2 (4 = 4)) by reflexivity. cbn [orb assert rbind].
  rewrite (Hsize _ _ Hb). cbn [rbind].
  rewrite (bool_decide_eq_true_2 (4 = 4)) by reflexivity. cbn [assert rbind].
  rewrite (Hsize _ _ Hc). cbn [rbind].
  rewrite (bool_decide_eq_true_2 (4 * num_bins self = 4 * num_bins self))
    by reflexivity.
  cbn [assert rbind].
  rewrite (Hsize _ _ Ho). cbn [rbind].
  rewrite (bool_decide_eq_true_2 (4 = 4)) by reflexivity. cbn [assert rbind].
  rewrite decide_True by reflexivity.
  rewrite Hm. cbn [of_option rbind].
  unfold squeeze1. rewrite Hq. rewrite decide_True by reflexivity. cbn [rbind].
  apply (mask_assign_unmasked_value _ _ _ n 8); auto.
Qed.

Lemma gather1_shape {A} (input : Tensor A) (index : Tensor Z) (out : Tensor A) :
  gather1 input index = Ok out -> shape out = shape index.
Proof.
  unfold gather1.
  destruct (shape input) as [|R [|C [|? ?]]]; try discriminate.
  destruct (shape index) as [|r [|c [|? ?]]]; try discriminate.
  destruct (decide (r <= R)); [|discriminate].
  intros H. peel H. injection H as <-. reflexivity.
Qed.

Lemma view_rows_shape {A} (t t' : Tensor A) (k : nat) :
  view t [None; Some k] = Ok t' -> shape t' = [numel t `div` k; k].
Proof.
  unfold view.
  assert (length (filter (fun d : option nat => d = None) [None; Some k]) = 1)
    as -> by reflexivity.
  rewrite decide_False by lia. rewrite decide_True by reflexivity.
  destruct (decide (known_dims [None; Some k] = 0)); [discriminate|].
  destruct (decide (numel t `mod` known_dims [None; Some k] = 0)); [|discriminate].
  intros [= <-]. cbn [shape fmap list_fmap default].
  unfold known_dims. cbn [foldr default]. do 2 f_equal. lia.
Qed.

Lemma length_true_positions_from {B} (g : nat -> B) (m : list bool) :
  length (filter (fun p : B * bool => p.2 = true) (imap (fun i b => (g i, b)) m))
  = count_true m.
Proof.
  revert g. induction m as [|b m IH]; intros g; [reflexivity|].
  rewrite imap_cons. unfold count_true. destruct b.
  - rewrite !filter_cons_True by reflexivity. cbn [length]. f_equal.
    apply (IH (g ∘ S)).
  - rewrite !filter_cons_False by discriminate. apply (IH (g ∘ S)).
Qed.

Lemma length_true_positions (m : list bool) :
  length (true_positions m) = count_true m.
Proof.
  unfold true_positions. rewrite length_fmap.
  apply (length_true_positions_from (fun i => i)).
Qed.

Lemma count_true_all (n : nat) : count_true (replicate n true) = n.
Proof.
  unfold count_true. induction n as [|n IH]; [reflexivity|].
  cbn [replicate]. rewrite filter_cons_True by reflexivity.
  cbn [length]. f_equal. exact IH.
Qed.

Lemma pos_pred_by_class_rows (pred : Tensor Qc) (w : nat) (label : Tensor Z)
    (out : Tensor Qc) (n : nat) :
  shape label = [n] ->
  wf label ->
  pos_pred_by_class pred w label (mkTensor [n] (replicate n true)) = Ok out ->
  shape out = [n; w].
Proof.
  intros Hs Hw H. unfold pos_pred_by_class in H. peel H.
  unfold view in Ha0.
  assert (length (filter (fun d : option nat => d = None) [Some a; None; Some w]) = 1)
    as Hh by reflexivity.
  rewrite Hh in Ha0. rewrite decide_False in Ha0 by lia.
  rewrite decide_True in Ha0 by reflexivity.
  destruct (decide (known_dims [Some a; None; Some w] = 0)); [discriminate|].
  destruct (decide (_ `mod` _ = 0)); [|discriminate].
  injection Ha0 as <-.
  unfold mask_select, mask_fits in Ha1. rewrite Hs in Ha1.
  cbn [shape data length take drop] in Ha1.
  rewrite bool_decide_eq_true_2 in Ha1 by reflexivity.
  injection Ha1 as <-.
  unfold index_mask_long in H. cbn [shape data fmap list_fmap default] in H.
  destruct (decide (n = a)); [|discriminate].
  peel H. injection H as <-. cbn [shape]. f_equal.
  unfold pair_up in Ha0.
  assert (length (true_positions (replicate n true))
          = length (select_blocks 1 (replicate n true) (data label)))
    as Hlen.
  { rewrite length_true_positions, length_select_blocks.
    - lia.
    - rewrite length_replicate.
      unfold wf, numel in Hw. rewrite Hw, Hs. unfold numel_of. simpl. lia. }
  change (numel_of []) with 1 in Ha0.
  rewrite decide_True in Ha0 by exact Hlen.
  injection Ha0 as <-.
  rewrite length_zip_with, <- Hlen, length_true_positions, count_true_all. lia.
Qed.

Lemma gather_by_class_rows (self : VRBBoxHead) (label : Tensor Z)
    (bbox_pred bin_cls_pred bin_offset_pred ratio_pred a b c d : Tensor Qc)
    (n : nat) :
  shape label = [n] ->
  gather_by_class self label bbox_pred bin_cls_pred bin_offset_pred ratio_pred
  = Ok (a, b, c, d) ->
  shape b = [(n * 4) `div` (4 * num_bins self); 4 * num_bins self].
Proof.
  intros Hs H. unfold gather_by_class in H. peel H.
  injection H as <- <- <- <-.
  unfold stack4_offsets, tmap in Ha2. cbn [shape data] in Ha2. rewrite Hs in Ha2.
  injection Ha2 as <-.
  apply gather1_shape in Ha4. cbn [shape] in Ha4.
  apply view_rows_shape in Ha6. rewrite Ha6.
  unfold numel. rewrite Ha4. reflexivity.
Qed.

(** X8: with two or more bins the gather of [regress_by_class] never returns
    the rows that the loss selects: it has fewer rows than samples. *)
Lemma class_gather_loses_rows (self : VRBBoxHead) (label : Tensor Z)
    (bbox_pred bin_cls_pred bin_offset_pred ratio_pred a b c d b' : Tensor Qc)
    (n : nat) :
  2 <= num_bins self ->
  0 < n ->
  shape label = [n] ->
  wf label ->
  gather_by_class self label bbox_pred bin_cls_pred bin_offset_pred ratio_pred
  = Ok (a, b, c, d) ->
  pos_pred_by_class bin_cls_pred (4 * num_bins self) label
    (mkTensor [n] (replicate n true)) = Ok b' ->
  shape b <> shape b'.
Proof.
  intros HB Hn Hs Hw Hg Hl.
  rewrite (gather_by_class_rows _ _ _ _ _ _ _ _ _ _ n Hs Hg).
  rewrite (pos_pred_by_class_rows _ _ _ _ n Hs Hw Hl).
  remember (4 * num_bins self) as k eqn:Hk.
  intros [= Heq].
  assert ((n * 4) `div` k < n); [|lia].
  apply Nat.Div0.div_lt_upper_bound. nia.
Qed.

(** ** The outputs of [forward] *)







(** * Further properties *)

(** ** [_get_target_single]: the rows of the positives *)

Lemma row_pos_then_neg_pos {A} (np nn i c : nat) (pos : list A) (neg : A) :
  length pos = np * numel_of [c] ->
  i < np ->
  row (pos_then_neg np nn [c] pos neg) i = take c (drop (i * c) pos).
Proof.
  intros Hp Hi. unfold row, pos_then_neg. cbn [shape data tail].
  assert (numel_of [c] = c) as Hc by (unfold numel_of; simpl; lia).
  rewrite Hc in *.
  rewrite drop_app_le by nia.
  rewrite take_app_le; [reflexivity|].
  rewrite length_drop. nia.
Qed.

Lemma row_of_matrix {A} (t : Tensor A) (n c i : nat) :
  shape t = [n; c] -> row t i = take c (drop (i * c) (data t)).
Proof.
  intros Hs. unfold row. rewrite Hs. cbn [tail].
  assert (numel_of [c] = c) as -> by (unfold numel_of; simpl; lia).
  reflexivity.
Qed.

Lemma lookup_pos_then_neg_pos {A} (np nn i : nat) (pos : list A) (neg : A) :
  length pos = np ->
  i < np ->
  data (pos_then_neg np nn [] pos neg) !! i = pos !! i.
Proof.
  intros Hp Hi. unfold pos_then_neg. cbn [data].
  apply lookup_app_l. lia.
Qed.

(** X1: every positive sample gets its matched label, the label weight
    [pos_weight] (1 when [pos_weight] is not positive), the encodings the
    coders return for it as targets, the weights of the bin coder, and
    weight 1 on its box and ratio targets. *)
Theorem positives_carry_encodings (E : Imports) (self : VRBBoxHead) (cfg : TrainCfg)
    (res : SamplingResult) (i : nat) :
  sampling_ok E self res ->
  i < n_pos res ->
  exists t,
    _get_target_single E self (pos_bboxes res) (neg_bboxes res) (pos_gt_bboxes res)
      (pos_gt_labels res) cfg = Ok t
    /\ data (tg_labels t) !! i = data (pos_gt_labels res) !! i
    /\ data (tg_label_weights t) !! i
       = Some (if decide (pos_weight cfg <= 0)%Qc then 1%Qc else pos_weight cfg)
    /\ row (tg_bbox_targets t) i = row (enc_bbox E self res) i
    /\ row (tg_bbox_weights t) i = replicate 4 1%Qc
    /\ row (tg_bin_cls_targets t) i = row (enc_bin E self res).1.1.1 i
    /\ row (tg_bin_cls_weights t) i = row (enc_bin E self res).1.1.2 i
    /\ row (tg_bin_offset_targets t) i = row (enc_bin E self res).1.2 i
    /\ row (tg_bin_offset_weights t) i = row (enc_bin E self res).2 i
    /\ row (tg_ratio_targets t) i = row (enc_ratio E self res) i
    /\ row (tg_ratio_weights t) i = replicate 1 1%Qc.
Proof.
  intros Hok Hi. exists (assigned E self cfg res).
  split; [apply _get_target_single_assigned; exact Hok|].
  destruct Hok as (_ & _ & Hl & Hb & Hc1 & Hc2 & Ho1 & Ho2 & Hr).
  pose proof (well_shaped_length _ _ _ Hl) as Ll.
  pose proof (well_shaped_length _ _ _ Hb) as Lb.
  pose proof (well_shaped_length _ _ _ Hc1) as Lc1.
  pose proof (well_shaped_length _ _ _ Hc2) as Lc2.
  pose proof (well_shaped_length _ _ _ Ho1) as Lo1.
  pose proof (well_shaped_length _ _ _ Ho2) as Lo2.
  pose proof (well_shaped_length _ _ _ Hr) as Lr.
  unfold assigned.
  cbn [tg_labels tg_label_weights tg_bbox_targets tg_bbox_weights
       tg_bin_cls_targets tg_bin_cls_weights tg_bin_offset_targets
       tg_bin_offset_weights tg_ratio_targets tg_ratio_weights].
  split; [apply lookup_pos_then_neg_pos; [simpl in Ll; lia | exact Hi]|].
  split.
  { rewrite lookup_pos_then_neg_pos by (rewrite ?length_replicate; lia).
    apply lookup_replicate. split; [reflexivity | lia]. }
  rewrite !row_pos_then_neg_pos
    by first [exact Hi | assumption | rewrite length_replicate; unfold numel_of; simpl; lia].
  rewrite (row_of_matrix _ _ _ _ (proj1 Hb)), (row_of_matrix _ _ _ _ (proj1 Hc1)),
    (row_of_matrix _ _ _ _ (proj1 Hc2)), (row_of_matrix _ _ _ _ (proj1 Ho1)),
    (row_of_matrix _ _ _ _ (proj1 Ho2)), (row_of_matrix _ _ _ _ (proj1 Hr)).
  repeat split.
  - rewrite drop_replicate, take_replicate. f_equal. nia.
  - rewrite drop_replicate, take_replicate. f_equal. nia.
Qed.

Lemma positives_carry_encodings_witness :
  exists t,
    _get_target_single demo_imports (demo_head 2 2 false)
      (pos_bboxes demo_sampling) (neg_bboxes demo_sampling)
      (pos_gt_bboxes demo_sampling) (pos_gt_labels demo_sampling) demo_cfg = Ok t
    /\ data (tg_labels t) !! 0 = data (pos_gt_labels demo_sampling) !! 0
    /\ data (tg_label_weights t) !! 0
       = Some (if decide (pos_weight demo_cfg <= 0)%Qc then 1%Qc
               else pos_weight demo_cfg)
    /\ row (tg_bbox_targets t) 0
       = row (enc_bbox demo_imports (demo_head 2 2 false) demo_sampling) 0
    /\ row (tg_bbox_weights t) 0 = replicate 4 1%Qc
    /\ row (tg_bin_cls_targets t) 0
       = row (enc_bin demo_imports (demo_head 2 2 false) demo_sampling).1.1.1 0
    /\ row (tg_bin_cls_weights t) 0
       = row (enc_bin demo_imports (demo_head 2 2 false) demo_sampling).1.1.2 0
    /\ row (tg_bin_offset_targets t) 0
       = row (enc_bin demo_imports (demo_head 2 2 false) demo_sampling).1.2 0
    /\ row (tg_bin_offset_weights t) 0
       = row (enc_bin demo_imports (demo_head 2 2 false) demo_sampling).2 0
    /\ row (tg_ratio_targets t) 0
       = row (enc_ratio demo_imports (demo_head 2 2 false) demo_sampling) 0
    /\ row (tg_ratio_weights t) 0 = replicate 1 1%Qc.
Proof.
  apply (positives_carry_encodings demo_imports (demo_head 2 2 false) demo_cfg
           demo_sampling 0).
  - apply demo_sampling_ok.
  - vm_compute. lia.
Defined.

(** X2: when there are positive RoIs, a label tensor whose length is
    neither their number nor one cannot be assigned, and the call raises a
    [RuntimeError]. *)
Theorem mismatched_label_count_raises (E : Imports) (self : VRBBoxHead)
    (cfg : TrainCfg) (pos neg gt : Tensor Qc) (gt_labels : Tensor Z)
    (np nn m : nat) :
  size pos 0 = Ok np ->
  size neg 0 = Ok nn ->
  0 < np ->
  shape gt_labels = [m] ->
  m <> np ->
  m <> 1 ->
  _get_target_single E self pos neg gt gt_labels cfg = Raise RuntimeError.
Proof.
  intros Hp Hn Hpos Hs Hm H1. unfold _get_target_single.
  rewrite Hp, Hn. cbn [rbind]. rewrite decide_True by exact Hpos.
  unfold setitem_prefix at 1. cbn [full shape length].
  rewrite decide_True by lia.
  replace (np `min` (np + nn)) with np by lia.
  unfold expand_to. rewrite Hs.
  assert (strip_ones [m] = [m]) as ->
    by (destruct m as [|[|m]]; [reflexivity | congruence | reflexivity]).
  cbn [length]. rewrite decide_True by lia.
  cbn [Nat.sub replicate app expand_aligned].
  rewrite decide_False by exact Hm. rewrite decide_False by exact H1.
  reflexivity.
Qed.

Lemma mismatched_label_count_raises_witness :
  _get_target_single demo_imports (demo_head 2 2 false)
    (qt [2; 4] [0; 0; 10; 10; 0; 0; 20; 20]%Z) (qt [0; 4] [])
    (qt [2; 8] (replicate 16 0%Z)) (mkTensor [3] [0; 1; 1]%Z) demo_cfg
  = Raise RuntimeError.
Proof.
  apply (mismatched_label_count_raises _ _ _ _ _ _ _ 2 0 3);
    first [reflexivity | lia].
Defined.

(** ** [loss]: normalisers and the rows of the positives *)

Lemma Qc_of_nat_lt_one (k : nat) : (Qc_of_nat k < 1)%Qc <-> k = 0.
Proof.
  unfold Qc_of_nat, Qclt. cbn [this Q2Qc]. rewrite !Qred_correct.
  unfold Qlt, inject_Z. cbn. split; intros H; [lia | subst k; reflexivity].
Qed.

Lemma Qcmax_of_nat (k : nat) : Qcmax (Qc_of_nat k) 1 = Qc_of_nat (Nat.max k 1).
Proof.
  unfold Qcmax. destruct (decide (Qc_of_nat k < 1)%Qc) as [H|H].
  - apply Qc_of_nat_lt_one in H. subst k. apply Qc_is_canon. reflexivity.
  - rewrite Qc_of_nat_lt_one in H. f_equal. lia.
Qed.

(** X3: the classification loss, when it is computed, is normalised by the
    number of samples with a positive label weight, and by 1 when there is
    none: the normaliser is the larger of that number and 1. *)
Theorem loss_cls_normaliser (E : Imports) (self : VRBBoxHead)
    (cls_score bbox_pred bin_cls_pred bin_offset_pred ratio_pred rois : Tensor Qc)
    (labels : Tensor Z)
    (label_weights bbox_targets bbox_weights bin_cls_targets bin_cls_weights
       bin_offset_targets bin_offset_weights ratio_targets ratio_weights : Tensor Qc)
    (reduction_override : option string) (losses : gmap string Scalar) :
  0 < numel cls_score ->
  loss E self cls_score bbox_pred bin_cls_pred bin_offset_pred ratio_pred rois
    labels label_weights bbox_targets bbox_weights bin_cls_targets
    bin_cls_weights bin_offset_targets bin_offset_weights ratio_targets
    ratio_weights reduction_override = Ok losses ->
  losses !! "loss_cls"
  = Some (loss_cls self cls_score labels label_weights
            (Qc_of_nat
               (Nat.max
                  (count_true ((fun w => bool_decide (0 < w)%Qc) <$> data label_weights))
                  1))
            reduction_override).
Proof.
  intros Hn H. unfold loss in H.
  rewrite decide_True in H by exact Hn.
  rewrite Qcmax_of_nat in H. unfold gt_scalar, tmap in H. cbn [data] in H.
  destruct (existsb id _) in H.
  - peel H. injection H as <-. simplify_map_eq. reflexivity.
  - injection H as <-. simplify_map_eq. reflexivity.
Qed.

Lemma loss_cls_normaliser_witness :
  exists losses : gmap string Scalar,
    demo_loss (mkTensor [2] [2; 2]%Z) = Ok losses
    /\ losses !! "loss_cls"
       = Some (loss_cls (demo_head 2 2 true) (qt [2; 3] [1; 2; 3; 4; 5; 6]%Z)
                 (mkTensor [2] [2; 2]%Z) (qt [2] [1; 1]%Z)
                 (Qc_of_nat
                    (Nat.max
                       (count_true ((fun w => bool_decide (0 < w)%Qc)
                                      <$> data (qt [2] [1; 1]%Z)))
                       1))
                 None).
Proof.
  eexists. split; [reflexivity|].
  refine (loss_cls_normaliser _ _ _ _ _ _ _ _ _ _ _ _ _ _ _ _ _ _ _ _ _
            (_ : demo_loss (mkTensor [2] [2; 2]%Z) = Ok _));
    [vm_compute; lia | reflexivity].
Defined.

Lemma some_positive_mask (num : nat) (labels : list Z) :
  Exists (fun l => (0 <= l < Z.of_nat num)%Z) labels ->
  existsb id ((fun l => bool_decide (0 <= l)%Z && bool_decide (l < Z.of_nat num)%Z)
                <$> labels) = true.
Proof.
  induction 1 as [l labels Hl | l labels _ IH]; rewrite fmap_cons; cbn [existsb id].
  - rewrite !bool_decide_eq_true_2 by lia. reflexivity.
  - rewrite IH. apply orb_true_r.
Qed.

Lemma pos_pred_agnostic_rows (pred : Tensor Qc) (n w : nat) (mask : Tensor bool) :
  shape pred = [n; w] ->
  shape mask = [n] ->
  pos_pred_agnostic pred w mask = Ok (rows_where pred (data mask)).
Proof.
  intros Hp Hm. unfold pos_pred_agnostic, size. rewrite Hp. cbn [lookup list_lookup of_option rbind].
  assert (view pred [Some n; Some w] = Ok pred) as ->.
  { unfold view.
    assert (length (filter (fun d : option nat => d = None) [Some n; Some w]) = 0)
      as -> by reflexivity.
    rewrite decide_True by reflexivity.
    unfold numel. rewrite Hp. rewrite decide_True by reflexivity.
    destruct pred as [sh d]. cbn in *. subst sh. reflexivity. }
  cbn [rbind]. unfold mask_select, mask_fits. rewrite Hp, Hm.
  cbn [length take drop]. rewrite bool_decide_eq_true_2 by reflexivity.
  unfold rows_where. rewrite Hp. reflexivity.
Qed.

Lemma mask_select_rows {A} (t : Tensor A) (n : nat) (rest : list nat)
    (mask : Tensor bool) :
  shape t = n :: rest ->
  shape mask = [n] ->
  mask_select t mask = Ok (rows_where t (data mask)).
Proof.
  intros Ht Hm. unfold mask_select, mask_fits. rewrite Ht, Hm.
  cbn [length take drop]. rewrite bool_decide_eq_true_2 by reflexivity.
  unfold rows_where. rewrite Ht. reflexivity.
Qed.

(** X4: in class-agnostic mode, on a batch of [n] samples with predictions,
    targets and weights of the documented shapes and at least one
    foreground label, [loss] returns; every regression loss is computed
    from the rows of the foreground samples only and is normalised by the
    number [n] of all samples, the bin classification by [n * num_bins]. *)
Theorem loss_agnostic_on_positives (E : Imports) (self : VRBBoxHead)
    (cls_score bbox_pred bin_cls_pred bin_offset_pred ratio_pred rois : Tensor Qc)
    (labels : Tensor Z)
    (label_weights bbox_targets bbox_weights bin_cls_targets bin_cls_weights
       bin_offset_targets bin_offset_weights ratio_targets ratio_weights : Tensor Qc)
    (reduction_override : option string) (n : nat) :
  reg_class_agnostic self = true ->
  shape labels = [n] ->
  shape bbox_pred = [n; 4] ->
  shape bin_cls_pred = [n; 4 * num_bins self] ->
  shape bin_offset_pred = [n; 4] ->
  shape ratio_pred = [n; 1] ->
  shape bbox_targets = [n; 4] ->
  shape bbox_weights = [n; 4] ->
  shape bin_cls_targets = [n; 4 * num_bins self] ->
  shape bin_cls_weights = [n; 4 * num_bins self] ->
  shape bin_offset_targets = [n; 4] ->
  shape bin_offset_weights = [n; 4] ->
  shape ratio_targets = [n; 1] ->
  shape ratio_weights = [n; 1] ->
  Exists (fun l => (0 <= l < Z.of_nat (num_classes self))%Z) (data labels) ->
  let fg := foreground (num_classes self) <$> data labels in
  exists losses : gmap string Scalar,
    loss E self cls_score bbox_pred bin_cls_pred bin_offset_pred ratio_pred rois
      labels label_weights bbox_targets bbox_weights bin_cls_targets
      bin_cls_weights bin_offset_targets bin_offset_weights ratio_targets
      ratio_weights reduction_override = Ok losses
    /\ losses !! "loss_bbox"
       = Some (loss_bbox self (rows_where bbox_pred fg) (rows_where bbox_targets fg)
                 (rows_where bbox_weights fg) (Qc_of_nat n) reduction_override)
    /\ losses !! "loss_bin_cls"
       = Some (loss_bin_cls self (rows_where bin_cls_pred fg)
                 (rows_where bin_cls_targets fg) (rows_where bin_cls_weights fg)
                 (Qc_of_nat (n * num_bins self)) reduction_override)
    /\ losses !! "loss_bin_offset"
       = Some (loss_bin_offset self (rows_where bin_offset_pred fg)
                 (rows_where bin_offset_targets fg)
                 (rows_where bin_offset_weights fg) (Qc_of_nat n) reduction_override)
    /\ losses !! "loss_ratio"
       = Some (loss_ratio self (rows_where ratio_pred fg) (rows_where ratio_targets fg)
                 (rows_where ratio_weights fg) (Qc_of_nat n) reduction_override).
Proof.
  intros Hag Hl Hb Hc Ho Hr Hbt Hbw Hct Hcw Hot How Hrt Hrw Hex fg.
  unfold loss.
  set (mask := tmap _ labels).
  assert (shape mask = [n]) as Hm by exact Hl.
  assert (data mask = fg) as Hfg by reflexivity.
  assert (existsb id (data mask) = true) as -> by exact (some_positive_mask _ _ Hex).
  rewrite Hag.
  rewrite (pos_pred_agnostic_rows bbox_pred n 4 mask Hb Hm),
    (pos_pred_agnostic_rows bin_cls_pred n _ mask Hc Hm),
    (pos_pred_agnostic_rows bin_offset_pred n 4 mask Ho Hm),
    (pos_pred_agnostic_rows ratio_pred n 1 mask Hr Hm).
  cbn [rbind].
  rewrite (mask_select_rows bbox_targets n _ mask Hbt Hm),
    (mask_select_rows bbox_weights n _ mask Hbw Hm),
    (mask_select_rows bin_cls_targets n _ mask Hct Hm),
    (mask_select_rows bin_cls_weights n _ mask Hcw Hm),
    (mask_select_rows bin_offset_targets n _ mask Hot Hm),
    (mask_select_rows bin_offset_weights n _ mask How Hm),
    (mask_select_rows ratio_targets n _ mask Hrt Hm),
    (mask_select_rows ratio_weights n _ mask Hrw Hm).
  unfold size. rewrite Hbt, Hct, Hot, Hrt.
  cbn [lookup list_lookup of_option rbind]. rewrite Hfg.
  eexists. split; [reflexivity|].
  repeat split; simplify_map_eq; reflexivity.
Qed.

Lemma loss_agnostic_on_positives_witness :
  let fg := foreground 2 <$> [1; 2]%Z in
  exists losses : gmap string Scalar,
    demo_loss (mkTensor [2] [1; 2]%Z) = Ok losses
    /\ losses !! "loss_bbox"
       = Some (loss_bbox (demo_head 2 2 true)
                 (rows_where (qt [2; 4] [1; 2; 3; 4; 5; 6; 7; 8]%Z) fg)
                 (rows_where (qt [2; 4] (replicate 8 0%Z)) fg)
                 (rows_where (qt [2; 4] (replicate 8 1%Z)) fg) (Qc_of_nat 2) None)
    /\ losses !! "loss_bin_cls"
       = Some (loss_bin_cls (demo_head 2 2 true)
                 (rows_where (qt [2; 8] (replicate 16 0%Z)) fg)
                 (rows_where (qt [2; 8] (replicate 16 0%Z)) fg)
                 (rows_where (qt [2; 8] (replicate 16 1%Z)) fg)
                 (Qc_of_nat (2 * 2)) None)
    /\ losses !! "loss_bin_offset"
       = Some (loss_bin_offset (demo_head 2 2 true)
                 (rows_where (qt [2; 4] (replicate 8 0%Z)) fg)
                 (rows_where (qt [2; 4] (replicate 8 0%Z)) fg)
                 (rows_where (qt [2; 4] (replicate 8 1%Z)) fg) (Qc_of_nat 2) None)
    /\ losses !! "loss_ratio"
       = Some (loss_ratio (demo_head 2 2 true)
                 (rows_where (tenths [2; 1] [9; 1]%Z) fg)
                 (rows_where (qt [2; 1] [0; 0]%Z) fg)
                 (rows_where (qt [2; 1] [1; 1]%Z) fg) (Qc_of_nat 2) None).
Proof.
  apply (loss_agnostic_on_positives demo_imports (demo_head 2 2 true)
           (qt [2; 3] [1; 2; 3; 4; 5; 6]%Z) (qt [2; 4] [1; 2; 3; 4; 5; 6; 7; 8]%Z)
           (qt [2; 8] (replicate 16 0%Z)) (qt [2; 4] (replicate 8 0%Z))
           (tenths [2; 1] [9; 1]%Z) (qt [2; 5] (replicate 10 0%Z))
           (mkTensor [2] [1; 2]%Z) (qt [2] [1; 1]%Z)
           (qt [2; 4] (replicate 8 0%Z)) (qt [2; 4] (replicate 8 1%Z))
           (qt [2; 8] (replicate 16 0%Z)) (qt [2; 8] (replicate 16 1%Z))
           (qt [2; 4] (replicate 8 0%Z)) (qt [2; 4] (replicate 8 1%Z))
           (qt [2; 1] [0; 0]%Z) (qt [2; 1] [1; 1]%Z) None 2);
    try reflexivity.
  apply Exists_cons_hd. simpl. lia.
Defined.

(** X5: in class-agnostic mode, when the number of labels differs from the
    number of rows of the box predictions and some label is a foreground
    label, the mask of the positives does not fit the predictions and the
    call raises an [IndexError]. *)
Theorem loss_rejects_label_count (E : Imports) (self : VRBBoxHead)
    (cls_score bbox_pred bin_cls_pred bin_offset_pred ratio_pred rois : Tensor Qc)
    (labels : Tensor Z)
    (label_weights bbox_targets bbox_weights bin_cls_targets bin_cls_weights
       bin_offset_targets bin_offset_weights ratio_targets ratio_weights : Tensor Qc)
    (reduction_override : option string) (n m : nat) :
  reg_class_agnostic self = true ->
  shape bbox_pred = [n; 4] ->
  shape labels = [m] ->
  m <> n ->
  Exists (fun l => (0 <= l < Z.of_nat (num_classes self))%Z) (data labels) ->
  loss E self cls_score bbox_pred bin_cls_pred bin_offset_pred ratio_pred rois
    labels label_weights bbox_targets bbox_weights bin_cls_targets
    bin_cls_weights bin_offset_targets bin_offset_weights ratio_targets
    ratio_weights reduction_override = Raise IndexError.
Proof.
  intros Hag Hb Hl Hm Hex. unfold loss.
  set (mask := tmap _ labels).
  assert (shape mask = [m]) as Hs by exact Hl.
  assert (existsb id (data mask) = true) as -> by exact (some_positive_mask _ _ Hex).
  rewrite Hag.
  unfold pos_pred_agnostic at 1. unfold size at 1. rewrite Hb.
  cbn [lookup list_lookup of_option rbind].
  assert (view bbox_pred [Some n; Some 4] = Ok bbox_pred) as ->.
  { unfold view.
    assert (length (filter (fun d : option nat => d = None) [Some n; Some 4]) = 0)
      as -> by reflexivity.
    rewrite decide_True by reflexivity.
    unfold numel. rewrite Hb. rewrite decide_True by reflexivity.
    destruct bbox_pred as [sh d]. cbn in *. subst sh. reflexivity. }
  cbn [rbind]. unfold mask_select at 1. unfold mask_fits. rewrite Hb, Hs.
  cbn [length take]. rewrite bool_decide_eq_false_2 by congruence.
  reflexivity.
Qed.

Lemma loss_rejects_label_count_witness :
  loss demo_imports (demo_head 2 2 true)
    (qt [2; 3] [1; 2; 3; 4; 5; 6]%Z) (qt [2; 4] [1; 2; 3; 4; 5; 6; 7; 8]%Z)
    (qt [2; 8] (replicate 16 0%Z)) (qt [2; 4] (replicate 8 0%Z))
    (tenths [2; 1] [9; 1]%Z) (qt [2; 5] (replicate 10 0%Z))
    (mkTensor [3] [1; 2; 2]%Z) (qt [3] [1; 1; 1]%Z)
    (qt [2; 4] (replicate 8 0%Z)) (qt [2; 4] (replicate 8 1%Z))
    (qt [2; 8] (replicate 16 0%Z)) (qt [2; 8] (replicate 16 1%Z))
    (qt [2; 4] (replicate 8 0%Z)) (qt [2; 4] (replicate 8 1%Z))
    (qt [2; 1] [0; 0]%Z) (qt [2; 1] [1; 1]%Z) None
  = Raise IndexError.
Proof.
  apply (loss_rejects_label_count _ _ _ _ _ _ _ _ _ _ _ _ _ _ _ _ _ _ _ 2 3);
    try reflexivity.
  - lia.
  - apply Exists_cons_hd. simpl. lia.
Defined.

(** ** [regress_by_class]: the class-conditional gathers *)

Lemma take_drop_take {A} (w a b : nat) (x : list A) :
  a + w <= b -> take w (drop a (take b x)) = take w (drop a x).
Proof.
  intros H. rewrite !take_drop_commute, take_take.
  replace ((a + w) `min` b) with (a + w) by lia. reflexivity.
Qed.

Lemma gather_row_range {A} (r : list A) (a w : nat) :
  a + w <= length r ->
  gather_row r (Z.of_nat <$> seq a w) = Some (take w (drop a r)).
Proof.
  unfold gather_row. revert a. induction w as [|w IH]; intros a Ha.
  - rewrite take_0. reflexivity.
  - cbn [seq fmap list_fmap mapM].
    rewrite decide_True by lia. rewrite Nat2Z.id.
    destruct (lookup_lt_is_Some_2 r a) as [x Hx]; [lia|].
    rewrite Hx. cbn [mbind option_bind].
    specialize (IH (S a)). cbn [fmap] in IH. rewrite IH by lia.
    cbn [mbind option_bind mret option_ret].
    rewrite (drop_S _ _ _ Hx). reflexivity.
Qed.

Lemma chunks_singletons {A} (l : list A) :
  chunks (length l) 1 l = (fun x => [x]) <$> l.
Proof. induction l as [|x l IH]; [reflexivity|]. cbn. rewrite drop_0. f_equal. exact IH. Qed.

Lemma chunks_concat {A} (w : nat) (rs : list (list A)) :
  Forall (fun r => length r = w) rs -> chunks (length rs) w (concat rs) = rs.
Proof.
  induction 1 as [|r rs Hr _ IH]; [reflexivity|].
  cbn [length chunks concat].
  rewrite (take_app_length' _ _ w), (drop_app_length' _ _ w) by (symmetry; exact Hr).
  f_equal. exact IH.
Qed.

Lemma select_blocks_all {A} (n : nat) (d : list A) :
  length d = n -> select_blocks 1 (replicate n true) d = d.
Proof.
  revert d. induction n as [|n IH]; intros d Hd.
  - symmetry. apply nil_length_inv. exact Hd.
  - destruct d as [|x d]; [discriminate|]. cbn. rewrite drop_0. f_equal.
    apply IH. simpl in Hd. lia.
Qed.

Lemma true_positions_all_from {B} (g : nat -> B) (n : nat) :
  (fun p : B * bool => p.1)
    <$> filter (fun p : B * bool => p.2 = true)
          (imap (fun i b => (g i, b)) (replicate n true))
  = g <$> seq 0 n.
Proof.
  revert g. induction n as [|n IH]; intros g; [reflexivity|].
  cbn [replicate]. rewrite imap_cons.
  rewrite filter_cons_True by reflexivity.
  cbn [fmap list_fmap seq]. f_equal.
  rewrite <- fmap_S_seq, <- list_fmap_compose. apply (IH (g ∘ S)).
Qed.

Lemma true_positions_all (n : nat) : true_positions (replicate n true) = seq 0 n.
Proof.
  unfold true_positions. rewrite (true_positions_all_from (fun i => i)).
  apply list_fmap_id.
Qed.

(** The block of sample [i] and class [l] in a prediction with [C] classes
    of width [w]. *)
Lemma class_block_of_row {A} (d : list A) (C w i l : nat) :
  l < C ->
  take w (drop (l * w) (take (C * w) (drop (i * (C * w)) d)))
  = take w (drop ((i * C + l) * w) d).
Proof.
  intros Hl. rewrite take_drop_take by nia.
  rewrite drop_drop. do 2 f_equal. lia.
Qed.

Lemma gather_rows_by_class {A} (C w : nat) (ix : Z -> list Z) (d : list A) :
  (forall (l : Z) (r : list A),
     (0 <= l < Z.of_nat C)%Z -> length r = C * w ->
     gather_row r (ix l) = Some (take w (drop (Z.to_nat l * w) r))) ->
  forall (ls : list Z) (k : nat),
    Forall (fun l => (0 <= l < Z.of_nat C)%Z) ls ->
    (k + length ls) * (C * w) <= length d ->
    mapM (fun p : list A * list Z => gather_row p.1 p.2)
      (zip (chunks (length ls) (C * w) (drop (k * (C * w)) d)) (ix <$> ls))
    = Some ((fun p : nat * Z => take w (drop ((p.1 * C + Z.to_nat p.2) * w) d))
              <$> zip (seq k (length ls)) ls).
Proof.
  intros Hix ls. induction ls as [|l ls IH]; intros k Hall Hd; [reflexivity|].
  apply Forall_cons in Hall as [Hl Hall].
  cbn [length chunks fmap list_fmap zip zip_with seq mapM fst snd].
  cbn [length] in Hd.
  rewrite Hix; [|exact Hl | rewrite length_take, length_drop; nia].
  cbn [mbind option_bind].
  rewrite drop_drop.
  replace (k * (C * w) + C * w) with (S k * (C * w)) by lia.
  specialize (IH (S k) Hall). cbn [fmap] in IH. rewrite IH by lia.
  cbn [mbind option_bind mret option_ret]. do 2 f_equal.
  apply class_block_of_row. lia.
Qed.

Lemma norm_index_in_range (n : nat) (l : Z) :
  (0 <= l < Z.of_nat n)%Z -> norm_index n l = Some (Z.to_nat l).
Proof. intros H. unfold norm_index. rewrite decide_True by exact H. reflexivity. Qed.

Lemma index_rows_by_class {A} (C w : nat) (d : list A) (ls : list Z) (k : nat) :
  Forall (fun l => (0 <= l < Z.of_nat C)%Z) ls ->
  mapM (fun p : nat * Z =>
          (fun j => take w (drop ((p.1 * C + j) * w) d)) <$> norm_index C p.2)
    (zip (seq k (length ls)) ls)
  = Some ((fun p : nat * Z => take w (drop ((p.1 * C + Z.to_nat p.2) * w) d))
            <$> zip (seq k (length ls)) ls).
Proof.
  revert k. induction ls as [|l ls IH]; intros k Hall; [reflexivity|].
  apply Forall_cons in Hall as [Hl Hall].
  cbn [length seq zip zip_with fmap list_fmap mapM fst snd].
  rewrite (norm_index_in_range _ _ Hl).
  cbn [fmap option_fmap option_map mbind option_bind].
  specialize (IH (S k) Hall). cbn [fmap] in IH. rewrite IH.
  reflexivity.
Qed.

Lemma foreground_all (C : nat) (ls : list Z) :
  Forall (fun l => (0 <= l < Z.of_nat C)%Z) ls ->
  foreground C <$> ls = replicate (length ls) true.
Proof.
  induction 1 as [|l ls Hl _ IH]; [reflexivity|].
  cbn [fmap list_fmap length replicate]. cbn [fmap] in IH. rewrite IH.
  f_equal. unfold foreground. rewrite !bool_decide_eq_true_2 by lia. reflexivity.
Qed.

Lemma view_classes (pred : Tensor Qc) (n C w : nat) :
  0 < n -> 0 < w ->
  shape pred = [n; C * w] ->
  view pred [Some n; None; Some w] = Ok (mkTensor [n; C; w] (data pred)).
Proof.
  intros Hn Hw Hs. unfold view.
  assert (length (filter (fun d : option nat => d = None) [Some n; None; Some w]) = 1)
    as -> by reflexivity.
  assert (known_dims [Some n; None; Some w] = n * w) as ->
    by (unfold known_dims; simpl; lia).
  assert (numel pred = C * (n * w)) as ->
    by (unfold numel; rewrite Hs; unfold numel_of; simpl; lia).
  rewrite decide_False by lia. rewrite decide_True by reflexivity.
  rewrite decide_False by nia.
  rewrite decide_True by apply Nat.Div0.mod_mul.
  rewrite Nat.div_mul by nia. reflexivity.
Qed.

Lemma pos_pred_by_class_all (pred : Tensor Qc) (C w n : nat) (label : Tensor Z) :
  0 < n -> 0 < w ->
  shape pred = [n; C * w] ->
  shape label = [n] ->
  wf label ->
  Forall (fun l => (0 <= l < Z.of_nat C)%Z) (data label) ->
  pos_pred_by_class pred w label (tmap (foreground C) label)
  = Ok (class_slices C w pred (data label)).
Proof.
  intros Hn Hw Hp Hl Hwf Hall.
  assert (length (data label) = n) as Hlen
    by (unfold wf, numel in Hwf; rewrite Hwf, Hl; unfold numel_of; simpl; lia).
  unfold pos_pred_by_class, size. rewrite Hp.
  cbn [lookup list_lookup of_option rbind].
  rewrite (view_classes pred n C w Hn Hw Hp). cbn [rbind].
  unfold mask_select, mask_fits, tmap. cbn [shape data].
  rewrite Hl. cbn [length take drop].
  rewrite bool_decide_eq_true_2 by reflexivity. cbn [rbind].
  rewrite (foreground_all C _ Hall), Hlen.
  change (numel_of []) with 1. rewrite (select_blocks_all n _ Hlen).
  unfold index_mask_long. cbn [shape data].
  rewrite decide_True by reflexivity.
  rewrite true_positions_all.
  unfold pair_up. rewrite decide_True by (rewrite length_seq; lia).
  cbn [of_option rbind].
  change (numel_of [w]) with (w * 1). rewrite Nat.mul_1_r.
  rewrite <- Hlen. rewrite (index_rows_by_class C w (data pred) (data label) 0 Hall).
  cbn [of_option rbind]. unfold class_slices.
  rewrite length_zip_with, length_seq. do 3 f_equal. lia.
Qed.

Lemma wrap64_small (z : Z) : (0 <= z < 2 ^ 63)%Z -> wrap64 z = z.
Proof. intros H. unfold wrap64. rewrite Z.mod_small by lia. lia. Qed.

Lemma stack4_offsets_rows_of (label : Tensor Z) (n : nat) :
  shape label = [n] ->
  wf label ->
  stack4_offsets (tmap (fun l => wrap64 (l * 4)) label)
  = Ok (mkTensor [n; 4]
          (concat ((fun l => [wrap64 (wrap64 (l * 4) + 0); wrap64 (wrap64 (l * 4) + 1);
                              wrap64 (wrap64 (l * 4) + 2); wrap64 (wrap64 (l * 4) + 3)])
                     <$> data label))).
Proof.
  intros Hs Hwf.
  assert (length (data label) = n) as Hlen
    by (unfold wf, numel in Hwf; rewrite Hwf, Hs; unfold numel_of; simpl; lia).
  unfold stack4_offsets, tmap. cbn [shape data]. rewrite Hs.
  change (numel_of []) with 1. do 3 f_equal.
  rewrite <- Hlen at 1. rewrite <- (length_fmap (fun l => wrap64 (l * 4))).
  rewrite chunks_singletons, <- !list_fmap_compose.
  apply list_fmap_ext. intros i l _. reflexivity.
Qed.

Lemma gather1_class_slices (pred : Tensor Qc) (C w n : nat) (ls : list Z)
    (ix : Z -> list Z) :
  shape pred = [n; C * w] ->
  wf pred ->
  length ls = n ->
  Forall (fun l => (0 <= l < Z.of_nat C)%Z) ls ->
  (forall l, (0 <= l < Z.of_nat C)%Z -> ix l = Z.of_nat <$> seq (Z.to_nat l * w) w) ->
  gather1 pred (mkTensor [n; w] (concat (ix <$> ls))) = Ok (class_slices C w pred ls).
Proof.
  intros Hs Hwf Hlen Hall Hix.
  assert (length (data pred) = n * (C * w)) as Hd
    by (unfold wf, numel in Hwf; rewrite Hwf, Hs; unfold numel_of; simpl; lia).
  unfold gather1. rewrite Hs. cbn [shape data].
  rewrite decide_True by lia.
  assert (chunks n w (concat (ix <$> ls)) = ix <$> ls) as ->.
  { rewrite <- Hlen, <- (length_fmap ix). apply chunks_concat.
    apply Forall_fmap. eapply Forall_impl; [exact Hall|].
    intros l Hl. cbn. rewrite (Hix l Hl), length_fmap, length_seq. reflexivity. }
  rewrite <- Hlen.
  pose proof (gather_rows_by_class C w ix (data pred)) as Hg.
  specialize (Hg ltac:(intros l r Hl Hr; rewrite (Hix l Hl);
                       apply gather_row_range; rewrite Hr; nia)).
  specialize (Hg ls 0 Hall ltac:(lia)). rewrite drop_0 in Hg. rewrite Hg.
  cbn [of_option rbind]. unfold class_slices. reflexivity.
Qed.

Lemma offsets_of_class (C : nat) (l : Z) :
  (4 * Z.of_nat C < 2 ^ 63)%Z ->
  (0 <= l < Z.of_nat C)%Z ->
  [wrap64 (wrap64 (l * 4) + 0); wrap64 (wrap64 (l * 4) + 1);
   wrap64 (wrap64 (l * 4) + 2); wrap64 (wrap64 (l * 4) + 3)]
  = Z.of_nat <$> seq (Z.to_nat l * 4) 4.
Proof.
  intros HC Hl. rewrite (wrap64_small (l * 4)) by lia.
  rewrite !wrap64_small by lia.
  cbn [seq fmap list_fmap]. repeat f_equal; lia.
Qed.

Lemma concat_singletons {A} (l : list A) : concat ((fun x => [x]) <$> l) = l.
Proof. induction l as [|x l IH]; [reflexivity|]. cbn. f_equal. exact IH. Qed.

Lemma wf_length_vector {A} (t : Tensor A) (n : nat) :
  shape t = [n] -> wf t -> length (data t) = n.
Proof.
  intros Hs Hw. unfold wf, numel in Hw. rewrite Hw, Hs.
  unfold numel_of. simpl. lia.
Qed.

(** X6: in class-aware mode, for a batch of foreground samples, the box
    deltas, the bin offsets and the ratios that [regress_by_class] gathers
    for the labels are the rows that [loss] selects for the same labels:
    refinement regresses with the slice that was trained for the class. *)
Theorem class_gathers_match_loss_selection (self : VRBBoxHead) (label : Tensor Z)
    (bbox_pred bin_cls_pred bin_offset_pred ratio_pred a b c d : Tensor Qc)
    (n : nat) :
  0 < n ->
  shape label = [n] ->
  wf label ->
  Forall (fun l => (0 <= l < Z.of_nat (num_classes self))%Z) (data label) ->
  (4 * Z.of_nat (num_classes self) < 2 ^ 63)%Z ->
  shape bbox_pred = [n; 4 * num_classes self] ->
  wf bbox_pred ->
  shape bin_offset_pred = [n; 4 * num_classes self] ->
  wf bin_offset_pred ->
  shape ratio_pred = [n; num_classes self] ->
  wf ratio_pred ->
  gather_by_class self label bbox_pred bin_cls_pred bin_offset_pred ratio_pred
  = Ok (a, b, c, d) ->
  let fg := tmap (foreground (num_classes self)) label in
  pos_pred_by_class bbox_pred 4 label fg = Ok a
  /\ pos_pred_by_class bin_offset_pred 4 label fg = Ok c
  /\ pos_pred_by_class ratio_pred 1 label fg = Ok d.
Proof.
  intros Hn Hl Hwf Hall HC Hb Hbw Ho How Hr Hrw Hg fg.
  pose proof (wf_length_vector _ _ Hl Hwf) as Hlen.
  rewrite (Nat.mul_comm 4) in Hb, Ho.
  assert (shape ratio_pred = [n; num_classes self * 1]) as Hr1
    by (rewrite Nat.mul_1_r; exact Hr).
  unfold fg.
  rewrite (pos_pred_by_class_all bbox_pred _ 4 n label) by (assumption || lia).
  rewrite (pos_pred_by_class_all bin_offset_pred _ 4 n label) by (assumption || lia).
  rewrite (pos_pred_by_class_all ratio_pred _ 1 n label) by (assumption || lia).
  unfold gather_by_class in Hg.
  unfold unsqueeze1 in Hg. rewrite Hl in Hg. cbn [rbind] in Hg.
  rewrite <- (concat_singletons (data label)) in Hg at 1.
  rewrite (gather1_class_slices ratio_pred (num_classes self) 1 n (data label)
             (fun l => [l])) in Hg; try assumption.
  2:{ intros l Hx. cbn [seq fmap list_fmap]. rewrite Nat.mul_1_r, Z2Nat.id by lia.
      reflexivity. }
  cbn [rbind] in Hg.
  apply rbind_Ok in Hg as (v & _ & Hg).
  rewrite (stack4_offsets_rows_of label n Hl Hwf) in Hg. cbn [rbind] in Hg.
  rewrite (gather1_class_slices bbox_pred (num_classes self) 4 n (data label))
    in Hg; try assumption.
  2:{ intros l Hx. apply (offsets_of_class (num_classes self)); assumption. }
  cbn [rbind] in Hg.
  apply rbind_Ok in Hg as (g & _ & Hg).
  rewrite (gather1_class_slices bin_offset_pred (num_classes self) 4 n (data label))
    in Hg; try assumption.
  2:{ intros l Hx. apply (offsets_of_class (num_classes self)); assumption. }
  cbn [rbind] in Hg.
  apply rbind_Ok in Hg as (g' & _ & Hg).
  injection Hg as <- _ <- <-. auto.
Qed.

Lemma class_gathers_match_loss_selection_witness :
  let label := mkTensor [2] [0; 1]%Z in
  let pred := qt [2; 8] (Z.of_nat <$> seq 0 16) in
  let ratio := qt [2; 2] [1; 2; 3; 4]%Z in
  let fg := tmap (foreground 2) label in
  pos_pred_by_class pred 4 label fg = Ok (qt [2; 4] [0; 1; 2; 3; 12; 13; 14; 15]%Z)
  /\ pos_pred_by_class pred 4 label fg = Ok (qt [2; 4] [0; 1; 2; 3; 12; 13; 14; 15]%Z)
  /\ pos_pred_by_class ratio 1 label fg = Ok (qt [2; 1] [1; 4]%Z).
Proof.
  apply (class_gathers_match_loss_selection (demo_head 2 1 false)
           (mkTensor [2] [0; 1]%Z) (qt [2; 8] (Z.of_nat <$> seq 0 16))
           (qt [2; 8] (Z.of_nat <$> seq 0 16)) (qt [2; 8] (Z.of_nat <$> seq 0 16))
           (qt [2; 2] [1; 2; 3; 4]%Z)
           (qt [2; 4] [0; 1; 2; 3; 12; 13; 14; 15]%Z)
           (qt [2; 4] [0; 1; 2; 3; 12; 13; 14; 15]%Z)
           (qt [2; 4] [0; 1; 2; 3; 12; 13; 14; 15]%Z)
           (qt [2; 1] [1; 4]%Z) 2);
    try reflexivity; try lia.
  repeat constructor; simpl; lia.
Defined.

(** ** [regress_by_class]: what the call returns and when it fails *)

Lemma size1_matrix {A} (t : Tensor A) (n c : nat) : shape t = [n; c] -> size t 1 = Ok c.
Proof. intros H. unfold size. rewrite H. reflexivity. Qed.

Lemma tensor_eta {A} (t : Tensor A) : mkTensor (shape t) (data t) = t.
Proof. destruct t. reflexivity. Qed.

Lemma scatter_blocks_all {A} (w n : nat) (old new : list A) :
  length new = n * w -> scatter_blocks w (replicate n true) old new = new.
Proof.
  revert old new. induction n as [|n IH]; intros old new Hn.
  - destruct new; [reflexivity | discriminate].
  - cbn [replicate scatter_blocks].
    rewrite IH by (rewrite length_drop; lia).
    apply take_drop.
Qed.

Lemma mask_assign_all {A} (t v : Tensor A) (mask : Tensor bool) (n w : nat) :
  shape t = [n; w] ->
  shape mask = [n] ->
  data mask = replicate n true ->
  shape v = [n; w] ->
  wf v ->
  mask_assign t mask v = Ok v.
Proof.
  intros Ht Hm Hd Hv Hw. unfold mask_assign, mask_fits.
  rewrite Ht, Hm, Hd. cbn [length take drop].
  rewrite bool_decide_eq_true_2 by reflexivity.
  rewrite count_true_all, <- Hv, expand_to_same by exact Hw. cbn [rbind].
  rewrite scatter_blocks_all.
  - rewrite tensor_eta. reflexivity.
  - unfold wf, numel in Hw. rewrite Hw, Hv. unfold numel_of. simpl. lia.
Qed.

Lemma all_above_mask (t : Tensor Qc) (thr : Qc) :
  Forall (fun v => (thr < v)%Qc) (data t) ->
  data (gt_scalar t thr) = replicate (length (data t)) true.
Proof.
  unfold gt_scalar, tmap. cbn [data]. intros H.
  induction H as [|v l Hv _ IH]; [reflexivity|].
  cbn [fmap list_fmap length replicate].
  rewrite bool_decide_eq_true_2 by exact Hv. f_equal. exact IH.
Qed.

(** The class-agnostic call up to the decoding: the four assertions pass
    on predictions of the documented shapes. *)
Lemma regress_by_class_agnostic (E : Imports) (self : VRBBoxHead)
    (rois : Tensor Qc) (label : Tensor Z)
    (bbox_pred bin_cls_pred bin_offset_pred ratio_pred : Tensor Qc)
    (img_meta : gmap string (list nat)) (n c : nat) :
  reg_class_agnostic self = true ->
  shape rois = [n; c] ->
  c = 4 \/ c = 5 ->
  shape bbox_pred = [n; 4] ->
  shape bin_cls_pred = [n; 4 * num_bins self] ->
  shape bin_offset_pred = [n; 4] ->
  regress_by_class E self rois label bbox_pred bin_cls_pred bin_offset_pred
    ratio_pred img_meta
  = if decide (c = 4) then
      do img_shape <- of_option KeyError (img_meta !! "img_shape");
      let bboxes := bbox_decode (bbox_coder self) rois bbox_pred img_shape in
      let new_rois := bin_decode (bin_coder self) bboxes bin_cls_pred bin_offset_pred in
      do ratio_pred <- squeeze1 ratio_pred;
      mask_assign new_rois (gt_scalar ratio_pred (ratio_thr self)) (hbb2poly E bboxes)
    else
      do boxes_in <- cols_from1 rois;
      do img_shape <- of_option KeyError (img_meta !! "img_shape");
      let bboxes := bbox_decode (bbox_coder self) boxes_in bbox_pred img_shape in
      let polys := bin_decode (bin_coder self) bboxes bin_cls_pred bin_offset_pred in
      do ratio_pred <- squeeze1 ratio_pred;
      do polys <-
        mask_assign polys (gt_scalar ratio_pred (ratio_thr self)) (hbb2poly E bboxes);
      do ids <- col0 rois;
      cat1 ids polys.
Proof.
  intros Hag Hr Hc Hb Hk Ho. unfold regress_by_class.
  rewrite (size1_matrix _ _ _ Hr), Hag. cbn [rbind].
  assert (bool_decide (c = 4) || bool_decide (c = 5) = true) as ->.
  { destruct Hc as [-> | ->]; reflexivity. }
  cbn [assert rbind].
  rewrite (size1_matrix _ _ _ Hb). cbn [rbind].
  rewrite (bool_decide_eq_true_2 (4 = 4)) by reflexivity. cbn [assert rbind].
  rewrite (size1_matrix _ _ _ Hk). cbn [rbind].
  rewrite (bool_decide_eq_true_2 (4 * num_bins self = 4 * num_bins self))
    by reflexivity.
  cbn [assert rbind].
  rewrite (size1_matrix _ _ _ Ho). cbn [rbind].
  rewrite (bool_decide_eq_true_2 (4 = 4)) by reflexivity. cbn [assert rbind].
  reflexivity.
Qed.

(** X9: in class-agnostic mode, when the ratio of every RoI exceeds the
    threshold, [regress_by_class] on four-column RoIs returns the horizontal
    boxes it decoded, converted to polygons by [hbb2poly]; the bin-decoded
    polygons are discarded. *)
Theorem regress_by_class_all_horizontal (E : Imports) (self : VRBBoxHead)
    (rois : Tensor Qc) (label : Tensor Z)
    (bbox_pred bin_cls_pred bin_offset_pred ratio_pred : Tensor Qc)
    (img_meta : gmap string (list nat)) (img_shape : list nat) (n : nat) :
  reg_class_agnostic self = true ->
  shape rois = [n; 4] ->
  shape bbox_pred = [n; 4] ->
  shape bin_cls_pred = [n; 4 * num_bins self] ->
  shape bin_offset_pred = [n; 4] ->
  well_shaped ratio_pred [n; 1] ->
  img_meta !! "img_shape" = Some img_shape ->
  let bboxes := bbox_decode (bbox_coder self) rois bbox_pred img_shape in
  shape (bin_decode (bin_coder self) bboxes bin_cls_pred bin_offset_pred) = [n; 8] ->
  well_shaped (hbb2poly E bboxes) [n; 8] ->
  Forall (fun v => (ratio_thr self < v)%Qc) (data ratio_pred) ->
  regress_by_class E self rois label bbox_pred bin_cls_pred bin_offset_pred
    ratio_pred img_meta = Ok (hbb2poly E bboxes).
Proof.
  intros Hag Hr Hb Hc Ho [Hq Hqw] Hm bboxes Hd [Hh Hhw] Hall.
  rewrite (regress_by_class_agnostic E self _ _ _ _ _ _ _ n 4) by auto.
  rewrite decide_True by reflexivity.
  rewrite Hm. cbn [of_option rbind].
  unfold squeeze1. rewrite Hq. rewrite decide_True by reflexivity. cbn [rbind].
  apply (mask_assign_all _ _ _ n 8); auto.
  unfold gt_scalar, tmap. cbn [shape data].
  change (data (gt_scalar (mkTensor [n] (data ratio_pred)) (ratio_thr self))
          = replicate n true).
  rewrite all_above_mask by exact Hall. cbn [data]. f_equal.
  unfold wf, numel in Hqw. rewrite Hqw, Hq. unfold numel_of. simpl. lia.
Qed.

Lemma regress_by_class_all_horizontal_witness :
  regress_by_class demo_imports (demo_head 2 1 true)
    (qt [2; 4] [0; 0; 10; 10; 0; 0; 20; 20]%Z) (mkTensor [2] [0; 0]%Z)
    (qt [2; 4] [1; 2; 3; 4; 5; 6; 7; 8]%Z) (qt [2; 4] (replicate 8 0%Z))
    (qt [2; 4] (replicate 8 0%Z)) (tenths [2; 1] [9; 9]%Z) demo_meta
  = Ok (qt [2; 8] [1; 2; 3; 2; 3; 4; 1; 4; 5; 6; 7; 6; 7; 8; 5; 8]%Z).
Proof.
  apply (regress_by_class_all_horizontal demo_imports (demo_head 2 1 true)
           (qt [2; 4] [0; 0; 10; 10; 0; 0; 20; 20]%Z) (mkTensor [2] [0; 0]%Z)
           (qt [2; 4] [1; 2; 3; 4; 5; 6; 7; 8]%Z) (qt [2; 4] (replicate 8 0%Z))
           (qt [2; 4] (replicate 8 0%Z)) (tenths [2; 1] [9; 9]%Z) demo_meta
           [100; 100; 3] 2);
    try reflexivity.
  - split; reflexivity.
  - split; reflexivity.
  - repeat constructor.
Defined.

Lemma lookup_chunks {A} (n w i : nat) (d : list A) :
  i < n -> chunks n w d !! i = Some (take w (drop (i * w) d)).
Proof.
  revert i d. induction n as [|n IH]; intros i d Hi; [lia|].
  destruct i as [|i]; cbn [chunks]; [reflexivity|].
  cbn [lookup list_lookup]. change (chunks n w (drop w d) !! i = Some (take w (drop (S i * w) d))).
  rewrite IH by lia. rewrite drop_drop. reflexivity.
Qed.

Lemma lookup_blocks {A} (w i : nat) (rs : list (list A)) (r : list A) :
  Forall (fun b => length b = w) rs ->
  rs !! i = Some r ->
  take w (drop (i * w) (concat rs)) = r.
Proof.
  intros H. revert i. induction H as [|b rs Hb _ IH]; intros i Hi; [discriminate|].
  destruct i as [|i]; cbn [concat].
  - injection Hi as ->. cbn [Nat.mul drop]. apply take_app_length'. symmetry. exact Hb.
  - replace (S i * w) with (length b + i * w) by lia.
    rewrite <- drop_drop, drop_app_length. apply IH. exact Hi.
Qed.

(** X10: on five-column RoIs the first column, the image id, is carried
    over: when the ratio of every RoI exceeds the threshold, row [i] of the
    result is the image id of RoI [i] followed by the eight coordinates
    that [hbb2poly] gives for the box decoded from its other four columns. *)
Theorem regress_by_class_keeps_image_ids (E : Imports) (self : VRBBoxHead)
    (rois boxes_in : Tensor Qc) (label : Tensor Z)
    (bbox_pred bin_cls_pred bin_offset_pred ratio_pred : Tensor Qc)
    (img_meta : gmap string (list nat)) (img_shape : list nat) (n : nat) :
  reg_class_agnostic self = true ->
  well_shaped rois [n; 5] ->
  cols_from1 rois = Ok boxes_in ->
  shape bbox_pred = [n; 4] ->
  shape bin_cls_pred = [n; 4 * num_bins self] ->
  shape bin_offset_pred = [n; 4] ->
  well_shaped ratio_pred [n; 1] ->
  img_meta !! "img_shape" = Some img_shape ->
  let bboxes := bbox_decode (bbox_coder self) boxes_in bbox_pred img_shape in
  shape (bin_decode (bin_coder self) bboxes bin_cls_pred bin_offset_pred) = [n; 8] ->
  well_shaped (hbb2poly E bboxes) [n; 8] ->
  Forall (fun v => (ratio_thr self < v)%Qc) (data ratio_pred) ->
  exists out,
    regress_by_class E self rois label bbox_pred bin_cls_pred bin_offset_pred
      ratio_pred img_meta = Ok out
    /\ shape out = [n; 9]
    /\ forall i, i < n ->
         row out i = take 1 (row rois i) ++ row (hbb2poly E bboxes) i.
Proof.
  intros Hag [Hr Hrw] Hin Hb Hc Ho [Hq Hqw] Hm bboxes Hd [Hh Hhw] Hall.
  rewrite (regress_by_class_agnostic E self _ _ _ _ _ _ _ n 5) by auto.
  rewrite decide_False by lia.
  rewrite Hin. cbn [rbind]. rewrite Hm. cbn [of_option rbind].
  unfold squeeze1. rewrite Hq. rewrite decide_True by reflexivity. cbn [rbind].
  fold bboxes.
  rewrite (mask_assign_all _ (hbb2poly E bboxes) _ n 8); auto.
  2:{ change (data (gt_scalar (mkTensor [n] (data ratio_pred)) (ratio_thr self))
              = replicate n true).
      rewrite all_above_mask by exact Hall. cbn [data]. f_equal.
      unfold wf, numel in Hqw. rewrite Hqw, Hq. unfold numel_of. simpl. lia. }
  cbn [rbind]. unfold col0. rewrite Hr. rewrite decide_True by lia. cbn [rbind].
  unfold cat1, skipped. cbn [shape data]. rewrite Hh.
  rewrite !bool_decide_eq_false_2 by discriminate.
  rewrite decide_True by auto.
  eexists. split; [reflexivity|]. split; [reflexivity|].
  intros i Hi.
  rewrite (row_of_matrix _ n 9) by reflexivity.
  rewrite (row_of_matrix _ n 5) by exact Hr.
  rewrite (row_of_matrix _ n 8) by exact Hh.
  cbn [data numel_of foldr]. rewrite !Nat.mul_1_r.
  assert (length (data rois) = n * 5) as Hlr
    by (unfold wf, numel in Hrw; rewrite Hrw, Hr; unfold numel_of; simpl; lia).
  assert (length (data (hbb2poly E bboxes)) = n * 8) as Hlh
    by (unfold wf, numel in Hhw; rewrite Hhw, Hh; unfold numel_of; simpl; lia).
  assert (Forall (fun b : list Qc => length b = 1) (take 1 <$> chunks n 5 (data rois)))
    as Hone.
  { apply Forall_fmap.
    eapply Forall_impl; [exact (Forall_length_chunks n 5 _ Hlr)|].
    intros b Hb'. unfold compose. cbn beta in Hb' |- *. rewrite length_take. lia. }
  assert (chunks n 1 (concat (take 1 <$> chunks n 5 (data rois)))
          = take 1 <$> chunks n 5 (data rois)) as ->.
  { rewrite <- (length_chunks n 5 (data rois)) at 1.
    rewrite <- (length_fmap (take 1)). apply chunks_concat. exact Hone. }
  apply (lookup_blocks 9).
  - apply Forall_lookup. intros j b Hbm.
    apply lookup_zip_with_Some in Hbm as (x & y & -> & Hx & Hy).
    rewrite length_app.
    pose proof (Forall_length_chunks n 8 _ Hlh) as HF.
    rewrite Forall_lookup in HF. rewrite (HF _ _ Hy).
    rewrite Forall_lookup in Hone. rewrite (Hone _ _ Hx). reflexivity.
  - rewrite lookup_zip_with, list_lookup_fmap, !lookup_chunks by exact Hi.
    reflexivity.
Qed.

Lemma regress_by_class_keeps_image_ids_witness :
  exists out,
    regress_by_class demo_imports (demo_head 2 1 true)
      (qt [2; 5] [7; 0; 0; 10; 10; 3; 0; 0; 20; 20]%Z) (mkTensor [2] [0; 0]%Z)
      (qt [2; 4] [1; 2; 3; 4; 5; 6; 7; 8]%Z) (qt [2; 4] (replicate 8 0%Z))
      (qt [2; 4] (replicate 8 0%Z)) (tenths [2; 1] [9; 9]%Z) demo_meta = Ok out
    /\ shape out = [2; 9]
    /\ forall i, i < 2 ->
         row out i
         = take 1 (row (qt [2; 5] [7; 0; 0; 10; 10; 3; 0; 0; 20; 20]%Z) i)
           ++ row (qt [2; 8] [1; 2; 3; 2; 3; 4; 1; 4; 5; 6; 7; 6; 7; 8; 5; 8]%Z) i.
Proof.
  apply (regress_by_class_keeps_image_ids demo_imports (demo_head 2 1 true)
           (qt [2; 5] [7; 0; 0; 10; 10; 3; 0; 0; 20; 20]%Z)
           (qt [2; 4] [0; 0; 10; 10; 0; 0; 20; 20]%Z) (mkTensor [2] [0; 0]%Z)
           (qt [2; 4] [1; 2; 3; 4; 5; 6; 7; 8]%Z) (qt [2; 4] (replicate 8 0%Z))
           (qt [2; 4] (replicate 8 0%Z)) (tenths [2; 1] [9; 9]%Z) demo_meta
           [100; 100; 3] 2);
    try reflexivity.
  - split; reflexivity.
  - split; reflexivity.
  - split; reflexivity.
  - repeat constructor.
Defined.

(** X11: the image meta has to carry the key [img_shape]: in class-agnostic
    mode, on predictions of the documented shapes, a meta without it ends
    the call with [KeyError]. *)
Theorem regress_by_class_needs_img_shape (E : Imports) (self : VRBBoxHead)
    (rois : Tensor Qc) (label : Tensor Z)
    (bbox_pred bin_cls_pred bin_offset_pred ratio_pred : Tensor Qc)
    (img_meta : gmap string (list nat)) (n c : nat) :
  reg_class_agnostic self = true ->
  shape rois = [n; c] ->
  c = 4 \/ c = 5 ->
  shape bbox_pred = [n; 4] ->
  shape bin_cls_pred = [n; 4 * num_bins self] ->
  shape bin_offset_pred = [n; 4] ->
  img_meta !! "img_shape" = None ->
  regress_by_class E self rois label bbox_pred bin_cls_pred bin_offset_pred
    ratio_pred img_meta = Raise KeyError.
Proof.
  intros Hag Hr Hc Hb Hk Ho Hm.
  rewrite (regress_by_class_agnostic E self _ _ _ _ _ _ _ n c) by auto.
  destruct Hc as [-> | ->].
  - rewrite decide_True by reflexivity. rewrite Hm. reflexivity.
  - rewrite decide_False by lia. unfold cols_from1. rewrite Hr. cbn [rbind].
    rewrite Hm. reflexivity.
Qed.

Lemma regress_by_class_needs_img_shape_witness :
  regress_by_class demo_imports (demo_head 2 1 true)
    (qt [2; 5] [7; 0; 0; 10; 10; 3; 0; 0; 20; 20]%Z) (mkTensor [2] [0; 0]%Z)
    (qt [2; 4] [1; 2; 3; 4; 5; 6; 7; 8]%Z) (qt [2; 4] (replicate 8 0%Z))
    (qt [2; 4] (replicate 8 0%Z)) (tenths [2; 1] [9; 9]%Z)
    {["ori_shape" := [100; 100; 3]]}
  = Raise KeyError.
Proof.
  apply (regress_by_class_needs_img_shape demo_imports (demo_head 2 1 true)
           _ _ _ _ _ _ _ 2 5); try reflexivity.
  right. reflexivity.
Defined.

Lemma gather1_out_of_range {A} (input : Tensor A) (n C : nat) (ls : list Z) (l : Z) :
  shape input = [n; C] ->
  length ls = n ->
  l ∈ ls ->
  ~ (0 <= l < Z.of_nat C)%Z ->
  gather1 input (mkTensor [n; 1] ls) = Raise RuntimeError.
Proof.
  intros Hs Hlen Hin Hl. unfold gather1. rewrite Hs. cbn [shape data].
  rewrite decide_True by lia.
  rewrite <- Hlen at 2. rewrite chunks_singletons.
  apply list_elem_of_lookup in Hin as [i Hi].
  assert (i < n) as Hlt by (rewrite <- Hlen; eapply lookup_lt_Some; exact Hi).
  rewrite (mapM_None_2 _ _); [reflexivity|].
  apply Exists_exists.
  exists (take C (drop (i * C) (data input)), [l]). split.
  - apply (list_elem_of_lookup_2 _ i), lookup_zip_Some. split.
    + apply lookup_chunks. exact Hlt.
    + rewrite list_lookup_fmap, Hi. reflexivity.
  - cbn [fst snd]. unfold gather_row. apply mapM_None_2, Exists_cons_hd.
    destruct (decide (0 <= l)%Z); [|reflexivity].
    apply lookup_ge_None_2. rewrite length_take. lia.
Qed.

(** X12: in class-aware mode every label has to name a class: a label
    outside [0, num_classes), such as the background label [num_classes]
    that [get_targets] gives to negatives, ends the call with
    [RuntimeError] in the first gather. *)
Theorem regress_by_class_rejects_background_label (E : Imports) (self : VRBBoxHead)
    (rois : Tensor Qc) (label : Tensor Z)
    (bbox_pred bin_cls_pred bin_offset_pred ratio_pred : Tensor Qc)
    (img_meta : gmap string (list nat)) (n c : nat) (l : Z) :
  reg_class_agnostic self = false ->
  shape rois = [n; c] ->
  c = 4 \/ c = 5 ->
  well_shaped label [n] ->
  shape ratio_pred = [n; num_classes self] ->
  l ∈ data label ->
  ~ (0 <= l < Z.of_nat (num_classes self))%Z ->
  regress_by_class E self rois label bbox_pred bin_cls_pred bin_offset_pred
    ratio_pred img_meta = Raise RuntimeError.
Proof.
  intros Hag Hr Hc [Hl Hlw] Hq Hin Hout. unfold regress_by_class.
  rewrite (size1_matrix _ _ _ Hr), Hag. cbn [rbind].
  assert (bool_decide (c = 4) || bool_decide (c = 5) = true) as ->.
  { destruct Hc as [-> | ->]; reflexivity. }
  cbn [assert rbind].
  unfold gather_by_class, unsqueeze1. rewrite Hl. cbn [rbind].
  rewrite (gather1_out_of_range ratio_pred n (num_classes self) (data label) l);
    auto.
  apply (wf_length_vector _ _ Hl Hlw).
Qed.

Lemma regress_by_class_rejects_background_label_witness :
  regress_by_class demo_imports (demo_head 2 1 false)
    (qt [2; 4] [0; 0; 10; 10; 0; 0; 20; 20]%Z) (mkTensor [2] [0; 2]%Z)
    (qt [2; 8] (Z.of_nat <$> seq 0 16)) (qt [2; 8] (Z.of_nat <$> seq 0 16))
    (qt [2; 8] (Z.of_nat <$> seq 0 16)) (tenths [2; 2] [9; 9; 9; 9]%Z) demo_meta
  = Raise RuntimeError.
Proof.
  apply (regress_by_class_rejects_background_label demo_imports (demo_head 2 1 false)
           (qt [2; 4] [0; 0; 10; 10; 0; 0; 20; 20]%Z) (mkTensor [2] [0; 2]%Z)
           _ _ _ (tenths [2; 2] [9; 9; 9; 9]%Z) demo_meta 2 4 2%Z);
    try reflexivity.
  - left. reflexivity.
  - split; reflexivity.
  - right. left.
  - simpl. lia.
Defined.

Lemma regress_by_class_partial_selection_witness :
  regress_by_class demo_imports (demo_head 2 1 true)
    (qt [3; 4] [0; 0; 10; 10; 0; 0; 20; 20; 0; 0; 30; 30]%Z) (mkTensor [3] [0; 0; 0]%Z)
    (qt [3; 4] (Z.of_nat <$> seq 0 12)) (qt [3; 4] (replicate 12 0%Z))
    (qt [3; 4] (replicate 12 0%Z)) (tenths [3; 1] [9; 9; 1]%Z) demo_meta
  = Raise RuntimeError.
Proof.
  apply (regress_by_class_partial_selection demo_imports (demo_head 2 1 true)
           (qt [3; 4] [0; 0; 10; 10; 0; 0; 20; 20; 0; 0; 30; 30]%Z)
           (mkTensor [3] [0; 0; 0]%Z)
           (qt [3; 4] (Z.of_nat <$> seq 0 12)) (qt [3; 4] (replicate 12 0%Z))
           (qt [3; 4] (replicate 12 0%Z)) (tenths [3; 1] [9; 9; 1]%Z) demo_meta
           [100; 100; 3] 3);
    try reflexivity.
  - vm_compute. lia.
  - lia.
Defined.

Lemma class_gather_loses_rows_witness :
  shape (qt [1; 8] [0; 1; 2; 3; 12; 13; 14; 15]%Z)
  <> shape (qt [2; 8] [0; 1; 2; 3; 4; 5; 6; 7; 24; 25; 26; 27; 28; 29; 30; 31]%Z).
Proof.
  apply (class_gather_loses_rows (demo_head 2 2 false) (mkTensor [2] [0; 1]%Z)
           (qt [2; 8] (Z.of_nat <$> seq 0 16)) (qt [2; 16] (Z.of_nat <$> seq 0 32))
           (qt [2; 8] (Z.of_nat <$> seq 0 16)) (qt [2; 2] [1; 2; 3; 4]%Z)
           (qt [2; 4] [0; 1; 2; 3; 12; 13; 14; 15]%Z)
           (qt [1; 8] [0; 1; 2; 3; 12; 13; 14; 15]%Z)
           (qt [2; 4] [0; 1; 2; 3; 12; 13; 14; 15]%Z)
           (qt [2; 1] [1; 4]%Z)
           (qt [2; 8] [0; 1; 2; 3; 4; 5; 6; 7; 24; 25; 26; 27; 28; 29; 30; 31]%Z) 2);
    try reflexivity; simpl; lia.
Defined.

(** ** [get_bboxes]: selection, rescaling and averaged scores *)

Lemma view_known {A} (t : Tensor A) (s : list nat) :
  numel_of s = numel t -> view t (Some <$> s) = Ok (mkTensor s (data t)).
Proof.
  intros Hn. unfold view.
  assert (length (filter (fun d : option nat => d = None) (Some <$> s)) = 0) as ->.
  { clear Hn. induction s as [|x s IH]; [reflexivity|].
    rewrite fmap_cons, filter_cons_False by discriminate. exact IH. }
  assert (known_dims (Some <$> s) = numel_of s) as ->.
  { clear Hn. unfold known_dims, numel_of.
    induction s as [|x s IH]; [reflexivity|]. cbn. rewrite IH. reflexivity. }
  rewrite decide_True by reflexivity. rewrite decide_True by exact Hn.
  rewrite <- list_fmap_compose.
  assert (default 0 ∘ Some <$> s = s) as ->; [|reflexivity].
  clear Hn. induction s as [|x s IH]; [reflexivity|]. cbn. f_equal. exact IH.
Qed.

Lemma view_rows {A} (t : Tensor A) (n m : nat) :
  0 < n -> numel t = n * m -> view t [Some n; None] = Ok (mkTensor [n; m] (data t)).
Proof.
  intros Hn Hm. unfold view.
  assert (length (filter (fun d : option nat => d = None) [Some n; None]) = 1)
    as -> by reflexivity.
  rewrite decide_False by lia. rewrite decide_True by reflexivity.
  assert (known_dims [Some n; None] = n) as ->
    by (unfold known_dims; cbn; lia).
  rewrite decide_False by lia.
  rewrite Hm, Nat.mul_comm, Nat.Div0.mod_mul, Nat.div_mul by lia.
  rewrite decide_True by reflexivity. reflexivity.
Qed.

Lemma length_choose_geometry {A} (w : nat) (f : list A -> list A) (mask : list bool)
    (polys boxes : list A) :
  (forall r, length (f r) = 8) ->
  length mask * 8 <= length polys ->
  length (choose_geometry w 8 f mask polys boxes) = length mask * 8.
Proof.
  intros Hf. revert polys boxes.
  induction mask as [|b mask IH]; intros polys boxes Hp; [reflexivity|].
  cbn [choose_geometry length]. rewrite length_app, IH
    by (rewrite length_drop; cbn [length] in Hp; lia).
  destruct b; [rewrite Hf | rewrite length_take; cbn [length] in Hp]; lia.
Qed.

(** [get_bboxes] once the selection is made: what is left is the
    rescaling, the flattening and the suppression. *)
Lemma get_bboxes_after_selection (E : Imports) (self : VRBBoxHead)
    (f : list Qc -> list Qc) (rois boxes_in t : Tensor Qc)
    (bbox_pred bin_cls_pred bin_offset_pred ratio_pred : Tensor Qc)
    (img_shape : list nat) (scale_factor : ScaleFactor) (rescale : bool)
    (cfg : option TestCfg) (n k : nat) :
  cols_from1 rois = Ok boxes_in ->
  decoders_ok E self f boxes_in bbox_pred bin_cls_pred bin_offset_pred ratio_pred
    img_shape n k ->
  get_bboxes E self rois (OneScore t) bbox_pred bin_cls_pred bin_offset_pred
    ratio_pred img_shape scale_factor rescale cfg
  = do polys <-
      (if rescale then
         zip_inplace Qcdiv
           (mkTensor [n; k; 8]
              (selected_polys E self f boxes_in bbox_pred bin_cls_pred bin_offset_pred
                 ratio_pred img_shape))
           (mkTensor [2 * length (factors_of scale_factor)]
              (factors_of scale_factor ++ factors_of scale_factor))
       else Ok (mkTensor [n; k; 8]
                  (selected_polys E self f boxes_in bbox_pred bin_cls_pred
                     bin_offset_pred ratio_pred img_shape)));
    do n <- size polys 0;
    do polys <- view polys [Some n; None];
    match cfg with
    | None => Ok (Raw polys (softmax1 E t))
    | Some c =>
        let '(det_bboxes, det_labels) :=
          multiclass_arb_nms E polys (softmax1 E t) (score_thr c) (nms c)
            (max_per_img c) "poly" in
        Ok (Final det_bboxes det_labels)
    end.
Proof.
  intros Hin (Hf & Hh & [Hq Hqw] & Hbn & Hbw & Hpn & Hpw).
  unfold get_bboxes. cbn [rbind]. rewrite Hin. cbn [rbind].
  rewrite Hq.
  change ((Some <$> [n; k]) ++ [Some 4]) with (Some <$> [n; k; 4]).
  change ((Some <$> [n; k]) ++ [Some 8]) with (Some <$> [n; k; 8]).
  rewrite !view_known by (unfold numel_of; cbn [foldr]; lia).
  cbn [rbind].
  match goal with
  | |- context [mask_select ?b ?m] =>
      match goal with
      | |- context [mask_assign ?p m _] =>
          pose proof (get_bboxes_selection E f b p m Hf Hh) as Hsel
      end
  end.
  assert (length (data (gt_scalar ratio_pred (ratio_thr self))) = n * k) as Hlm.
  { unfold gt_scalar, tmap. cbn [data]. rewrite length_fmap.
    unfold wf, numel in Hqw. rewrite Hqw, Hq. unfold numel_of. cbn [foldr]. lia. }
  cbn [shape data] in Hsel.
  change (shape (gt_scalar ratio_pred (ratio_thr self))) with (shape ratio_pred) in Hsel.
  rewrite Hq in Hsel.
  specialize (Hsel eq_refl eq_refl).
  rewrite Hlm in Hsel.
  specialize (Hsel ltac:(unfold wf in Hbw; lia)).
  apply rbind_Ok in Hsel as (rect & Hrect & Hassign).
  rewrite Hrect. cbn [rbind]. rewrite Hassign. cbn [rbind].
  destruct scale_factor; reflexivity.
Qed.

(** X13: without rescaling and without a test configuration, [get_bboxes]
    returns the softmax of the scores and one polygon per ratio entry: the
    polygon of the decoded horizontal box where the ratio exceeds
    [ratio_thr], the bin-decoded polygon elsewhere, flattened to one row
    per RoI. *)
Theorem get_bboxes_selects_by_ratio (E : Imports) (self : VRBBoxHead)
    (f : list Qc -> list Qc) (rois boxes_in t : Tensor Qc)
    (bbox_pred bin_cls_pred bin_offset_pred ratio_pred : Tensor Qc)
    (img_shape : list nat) (scale_factor : ScaleFactor) (n k : nat) :
  0 < n ->
  cols_from1 rois = Ok boxes_in ->
  decoders_ok E self f boxes_in bbox_pred bin_cls_pred bin_offset_pred ratio_pred
    img_shape n k ->
  get_bboxes E self rois (OneScore t) bbox_pred bin_cls_pred bin_offset_pred
    ratio_pred img_shape scale_factor false None
  = Ok (Raw (mkTensor [n; k * 8]
               (selected_polys E self f boxes_in bbox_pred bin_cls_pred bin_offset_pred
                  ratio_pred img_shape))
            (softmax1 E t)).
Proof.
  intros Hn Hin Hok.
  rewrite (get_bboxes_after_selection E self f rois boxes_in t _ _ _ _ _ _ _ _ n k
             Hin Hok).
  cbn [rbind size shape lookup list_lookup of_option].
  rewrite (view_rows _ n (k * 8)).
  - reflexivity.
  - exact Hn.
  - unfold numel, numel_of. cbn [shape foldr]. lia.
Qed.

Lemma get_bboxes_selects_by_ratio_witness :
  get_bboxes demo_imports (demo_head 2 1 true)
    (qt [2; 5] [0; 0; 0; 10; 10; 0; 0; 0; 20; 20]%Z)
    (OneScore (qt [2; 3] [1; 2; 3; 4; 5; 6]%Z))
    (qt [2; 4] [1; 2; 3; 4; 5; 6; 7; 8]%Z) (qt [2; 4] (replicate 8 0%Z))
    (qt [2; 4] (replicate 8 0%Z)) (tenths [2; 1] [1; 9]%Z) [100; 100; 3]
    (ScaleFloat 1%Qc) false None
  = Ok (Raw (qt [2; 8] [1; 2; 3; 4; 1; 2; 3; 4; 5; 6; 7; 6; 7; 8; 5; 8]%Z)
            (qt [2; 3] [1; 2; 3; 4; 5; 6]%Z)).
Proof.
  apply (get_bboxes_selects_by_ratio demo_imports (demo_head 2 1 true) corners
           (qt [2; 5] [0; 0; 0; 10; 10; 0; 0; 0; 20; 20]%Z)
           (qt [2; 4] [0; 0; 10; 10; 0; 0; 20; 20]%Z)
           (qt [2; 3] [1; 2; 3; 4; 5; 6]%Z)
           (qt [2; 4] [1; 2; 3; 4; 5; 6; 7; 8]%Z) (qt [2; 4] (replicate 8 0%Z))
           (qt [2; 4] (replicate 8 0%Z)) (tenths [2; 1] [1; 9]%Z) [100; 100; 3]
           (ScaleFloat 1%Qc) 2 1).
  - lia.
  - reflexivity.
  - repeat split; try reflexivity.
    intros r. destruct r as [|a [|b [|c [|d [|e r]]]]]; reflexivity.
Defined.

Lemma concat_replicate_mul {A} (x n : nat) (d : list A) :
  concat (replicate x (concat (replicate n d))) = concat (replicate (x * n) d).
Proof.
  induction x as [|x IH]; [reflexivity|].
  cbn [replicate concat Nat.mul]. rewrite IH, replicate_add, concat_app. reflexivity.
Qed.

Lemma numel_of_lead (j : nat) (v : list nat) :
  numel_of (replicate j 1 ++ v) = numel_of v.
Proof.
  induction j as [|j IH]; [reflexivity|].
  cbn [replicate app]. rewrite numel_of_cons, IH. lia.
Qed.

(** Broadcasting along leading dimensions repeats the storage. *)
Lemma expand_aligned_lead {A} (s v : list nat) (d : list A) :
  length d = numel_of v ->
  expand_aligned (replicate (length s) 1 ++ v) (s ++ v) d
  = Some (concat (replicate (numel_of s) d)).
Proof.
  intros Hd. induction s as [|x s IH].
  - cbn [length replicate app]. rewrite expand_aligned_same by exact Hd.
    cbn. rewrite app_nil_r. reflexivity.
  - cbn [length replicate app expand_aligned].
    destruct (decide (1 = x)) as [<-|Hx].
    + cbn [chunks]. rewrite numel_of_lead, take_ge by lia.
      cbn [mapM]. rewrite IH. cbn. rewrite app_nil_r, Nat.add_0_r. reflexivity.
    + rewrite decide_True by reflexivity. rewrite IH. cbn [fmap option_fmap option_map].
      rewrite concat_replicate_mul, numel_of_cons. reflexivity.
Qed.

Lemma expand_aligned_lead_mismatch {A} (s : list nat) (m c : nat) (d : list A) :
  m <> c -> m <> 1 ->
  expand_aligned (replicate (length s) 1 ++ [m]) (s ++ [c]) d = None.
Proof.
  intros Hm H1. revert d. induction s as [|x s IH]; intros d.
  - cbn [length replicate app expand_aligned].
    rewrite decide_False by exact Hm. rewrite decide_False by exact H1. reflexivity.
  - cbn [length replicate app expand_aligned].
    destruct (decide (1 = x)) as [<-|Hx].
    + cbn [chunks mapM]. rewrite IH. reflexivity.
    + rewrite decide_True by reflexivity. rewrite IH. reflexivity.
Qed.

Lemma zip_with_const_r {A B C} (g : A -> B -> C) (l : list A) (m : nat) (q : B) :
  length l <= m -> zip_with g l (replicate m q) = (fun v => g v q) <$> l.
Proof.
  revert m. induction l as [|a l IH]; intros m Hm; [reflexivity|].
  destruct m as [|m]; [cbn in Hm; lia|].
  cbn [replicate zip_with fmap list_fmap]. f_equal. apply IH. cbn in Hm. lia.
Qed.

Lemma concat_replicate_replicate {A} (n m : nat) (q : A) :
  concat (replicate n (replicate m q)) = replicate (n * m) q.
Proof.
  induction n as [|n IH]; [reflexivity|].
  cbn [replicate concat Nat.mul]. rewrite IH, replicate_add. reflexivity.
Qed.

Lemma length_selected_polys (E : Imports) (self : VRBBoxHead)
    (f : list Qc -> list Qc) (boxes_in bbox_pred bin_cls_pred bin_offset_pred
    ratio_pred : Tensor Qc) (img_shape : list nat) (n k : nat) :
  decoders_ok E self f boxes_in bbox_pred bin_cls_pred bin_offset_pred ratio_pred
    img_shape n k ->
  length (selected_polys E self f boxes_in bbox_pred bin_cls_pred bin_offset_pred
            ratio_pred img_shape) = n * k * 8.
Proof.
  intros (Hf & Hh & [Hq Hqw] & Hbn & Hbw & Hpn & Hpw).
  assert (length (data (gt_scalar ratio_pred (ratio_thr self))) = n * k) as Hlm.
  { unfold gt_scalar, tmap. cbn [data]. rewrite length_fmap.
    unfold wf, numel in Hqw. rewrite Hqw, Hq. unfold numel_of. cbn [foldr]. lia. }
  unfold selected_polys. rewrite length_choose_geometry; [lia | exact Hf |].
  unfold wf in Hpw. lia.
Qed.

(** X14: with [rescale] the eight coordinates of every polygon are divided
    by the four scale factors, taken twice in order; a float stands for
    four equal factors, so that every coordinate of the result without
    rescaling is divided by it. *)
Theorem get_bboxes_rescales_coordinates (E : Imports) (self : VRBBoxHead)
    (f : list Qc -> list Qc) (rois boxes_in t : Tensor Qc)
    (bbox_pred bin_cls_pred bin_offset_pred ratio_pred : Tensor Qc)
    (img_shape : list nat) (scale_factor : ScaleFactor) (n k : nat) :
  0 < n ->
  cols_from1 rois = Ok boxes_in ->
  decoders_ok E self f boxes_in bbox_pred bin_cls_pred bin_offset_pred ratio_pred
    img_shape n k ->
  length (factors_of scale_factor) = 4 ->
  Forall (fun q => q <> 0%Qc) (factors_of scale_factor) ->
  exists polys scores,
    get_bboxes E self rois (OneScore t) bbox_pred bin_cls_pred bin_offset_pred
      ratio_pred img_shape scale_factor false None = Ok (Raw polys scores)
    /\ get_bboxes E self rois (OneScore t) bbox_pred bin_cls_pred bin_offset_pred
         ratio_pred img_shape scale_factor true None
       = Ok (Raw (mkTensor (shape polys)
                    (zip_with Qcdiv (data polys)
                       (concat (replicate (n * k)
                                  (factors_of scale_factor ++ factors_of scale_factor)))))
                 scores)
    /\ forall q, scale_factor = ScaleFloat q ->
         get_bboxes E self rois (OneScore t) bbox_pred bin_cls_pred bin_offset_pred
           ratio_pred img_shape scale_factor true None
         = Ok (Raw (tmap (fun v => (v / q)%Qc) polys) scores).
Proof.
  intros Hn Hin Hok Hlen Hnz.
  pose proof (length_selected_polys _ _ _ _ _ _ _ _ _ _ _ Hok) as Hlp.
  rewrite !(get_bboxes_after_selection E self f rois boxes_in t _ _ _ _ _ _ _ _ n k
              Hin Hok).
  set (G := selected_polys E self f boxes_in bbox_pred bin_cls_pred bin_offset_pred
              ratio_pred img_shape) in *.
  assert (zip_inplace Qcdiv (mkTensor [n; k; 8] G)
            (mkTensor [2 * length (factors_of scale_factor)]
               (factors_of scale_factor ++ factors_of scale_factor))
          = Ok (mkTensor [n; k; 8]
                  (zip_with Qcdiv G
                     (concat (replicate (n * k)
                        (factors_of scale_factor ++ factors_of scale_factor))))))
    as Hzip.
  { unfold zip_inplace, expand_strict. cbn [shape data length].
    rewrite decide_True by lia. rewrite Hlen.
    change (replicate (3 - 1) 1 ++ [2 * 4])
      with (replicate (length [n; k]) 1 ++ [8]).
    change [n; k; 8] with ([n; k] ++ [8]) at 1.
    rewrite expand_aligned_lead
      by (rewrite length_app, Hlen; reflexivity).
    cbn [of_option rbind app]. do 5 f_equal.
    unfold numel_of. cbn [foldr]. lia. }
  exists (mkTensor [n; k * 8] G), (softmax1 E t).
  assert (numel (mkTensor [n; k; 8] G) = n * (k * 8)) as Hnum
    by (unfold numel, numel_of; cbn [shape foldr]; lia).
  split; [|split].
  - cbn [rbind size shape lookup list_lookup of_option].
    rewrite (view_rows _ n (k * 8)) by assumption. reflexivity.
  - rewrite Hzip. cbn [rbind size shape lookup list_lookup of_option].
    rewrite (view_rows _ n (k * 8)) by assumption. reflexivity.
  - intros q ->. rewrite Hzip. cbn [rbind size shape lookup list_lookup of_option].
    rewrite (view_rows _ n (k * 8)) by assumption. cbn [rbind data].
    unfold tmap. cbn [shape data factors_of].
    change (replicate 4 q ++ replicate 4 q) with (replicate 8 q).
    rewrite concat_replicate_replicate, zip_with_const_r by lia. reflexivity.
Qed.

Lemma get_bboxes_rescales_coordinates_witness :
  exists polys scores,
    get_bboxes demo_imports (demo_head 2 1 true)
      (qt [2; 5] [0; 0; 0; 10; 10; 0; 0; 0; 20; 20]%Z)
      (OneScore (qt [2; 3] [1; 2; 3; 4; 5; 6]%Z))
      (qt [2; 4] [2; 4; 6; 8; 10; 12; 14; 16]%Z) (qt [2; 4] (replicate 8 0%Z))
      (qt [2; 4] (replicate 8 0%Z)) (tenths [2; 1] [1; 9]%Z) [100; 100; 3]
      (ScaleFloat (Q2Qc 2)) false None = Ok (Raw polys scores)
    /\ get_bboxes demo_imports (demo_head 2 1 true)
         (qt [2; 5] [0; 0; 0; 10; 10; 0; 0; 0; 20; 20]%Z)
         (OneScore (qt [2; 3] [1; 2; 3; 4; 5; 6]%Z))
         (qt [2; 4] [2; 4; 6; 8; 10; 12; 14; 16]%Z) (qt [2; 4] (replicate 8 0%Z))
         (qt [2; 4] (replicate 8 0%Z)) (tenths [2; 1] [1; 9]%Z) [100; 100; 3]
         (ScaleFloat (Q2Qc 2)) true None
       = Ok (Raw (mkTensor (shape polys)
                    (zip_with Qcdiv (data polys)
                       (concat (replicate (2 * 1) (replicate 8 (Q2Qc 2))))))
                 scores)
    /\ forall q, ScaleFloat (Q2Qc 2) = ScaleFloat q ->
         get_bboxes demo_imports (demo_head 2 1 true)
           (qt [2; 5] [0; 0; 0; 10; 10; 0; 0; 0; 20; 20]%Z)
           (OneScore (qt [2; 3] [1; 2; 3; 4; 5; 6]%Z))
           (qt [2; 4] [2; 4; 6; 8; 10; 12; 14; 16]%Z) (qt [2; 4] (replicate 8 0%Z))
           (qt [2; 4] (replicate 8 0%Z)) (tenths [2; 1] [1; 9]%Z) [100; 100; 3]
           (ScaleFloat (Q2Qc 2)) true None
         = Ok (Raw (tmap (fun v => (v / q)%Qc) polys) scores).
Proof.
  apply (get_bboxes_rescales_coordinates demo_imports (demo_head 2 1 true) corners
           (qt [2; 5] [0; 0; 0; 10; 10; 0; 0; 0; 20; 20]%Z)
           (qt [2; 4] [0; 0; 10; 10; 0; 0; 20; 20]%Z)
           (qt [2; 3] [1; 2; 3; 4; 5; 6]%Z)
           (qt [2; 4] [2; 4; 6; 8; 10; 12; 14; 16]%Z) (qt [2; 4] (replicate 8 0%Z))
           (qt [2; 4] (replicate 8 0%Z)) (tenths [2; 1] [1; 9]%Z) [100; 100; 3]
           (ScaleFloat (Q2Qc 2)) 2 1).
  - lia.
  - reflexivity.
  - repeat split; try reflexivity.
    intros r. destruct r as [|a [|b [|c [|d [|e r]]]]]; reflexivity.
  - reflexivity.
  - repeat constructor; discriminate.
Defined.

(** X15: a sequence of scale factors has to hold four of them: with
    [rescale], any other length ends the call with [RuntimeError], because
    the repeated sequence cannot be broadcast against the eight
    coordinates. *)
Theorem get_bboxes_rejects_scale_length (E : Imports) (self : VRBBoxHead)
    (f : list Qc -> list Qc) (rois boxes_in t : Tensor Qc)
    (bbox_pred bin_cls_pred bin_offset_pred ratio_pred : Tensor Qc)
    (img_shape : list nat) (l : list Qc) (cfg : option TestCfg) (n k : nat) :
  cols_from1 rois = Ok boxes_in ->
  decoders_ok E self f boxes_in bbox_pred bin_cls_pred bin_offset_pred ratio_pred
    img_shape n k ->
  length l <> 4 ->
  get_bboxes E self rois (OneScore t) bbox_pred bin_cls_pred bin_offset_pred
    ratio_pred img_shape (ScaleSeq l) true cfg
  = Raise RuntimeError.
Proof.
  intros Hin Hok Hlen.
  rewrite (get_bboxes_after_selection E self f rois boxes_in t _ _ _ _ _ _ _ _ n k
             Hin Hok).
  unfold zip_inplace, expand_strict. cbn [shape data length factors_of].
  rewrite decide_True by lia.
  change (replicate (3 - 1) 1 ++ [2 * length l])
    with (replicate (length [n; k]) 1 ++ [2 * length l]).
  change [n; k; 8] with ([n; k] ++ [8]) at 1.
  rewrite expand_aligned_lead_mismatch by lia. reflexivity.
Qed.

Lemma get_bboxes_rejects_scale_length_witness :
  get_bboxes demo_imports (demo_head 2 1 true)
    (qt [2; 5] [0; 0; 0; 10; 10; 0; 0; 0; 20; 20]%Z)
    (OneScore (qt [2; 3] [1; 2; 3; 4; 5; 6]%Z))
    (qt [2; 4] [2; 4; 6; 8; 10; 12; 14; 16]%Z) (qt [2; 4] (replicate 8 0%Z))
    (qt [2; 4] (replicate 8 0%Z)) (tenths [2; 1] [1; 9]%Z) [100; 100; 3]
    (ScaleSeq [Q2Qc 2; Q2Qc 2]) true None
  = Raise RuntimeError.
Proof.
  apply (get_bboxes_rejects_scale_length demo_imports (demo_head 2 1 true) corners
           (qt [2; 5] [0; 0; 0; 10; 10; 0; 0; 0; 20; 20]%Z)
           (qt [2; 4] [0; 0; 10; 10; 0; 0; 20; 20]%Z)
           (qt [2; 3] [1; 2; 3; 4; 5; 6]%Z)
           (qt [2; 4] [2; 4; 6; 8; 10; 12; 14; 16]%Z) (qt [2; 4] (replicate 8 0%Z))
           (qt [2; 4] (replicate 8 0%Z)) (tenths [2; 1] [1; 9]%Z) [100; 100; 3]
           [Q2Qc 2; Q2Qc 2] None 2 1).
  - reflexivity.
  - repeat split; try reflexivity.
    intros r. destruct r as [|a [|b [|c [|d [|e r]]]]]; reflexivity.
  - simpl. lia.
Defined.

Lemma common_shape_rev_same (s : list nat) : common_shape_rev s s = Some s.
Proof.
  induction s as [|x s IH]; [reflexivity|].
  cbn [common_shape_rev]. rewrite decide_True by reflexivity. rewrite IH. reflexivity.
Qed.

Lemma tadd_same_shape (a b : Tensor Qc) (s : list nat) :
  well_shaped a s -> well_shaped b s ->
  tadd a b = Ok (mkTensor s (zip_with Qcplus (data a) (data b))).
Proof.
  intros [Ha Haw] [Hb Hbw]. unfold tadd.
  rewrite Ha, Hb, common_shape_rev_same. cbn [fmap option_fmap option_map of_option rbind].
  rewrite reverse_involutive.
  rewrite <- Ha at 1. rewrite expand_strict_same by exact Haw. cbn [rbind].
  rewrite <- Hb at 1. rewrite expand_strict_same by exact Hbw. cbn [rbind].
  reflexivity.
Qed.

Lemma sum_scores (a : Tensor Qc) (l : list (Tensor Qc)) (s : list nat) :
  well_shaped a s ->
  Forall (fun u => well_shaped u s) l ->
  foldl (fun acc u => do x <- acc; tadd x u) (Ok a) l
  = Ok (mkTensor s (foldl (zip_with Qcplus) (data a) (data <$> l))).
Proof.
  intros Ha Hl. revert a Ha.
  induction Hl as [|u l Hu _ IH]; intros a Ha.
  - cbn [foldl fmap list_fmap]. destruct Ha as [<- _]. rewrite tensor_eta. reflexivity.
  - cbn [foldl fmap list_fmap rbind].
    rewrite (tadd_same_shape a u s Ha Hu).
    rewrite IH; [reflexivity|].
    split; [reflexivity|].
    destruct Ha as [Ha Haw], Hu as [Hu Huw].
    unfold wf, numel in *. cbn [shape data].
    rewrite length_zip_with, Haw, Huw, Ha, Hu. lia.
Qed.

(** X16: a list of score tensors is averaged entry by entry: for score
    tensors of one shape, [get_bboxes] on the list is [get_bboxes] on the
    tensor of their sums divided by their number. *)
Theorem get_bboxes_averages_scores (E : Imports) (self : VRBBoxHead)
    (rois t : Tensor Qc) (l : list (Tensor Qc)) (s : list nat)
    (bbox_pred bin_cls_pred bin_offset_pred ratio_pred : Tensor Qc)
    (img_shape : list nat) (scale_factor : ScaleFactor) (rescale : bool)
    (cfg : option TestCfg) :
  Forall (fun u => well_shaped u s) (t :: l) ->
  get_bboxes E self rois (ScoreList (t :: l)) bbox_pred bin_cls_pred bin_offset_pred
    ratio_pred img_shape scale_factor rescale cfg
  = get_bboxes E self rois
      (OneScore (mkTensor s ((fun v => (v / Qc_of_nat (S (length l)))%Qc)
                               <$> foldl (zip_with Qcplus) (data t) (data <$> l))))
      bbox_pred bin_cls_pred bin_offset_pred ratio_pred img_shape scale_factor
      rescale cfg.
Proof.
  intros H. apply Forall_cons in H as [Ht Hl].
  unfold get_bboxes, mean_scores.
  rewrite (sum_scores t l s Ht Hl). reflexivity.
Qed.

Lemma get_bboxes_averages_scores_witness :
  get_bboxes demo_imports (demo_head 2 1 true)
    (qt [2; 5] [0; 0; 0; 10; 10; 0; 0; 0; 20; 20]%Z)
    (ScoreList [qt [2; 3] [1; 2; 3; 4; 5; 6]%Z; qt [2; 3] [3; 4; 5; 6; 7; 8]%Z])
    (qt [2; 4] [2; 4; 6; 8; 10; 12; 14; 16]%Z) (qt [2; 4] (replicate 8 0%Z))
    (qt [2; 4] (replicate 8 0%Z)) (tenths [2; 1] [1; 9]%Z) [100; 100; 3]
    (ScaleFloat 1%Qc) false None
  = get_bboxes demo_imports (demo_head 2 1 true)
      (qt [2; 5] [0; 0; 0; 10; 10; 0; 0; 0; 20; 20]%Z)
      (OneScore (mkTensor [2; 3]
                   ((fun v => (v / Qc_of_nat 2)%Qc)
                      <$> foldl (zip_with Qcplus) (data (qt [2; 3] [1; 2; 3; 4; 5; 6]%Z))
                            (data <$> [qt [2; 3] [3; 4; 5; 6; 7; 8]%Z]))))
      (qt [2; 4] [2; 4; 6; 8; 10; 12; 14; 16]%Z) (qt [2; 4] (replicate 8 0%Z))
      (qt [2; 4] (replicate 8 0%Z)) (tenths [2; 1] [1; 9]%Z) [100; 100; 3]
      (ScaleFloat 1%Qc) false None.
Proof.
  apply (get_bboxes_averages_scores demo_imports (demo_head 2 1 true)
           (qt [2; 5] [0; 0; 0; 10; 10; 0; 0; 0; 20; 20]%Z)
           (qt [2; 3] [1; 2; 3; 4; 5; 6]%Z) [qt [2; 3] [3; 4; 5; 6; 7; 8]%Z] [2; 3]).
  repeat constructor.
Defined.

(** ** Construction, initialisation and [forward] *)










(** X19: a feature map whose flattened size per RoI differs from
    [in_channels * roi_feat_area] is rejected with [RuntimeError] by the
    first linear layer, the one of [affine_trans], whatever the head. *)
Theorem forward_rejects_feature_size (E : Imports) (self : VRBBoxHead)
    (draw : nat -> Qc) (x : Tensor Qc) (n c : nat) (rest : list nat) :
  shape x = n :: c :: rest ->
  numel_of (c :: rest) <> in_channels self * roi_feat_area self ->
  forward E self draw x = Raise RuntimeError.
Proof.
  intros Hs Hd. unfold forward, warp, flatten1. rewrite Hs. cbn [rbind].
  unfold affine_trans, new_linear, tmap. cbn [weight bias shape data].
  change (expand_strict (mkTensor [6] [1; 0; 0; 0; 1; 0]%Qc) [6])
    with (Ok identity_row).
  cbn [rbind]. unfold linear. cbn [weight bias shape data].
  change (reverse [n; numel_of (c :: rest)]) with [numel_of (c :: rest); n].
  lazy beta iota. rewrite decide_False by exact Hd. reflexivity.
Qed.

Lemma forward_rejects_feature_size_witness :
  forward demo_imports (demo_head 2 2 false) (fun _ => Q2Qc 7)
    (qt [1; 3; 1; 1] [3; 4; 5]%Z)
  = Raise RuntimeError.
Proof.
  apply (forward_rejects_feature_size demo_imports (demo_head 2 2 false)
           (fun _ => Q2Qc 7) (qt [1; 3; 1; 1] [3; 4; 5]%Z) 1 3 [1; 1]).
  - reflexivity.
  - vm_compute. lia.
Defined.

(** ** [refine_bboxes] *)

Lemma length_unique_sorted (l : list Z) :
  length (unique_sorted l) = length (remove_dups l).
Proof. unfold unique_sorted. apply Permutation_length, merge_sort_Permutation. Qed.

Lemma distinct_ids_bound (l xs : list Z) :
  NoDup l -> l ⊆ xs -> length l <= length (unique_sorted xs).
Proof.
  intros Hnd Hsub. rewrite length_unique_sorted.
  apply submseteq_length, NoDup_submseteq; [exact Hnd|].
  intros z Hz. apply elem_of_remove_dups, Hsub, Hz.
Qed.

(** X20: the image ids in the first column of [rois], truncated to
    integers, may not be more numerous than the image metas: if they take
    more distinct values than there are metas, the call ends with
    [AssertionError]. *)
Theorem refine_bboxes_rejects_extra_images (E : Imports) (self : VRBBoxHead)
    (rois ids : Tensor Qc) (labels : Tensor Z)
    (bbox_preds bin_cls_preds bin_offset_preds ratio_preds : Tensor Qc)
    (pos_is_gts : list (list Z)) (img_metas : list (gmap string (list nat)))
    (n c : nat) (l : list Z) :
  shape rois = [n; c] ->
  select_col0 rois = Ok ids ->
  NoDup l ->
  l ⊆ Qc_to_long <$> data ids ->
  length img_metas < length l ->
  refine_bboxes E self rois labels bbox_preds bin_cls_preds bin_offset_preds
    ratio_preds pos_is_gts img_metas
  = Raise AssertionError.
Proof.
  intros Hs Hids Hnd Hsub Hlen. unfold refine_bboxes. rewrite Hs, Hids. cbn [rbind].
  pose proof (distinct_ids_bound _ _ Hnd Hsub) as Hb.
  rewrite bool_decide_eq_false_2 by lia. reflexivity.
Qed.

Lemma refine_bboxes_rejects_extra_images_witness :
  refine_bboxes demo_imports (demo_head 2 1 true)
    (qt [2; 5] [0; 0; 0; 10; 10; 1; 0; 0; 20; 20]%Z) (mkTensor [2] [0; 0]%Z)
    (qt [2; 4] [1; 2; 3; 4; 5; 6; 7; 8]%Z) (qt [2; 4] (replicate 8 0%Z))
    (qt [2; 4] (replicate 8 0%Z)) (tenths [2; 1] [9; 9]%Z) [[0%Z]] [demo_meta]
  = Raise AssertionError.
Proof.
  apply (refine_bboxes_rejects_extra_images demo_imports (demo_head 2 1 true)
           (qt [2; 5] [0; 0; 0; 10; 10; 1; 0; 0; 20; 20]%Z) (qt [2] [0; 1]%Z)
           (mkTensor [2] [0; 0]%Z)
           (qt [2; 4] [1; 2; 3; 4; 5; 6; 7; 8]%Z) (qt [2; 4] (replicate 8 0%Z))
           (qt [2; 4] (replicate 8 0%Z)) (tenths [2; 1] [9; 9]%Z) [[0%Z]] [demo_meta]
           2 5 [0; 1]%Z).
  - reflexivity.
  - reflexivity.
  - apply NoDup_cons. split; [|apply NoDup_singleton].
    intros H. apply list_elem_of_singleton in H. discriminate.
  - vm_compute. intros z Hz. exact Hz.
  - simpl. lia.
Defined.

(** X21: a call that returns hands back one tensor per image meta, in the
    order of the metas, however many image ids occur in [rois]. *)
Theorem refine_bboxes_one_result_per_meta (E : Imports) (self : VRBBoxHead)
    (rois : Tensor Qc) (labels : Tensor Z)
    (bbox_preds bin_cls_preds bin_offset_preds ratio_preds : Tensor Qc)
    (pos_is_gts : list (list Z)) (img_metas : list (gmap string (list nat)))
    (out : list (Tensor Qc)) :
  refine_bboxes E self rois labels bbox_preds bin_cls_preds bin_offset_preds
    ratio_preds pos_is_gts img_metas = Ok out ->
  length out = length img_metas.
Proof.
  unfold refine_bboxes. intros H.
  destruct (shape rois) as [|? [|? [|? ?]]]; try discriminate;
    apply rbind_Ok in H as (ids & _ & H);
    apply rbind_Ok in H as (u & _ & H);
    apply mapR_length in H; rewrite H, length_seq; reflexivity.
Qed.

Lemma refine_bboxes_one_result_per_meta_witness :
  length [qt [1; 8] [9; 10; 11; 10; 11; 12; 9; 12]%Z;
          qt [1; 8] [5; 6; 7; 6; 7; 8; 5; 8]%Z]
  = length [demo_meta; demo_meta].
Proof.
  apply (refine_bboxes_one_result_per_meta demo_imports (demo_head 2 1 true)
           (qt [3; 5] [0; 0; 0; 10; 10; 1; 0; 0; 20; 20; 0; 0; 0; 30; 30]%Z)
           (mkTensor [3] [0; 0; 0]%Z)
           (qt [3; 4] (Z.of_nat <$> seq 1 12)) (qt [3; 4] (replicate 12 0%Z))
           (qt [3; 4] (replicate 12 0%Z)) (tenths [3; 1] [9; 9; 9]%Z)
           [[1%Z]; []] [demo_meta; demo_meta]).
  vm_compute. reflexivity.
Defined.

Lemma keep_flag (x : Z) :
  (0 <= x < 256)%Z ->
  bool_decide ((1 - x) `mod` 256 <> 0)%Z = bool_decide (x <> 1%Z).
Proof.
  intros Hx. destruct (decide (x = 1%Z)) as [->|Hne].
  - reflexivity.
  - rewrite !bool_decide_eq_true_2; [reflexivity | exact Hne |].
    intros H0. apply Z.mod_divide in H0 as [k Hk]; lia.
Qed.

(** X22: at the end of the loop body the RoIs flagged as ground truth are
    removed: of the first [len(pos_is_gts_)] rows those with flag 1 are
    dropped, every other row is kept, in order (flags are unsigned 8-bit
    integers, and only the value 1 drops a row). *)
Theorem refine_bboxes_drops_flagged_rows (bboxes : Tensor Qc) (pos_is_gts_ : list Z)
    (num_rois : nat) (rest : list nat) :
  shape bboxes = num_rois :: rest ->
  length pos_is_gts_ <= num_rois ->
  Forall (fun x => (0 <= x < 256)%Z) pos_is_gts_ ->
  drop_gts bboxes pos_is_gts_ num_rois
  = Ok (rows_where bboxes
          (((fun x => bool_decide (x <> 1%Z)) <$> pos_is_gts_)
             ++ replicate (num_rois - length pos_is_gts_) true)).
Proof.
  intros Hs Hlen Hflags. unfold drop_gts.
  set (np := length pos_is_gts_).
  replace num_rois with (np + (num_rois - np)) at 1 by lia.
  rewrite setitem_prefix_full.
  2: cbn [length]; lia.
  2:{ split; [reflexivity|]. unfold wf, numel, numel_of. cbn [shape data foldr].
      rewrite length_fmap. fold np. lia. }
  cbn [rbind]. unfold mask_select, mask_fits, pos_then_neg, tmap.
  cbn [shape data length]. rewrite Hs. cbn [take drop].
  rewrite bool_decide_eq_true_2 by (f_equal; lia).
  unfold rows_where. rewrite Hs. cbn [tail].
  rewrite fmap_app, fmap_replicate, <- list_fmap_compose.
  change (numel_of []) with 1. rewrite Nat.mul_1_r.
  rewrite (bool_decide_eq_true_2 (1 <> 0)%Z) by lia.
  assert ((fun x : Z => bool_decide (x <> 0%Z)) ∘ (fun x : Z => ((1 - x) `mod` 256)%Z)
            <$> pos_is_gts_
          = (fun x : Z => bool_decide (x <> 1%Z)) <$> pos_is_gts_) as ->; [|reflexivity].
  apply Forall_fmap_ext. eapply Forall_impl; [exact Hflags|].
  intros x Hx. apply keep_flag. exact Hx.
Qed.

Lemma refine_bboxes_drops_flagged_rows_witness :
  drop_gts (qt [3; 2] [1; 2; 3; 4; 5; 6]%Z) [0; 1]%Z 3
  = Ok (rows_where (qt [3; 2] [1; 2; 3; 4; 5; 6]%Z)
          (((fun x => bool_decide (x <> 1%Z)) <$> [0; 1]%Z)
             ++ replicate (3 - length [0; 1]%Z) true)).
Proof.
  apply (refine_bboxes_drops_flagged_rows (qt [3; 2] [1; 2; 3; 4; 5; 6]%Z)
           [0; 1]%Z 3 [2]).
  - reflexivity.
  - simpl. lia.
  - repeat constructor; lia.
Defined.

(** X23: more flags than RoIs of the image cannot be stored: unless there
    is exactly one flag, the call of the loop body ends with
    [RuntimeError]. *)
Theorem refine_bboxes_rejects_extra_flags (bboxes : Tensor Qc) (pos_is_gts_ : list Z)
    (num_rois : nat) :
  num_rois < length pos_is_gts_ ->
  length pos_is_gts_ <> 1 ->
  drop_gts bboxes pos_is_gts_ num_rois = Raise RuntimeError.
Proof.
  intros Hlen H1. unfold drop_gts, setitem_prefix, full. cbn [shape data length].
  rewrite decide_True by lia.
  replace (length pos_is_gts_ `min` num_rois) with num_rois by lia.
  unfold expand_to. cbn [shape data].
  assert (strip_ones [length pos_is_gts_] = [length pos_is_gts_]) as ->.
  { destruct (length pos_is_gts_) as [|[|k]]; [reflexivity | lia | reflexivity]. }
  cbn [length]. rewrite decide_True by lia.
  cbn [Nat.sub replicate app expand_aligned].
  rewrite decide_False by lia. rewrite decide_False by exact H1. reflexivity.
Qed.

Lemma refine_bboxes_rejects_extra_flags_witness :
  drop_gts (qt [1; 2] [1; 2]%Z) [0; 1]%Z 1 = Raise RuntimeError.
Proof.
  apply (refine_bboxes_rejects_extra_flags (qt [1; 2] [1; 2]%Z) [0; 1]%Z 1);
    simpl; lia.
Defined.

Lemma rows_at_all {A} (t : Tensor A) (n : nat) (rest : list nat) :
  well_shaped t (n :: rest) -> rows_at t (seq 0 n) = Ok t.
Proof.
  intros [Hs Hw]. unfold rows_at. rewrite Hs.
  assert (length (data t) = n * numel_of rest) as Hd
    by (unfold wf, numel in Hw; rewrite Hw, Hs; apply numel_of_cons).
  assert (forall k (d : list A),
            mapM (fun i => if decide (i < k + n)
                           then Some (take (numel_of rest) (drop (i * numel_of rest) d))
                           else None) (seq k n)
            = Some (chunks n (numel_of rest) (drop (k * numel_of rest) d))) as Hall.
  { clear. induction n as [|n IH]; intros k d; [reflexivity|].
    cbn [seq mapM chunks]. rewrite decide_True by lia.
    replace (k + S n) with (S k + n) by lia. rewrite IH.
    cbn. rewrite drop_drop. do 4 f_equal. lia. }
  specialize (Hall 0 (data t)). cbn [Nat.add Nat.mul] in Hall. rewrite drop_0 in Hall.
  rewrite Hall. cbn [of_option rbind].
  rewrite concat_chunks by exact Hd.
  rewrite length_seq, <- Hs. rewrite tensor_eta. reflexivity.
Qed.

Lemma length_remove_dups_const (a : Z) (l : list Z) :
  Forall (fun x => x = a) l -> length (remove_dups l) <= 1.
Proof.
  induction 1 as [|x l -> Hl IH]; [cbn; lia|].
  cbn [remove_dups]. destruct (decide_rel elem_of a l) as [Hin|Hout]; [exact IH|].
  destruct Hl as [|y l -> _]; [cbn; lia|].
  exfalso. apply Hout. left.
Qed.

(** X24: for a batch of a single image (every RoI carries image id 0, and
    there is one meta), [refine_bboxes] is [regress_by_class] on the four
    box columns of all RoIs followed by the removal of the rows flagged as
    ground truth; an exception of either step ends the call. *)
Theorem refine_bboxes_single_image (E : Imports) (self : VRBBoxHead)
    (rois ids boxes_in : Tensor Qc) (labels : Tensor Z)
    (bbox_preds bin_cls_preds bin_offset_preds ratio_preds : Tensor Qc)
    (flags : list Z) (meta : gmap string (list nat))
    (n : nat) (s1 s2 s3 s4 : list nat) :
  well_shaped rois [n; 5] ->
  select_col0 rois = Ok ids ->
  Forall (fun v => v = 0%Qc) (data ids) ->
  cols_from1 rois = Ok boxes_in ->
  well_shaped labels [n] ->
  well_shaped bbox_preds (n :: s1) ->
  well_shaped bin_cls_preds (n :: s2) ->
  well_shaped bin_offset_preds (n :: s3) ->
  well_shaped ratio_preds (n :: s4) ->
  refine_bboxes E self rois labels bbox_preds bin_cls_preds bin_offset_preds
    ratio_preds [flags] [meta]
  = do bboxes <-
      regress_by_class E self boxes_in labels bbox_preds bin_cls_preds
        bin_offset_preds ratio_preds meta;
    do kept <- drop_gts bboxes flags n;
    Ok [kept].
Proof.
  intros Hr Hids Hzero Hin Hl H1 H2 H3 H4.
  pose proof Hr as [Hrs Hrw].
  assert (length (data ids) = n) as Hn.
  { unfold select_col0 in Hids. rewrite Hrs in Hids.
    rewrite decide_True in Hids by lia. injection Hids as <-. cbn [data].
    rewrite length_concat, <- list_fmap_compose.
    assert (length (data rois) = n * 5) as Hd
      by (unfold wf, numel in Hrw; rewrite Hrw, Hrs; unfold numel_of; simpl; lia).
    erewrite (Forall_fmap_ext_1 _ (fun _ => 1)).
    - rewrite fmap_const_replicate, length_chunks, sum_list_replicate. lia.
    - change (numel_of []) with 1.
      eapply Forall_impl; [exact (Forall_length_chunks n (5 * 1) _ Hd)|].
      intros b Hb. cbn beta in Hb. unfold compose. rewrite length_take. lia. }
  unfold refine_bboxes. rewrite Hrs, Hids. cbn [rbind].
  assert (length (unique_sorted (Qc_to_long <$> data ids)) <= 1) as Hone.
  { rewrite length_unique_sorted.
    apply (length_remove_dups_const (Qc_to_long 0%Qc)).
    apply Forall_fmap. eapply Forall_impl; [exact Hzero|].
    intros v ->. reflexivity. }
  rewrite bool_decide_eq_true_2 by (cbn [length]; lia).
  cbn [assert rbind length seq mapR].
  assert ((fun v : Qc => bool_decide (v = Qc_of_nat 0)) <$> data ids
          = replicate n true) as ->.
  { rewrite <- Hn. clear -Hzero.
    induction Hzero as [|v l -> _ IH]; [reflexivity|].
    cbn [fmap list_fmap length replicate]. f_equal. exact IH. }
  rewrite true_positions_all, length_seq.
  rewrite (rows_at_all rois n [5] Hr). cbn [rbind]. rewrite Hin. cbn [rbind].
  rewrite (rows_at_all labels n [] Hl). cbn [rbind].
  rewrite (rows_at_all bbox_preds n s1 H1). cbn [rbind].
  rewrite (rows_at_all bin_cls_preds n s2 H2). cbn [rbind].
  rewrite (rows_at_all bin_offset_preds n s3 H3). cbn [rbind].
  rewrite (rows_at_all ratio_preds n s4 H4).
  cbn [rbind lookup list_lookup of_option].
  destruct (regress_by_class E self boxes_in labels bbox_preds bin_cls_preds
              bin_offset_preds ratio_preds meta) as [b|e]; [|reflexivity].
  cbn [rbind]. destruct (drop_gts b flags n); reflexivity.
Qed.

Lemma refine_bboxes_single_image_witness :
  refine_bboxes demo_imports (demo_head 2 1 true)
    (qt [2; 5] [0; 0; 0; 10; 10; 0; 0; 0; 20; 20]%Z) (mkTensor [2] [0; 0]%Z)
    (qt [2; 4] [1; 2; 3; 4; 5; 6; 7; 8]%Z) (qt [2; 4] (replicate 8 0%Z))
    (qt [2; 4] (replicate 8 0%Z)) (tenths [2; 1] [9; 9]%Z) [[1%Z]] [demo_meta]
  = do bboxes <-
      regress_by_class demo_imports (demo_head 2 1 true)
        (qt [2; 4] [0; 0; 10; 10; 0; 0; 20; 20]%Z) (mkTensor [2] [0; 0]%Z)
        (qt [2; 4] [1; 2; 3; 4; 5; 6; 7; 8]%Z) (qt [2; 4] (replicate 8 0%Z))
        (qt [2; 4] (replicate 8 0%Z)) (tenths [2; 1] [9; 9]%Z) demo_meta;
    do kept <- drop_gts bboxes [1%Z] 2;
    Ok [kept].
Proof.
  apply (refine_bboxes_single_image demo_imports (demo_head 2 1 true)
           (qt [2; 5] [0; 0; 0; 10; 10; 0; 0; 0; 20; 20]%Z) (qt [2] [0; 0]%Z)
           (qt [2; 4] [0; 0; 10; 10; 0; 0; 20; 20]%Z) (mkTensor [2] [0; 0]%Z)
           (qt [2; 4] [1; 2; 3; 4; 5; 6; 7; 8]%Z) (qt [2; 4] (replicate 8 0%Z))
           (qt [2; 4] (replicate 8 0%Z)) (tenths [2; 1] [9; 9]%Z) [1%Z] demo_meta
           2 [4] [4] [4] [1]);
    try (split; reflexivity); try reflexivity.
  repeat constructor.
Defined.

(** ** [forward]: the ranges of the squashed outputs *)



(** ** [loss] in class-aware mode *)

Lemma positives_with_labels (C : nat) (g : nat -> nat) (ls : list Z) :
  zip ((fun p : nat * bool => p.1)
         <$> filter (fun p : nat * bool => p.2 = true)
               (imap (fun i b => (g i, b)) (foreground C <$> ls)))
      (select_blocks 1 (foreground C <$> ls) ls)
  = filter (fun p : nat * Z => foreground C p.2 = true) (zip (g <$> seq 0 (length ls)) ls).
Proof.
  revert g. induction ls as [|l ls IH]; intros g; [reflexivity|].
  rewrite fmap_cons, imap_cons. cbn [select_blocks length seq fmap list_fmap zip zip_with].
  change (take 1 (l :: ls)) with [l]. change (drop 1 (l :: ls)) with ls.
  rewrite <- fmap_S_seq, <- list_fmap_compose.
  specialize (IH (g ∘ S)).
  destruct (foreground C l) eqn:Hl.
  - rewrite filter_cons_True by reflexivity.
    rewrite (filter_cons_True (fun p : nat * Z => foreground C p.2 = true))
      by exact Hl.
    cbn [fmap list_fmap app zip zip_with fst]. f_equal. exact IH.
  - rewrite filter_cons_False by discriminate.
    rewrite (filter_cons_False (fun p : nat * Z => foreground C p.2 = true))
      by (cbn [snd]; rewrite Hl; discriminate).
    cbn [app]. exact IH.
Qed.

Lemma length_selected_labels (C : nat) (ls : list Z) :
  length (true_positions (foreground C <$> ls))
  = length (select_blocks 1 (foreground C <$> ls) ls).
Proof.
  rewrite length_true_positions, length_select_blocks
    by (rewrite length_fmap; lia).
  lia.
Qed.

Lemma index_positive_rows {A} (C w : nat) (d : list A) (ps : list (nat * Z)) :
  Forall (fun p : nat * Z => foreground C p.2 = true) ps ->
  mapM (fun p : nat * Z =>
          (fun j => take w (drop ((p.1 * C + j) * w) d)) <$> norm_index C p.2) ps
  = Some ((fun p : nat * Z => take w (drop ((p.1 * C + Z.to_nat p.2) * w) d)) <$> ps).
Proof.
  induction 1 as [|p ps Hp _ IH]; [reflexivity|].
  cbn [mapM fmap list_fmap].
  unfold foreground in Hp. apply andb_prop in Hp as [H0 H1].
  apply bool_decide_eq_true_1 in H0, H1.
  rewrite (norm_index_in_range C p.2) by lia.
  cbn [fmap option_fmap option_map mbind option_bind].
  cbn [fmap] in IH. rewrite IH. reflexivity.
Qed.

Lemma pos_pred_by_class_positive (pred : Tensor Qc) (C w n : nat) (labels : Tensor Z) :
  0 < n -> 0 < w ->
  shape pred = [n; C * w] ->
  well_shaped labels [n] ->
  pos_pred_by_class pred w labels (tmap (foreground C) labels)
  = Ok (positive_slices C w pred (data labels)).
Proof.
  intros Hn Hw Hp [Hl Hwf].
  unfold pos_pred_by_class, size. rewrite Hp.
  cbn [lookup list_lookup of_option rbind].
  rewrite (view_classes pred n C w Hn Hw Hp). cbn [rbind].
  unfold mask_select, mask_fits, tmap. cbn [shape data].
  rewrite Hl. cbn [length take drop].
  rewrite bool_decide_eq_true_2 by reflexivity. cbn [rbind].
  change (numel_of []) with 1.
  unfold index_mask_long. cbn [shape data].
  rewrite decide_True by reflexivity.
  unfold pair_up. rewrite decide_True by apply length_selected_labels.
  cbn [of_option rbind].
  unfold true_positions.
  rewrite (positives_with_labels C (fun i => i) (data labels)), list_fmap_id.
  change (numel_of [w]) with (w * 1). rewrite Nat.mul_1_r.
  rewrite index_positive_rows.
  - reflexivity.
  - apply Forall_forall. intros p Hin. apply list_elem_of_filter in Hin as [Hf _]. exact Hf.
Qed.

(** X26: in class-aware mode, on a batch of [n] samples with predictions,
    targets and weights of the documented shapes and at least one
    foreground label, [loss] returns; every regression loss is computed,
    for the foreground samples only, from the slice of the prediction that
    belongs to the sample's own class, against the rows of the targets and
    weights of these samples, and is normalised by the number [n] of all
    samples, the bin classification by [n * num_bins]. *)
Theorem loss_by_class_on_positives (E : Imports) (self : VRBBoxHead)
    (cls_score bbox_pred bin_cls_pred bin_offset_pred ratio_pred rois : Tensor Qc)
    (labels : Tensor Z)
    (label_weights bbox_targets bbox_weights bin_cls_targets bin_cls_weights
       bin_offset_targets bin_offset_weights ratio_targets ratio_weights : Tensor Qc)
    (reduction_override : option string) (n : nat) :
  reg_class_agnostic self = false ->
  0 < num_bins self ->
  well_shaped labels [n] ->
  shape bbox_pred = [n; 4 * num_classes self] ->
  shape bin_cls_pred = [n; 4 * num_bins self * num_classes self] ->
  shape bin_offset_pred = [n; 4 * num_classes self] ->
  shape ratio_pred = [n; num_classes self] ->
  shape bbox_targets = [n; 4] ->
  shape bbox_weights = [n; 4] ->
  shape bin_cls_targets = [n; 4 * num_bins self] ->
  shape bin_cls_weights = [n; 4 * num_bins self] ->
  shape bin_offset_targets = [n; 4] ->
  shape bin_offset_weights = [n; 4] ->
  shape ratio_targets = [n; 1] ->
  shape ratio_weights = [n; 1] ->
  Exists (fun l => (0 <= l < Z.of_nat (num_classes self))%Z) (data labels) ->
  let C := num_classes self in
  let fg := foreground C <$> data labels in
  exists losses : gmap string Scalar,
    loss E self cls_score bbox_pred bin_cls_pred bin_offset_pred ratio_pred rois
      labels label_weights bbox_targets bbox_weights bin_cls_targets
      bin_cls_weights bin_offset_targets bin_offset_weights ratio_targets
      ratio_weights reduction_override = Ok losses
    /\ losses !! "loss_bbox"
       = Some (loss_bbox self (positive_slices C 4 bbox_pred (data labels))
                 (rows_where bbox_targets fg) (rows_where bbox_weights fg)
                 (Qc_of_nat n) reduction_override)
    /\ losses !! "loss_bin_cls"
       = Some (loss_bin_cls self
                 (positive_slices C (4 * num_bins self) bin_cls_pred (data labels))
                 (rows_where bin_cls_targets fg) (rows_where bin_cls_weights fg)
                 (Qc_of_nat (n * num_bins self)) reduction_override)
    /\ losses !! "loss_bin_offset"
       = Some (loss_bin_offset self (positive_slices C 4 bin_offset_pred (data labels))
                 (rows_where bin_offset_targets fg)
                 (rows_where bin_offset_weights fg) (Qc_of_nat n) reduction_override)
    /\ losses !! "loss_ratio"
       = Some (loss_ratio self (positive_slices C 1 ratio_pred (data labels))
                 (rows_where ratio_targets fg) (rows_where ratio_weights fg)
                 (Qc_of_nat n) reduction_override).
Proof.
  intros Hag HB Hlw Hb Hc Ho Hr Hbt Hbw Hct Hcw Hot How Hrt Hrw Hex C fg.
  pose proof Hlw as [Hl Hwf].
  assert (0 < n) as Hn.
  { pose proof (wf_length_vector _ _ Hl Hwf) as Hlen.
    destruct Hex; cbn [length] in Hlen; lia. }
  assert (shape bbox_pred = [n; C * 4]) as Hb'
    by (rewrite Hb; unfold C; do 2 f_equal; lia).
  assert (shape bin_cls_pred = [n; C * (4 * num_bins self)]) as Hc'
    by (rewrite Hc; unfold C; do 2 f_equal; lia).
  assert (shape bin_offset_pred = [n; C * 4]) as Ho'
    by (rewrite Ho; unfold C; do 2 f_equal; lia).
  assert (shape ratio_pred = [n; C * 1]) as Hr'
    by (rewrite Hr; unfold C; do 2 f_equal; lia).
  unfold loss.
  set (mask := tmap _ labels).
  assert (shape mask = [n]) as Hm by exact Hl.
  assert (data mask = fg) as Hfg by reflexivity.
  assert (existsb id (data mask) = true) as -> by exact (some_positive_mask _ _ Hex).
  rewrite Hag.
  assert (pos_pred_by_class bbox_pred 4 labels mask
          = Ok (positive_slices C 4 bbox_pred (data labels))) as ->
    by exact (pos_pred_by_class_positive bbox_pred C 4 n labels Hn ltac:(lia) Hb' Hlw).
  assert (pos_pred_by_class bin_cls_pred (4 * num_bins self) labels mask
          = Ok (positive_slices C (4 * num_bins self) bin_cls_pred (data labels))) as ->
    by exact (pos_pred_by_class_positive bin_cls_pred C (4 * num_bins self) n labels Hn
                ltac:(lia) Hc' Hlw).
  assert (pos_pred_by_class bin_offset_pred 4 labels mask
          = Ok (positive_slices C 4 bin_offset_pred (data labels))) as ->
    by exact (pos_pred_by_class_positive bin_offset_pred C 4 n labels Hn ltac:(lia)
                Ho' Hlw).
  assert (pos_pred_by_class ratio_pred 1 labels mask
          = Ok (positive_slices C 1 ratio_pred (data labels))) as ->
    by exact (pos_pred_by_class_positive ratio_pred C 1 n labels Hn ltac:(lia) Hr' Hlw).
  cbn [rbind].
  rewrite (mask_select_rows bbox_targets n _ mask Hbt Hm),
    (mask_select_rows bbox_weights n _ mask Hbw Hm),
    (mask_select_rows bin_cls_targets n _ mask Hct Hm),
    (mask_select_rows bin_cls_weights n _ mask Hcw Hm),
    (mask_select_rows bin_offset_targets n _ mask Hot Hm),
    (mask_select_rows bin_offset_weights n _ mask How Hm),
    (mask_select_rows ratio_targets n _ mask Hrt Hm),
    (mask_select_rows ratio_weights n _ mask Hrw Hm).
  unfold size. rewrite Hbt, Hct, Hot, Hrt.
  cbn [lookup list_lookup of_option rbind]. rewrite Hfg.
  eexists. split; [reflexivity|].
  repeat split; simplify_map_eq; reflexivity.
Qed.

Lemma loss_by_class_on_positives_witness :
  let labels := mkTensor [2] [1; 2]%Z in
  let bbox_pred := qt [2; 8] (Z.of_nat <$> seq 0 16) in
  let bin_cls_pred := qt [2; 16] (Z.of_nat <$> seq 0 32) in
  let ratio_pred := tenths [2; 2] [1; 2; 3; 4]%Z in
  let fg := foreground 2 <$> [1; 2]%Z in
  exists losses : gmap string Scalar,
    loss demo_imports (demo_head 2 2 false)
      (qt [2; 3] [1; 2; 3; 4; 5; 6]%Z) bbox_pred bin_cls_pred bbox_pred ratio_pred
      (qt [2; 5] (replicate 10 0%Z)) labels (qt [2] [1; 1]%Z)
      (qt [2; 4] (replicate 8 0%Z)) (qt [2; 4] (replicate 8 1%Z))
      (qt [2; 8] (replicate 16 0%Z)) (qt [2; 8] (replicate 16 1%Z))
      (qt [2; 4] (replicate 8 0%Z)) (qt [2; 4] (replicate 8 1%Z))
      (qt [2; 1] [0; 0]%Z) (qt [2; 1] [1; 1]%Z) None = Ok losses
    /\ losses !! "loss_bbox"
       = Some (loss_bbox (demo_head 2 2 false)
                 (positive_slices 2 4 bbox_pred [1; 2]%Z)
                 (rows_where (qt [2; 4] (replicate 8 0%Z)) fg)
                 (rows_where (qt [2; 4] (replicate 8 1%Z)) fg) (Qc_of_nat 2) None)
    /\ losses !! "loss_bin_cls"
       = Some (loss_bin_cls (demo_head 2 2 false)
                 (positive_slices 2 (4 * 2) bin_cls_pred [1; 2]%Z)
                 (rows_where (qt [2; 8] (replicate 16 0%Z)) fg)
                 (rows_where (qt [2; 8] (replicate 16 1%Z)) fg)
                 (Qc_of_nat (2 * 2)) None)
    /\ losses !! "loss_bin_offset"
       = Some (loss_bin_offset (demo_head 2 2 false)
                 (positive_slices 2 4 bbox_pred [1; 2]%Z)
                 (rows_where (qt [2; 4] (replicate 8 0%Z)) fg)
                 (rows_where (qt [2; 4] (replicate 8 1%Z)) fg) (Qc_of_nat 2) None)
    /\ losses !! "loss_ratio"
       = Some (loss_ratio (demo_head 2 2 false)
                 (positive_slices 2 1 ratio_pred [1; 2]%Z)
                 (rows_where (qt [2; 1] [0; 0]%Z) fg)
                 (rows_where (qt [2; 1] [1; 1]%Z) fg) (Qc_of_nat 2) None).
Proof.
  apply (loss_by_class_on_positives demo_imports (demo_head 2 2 false)
           (qt [2; 3] [1; 2; 3; 4; 5; 6]%Z) (qt [2; 8] (Z.of_nat <$> seq 0 16))
           (qt [2; 16] (Z.of_nat <$> seq 0 32)) (qt [2; 8] (Z.of_nat <$> seq 0 16))
           (tenths [2; 2] [1; 2; 3; 4]%Z)
           (qt [2; 5] (replicate 10 0%Z)) (mkTensor [2] [1; 2]%Z) (qt [2] [1; 1]%Z)
           (qt [2; 4] (replicate 8 0%Z)) (qt [2; 4] (replicate 8 1%Z))
           (qt [2; 8] (replicate 16 0%Z)) (qt [2; 8] (replicate 16 1%Z))
           (qt [2; 4] (replicate 8 0%Z)) (qt [2; 4] (replicate 8 1%Z))
           (qt [2; 1] [0; 0]%Z) (qt [2; 1] [1; 1]%Z) None 2);
    try reflexivity.
  - simpl. lia.
  - split; reflexivity.
  - constructor. simpl. lia.
Defined.

(** ** From [get_targets] to [loss] *)

Lemma get_targets_labels (E : Imports) (self : VRBBoxHead) (cfg : TrainCfg)
    (srs : list SamplingResult) (gt_bboxes : list (Tensor Qc))
    (gt_labels : list (Tensor Z)) (t : Targets) :
  srs <> [] ->
  Forall (sampling_ok E self) srs ->
  get_targets E self srs gt_bboxes gt_labels cfg true = Ok (Concatenated t) ->
  data (tg_labels t)
  = concat ((fun res => data (pos_gt_labels res)
                        ++ replicate (n_neg res) (Z.of_nat (num_classes self)))
              <$> srs).
Proof.
  intros Hne Hok H.
  unfold get_targets, multi_apply in H.
  rewrite (mapR_ext_Ok _ (assigned E self cfg)) in H.
  2:{ eapply Forall_impl; [exact Hok|]. intros res Hres.
      apply _get_target_single_assigned. exact Hres. }
  cbn [rbind] in H.
  destruct srs as [|res0 srs0]; [congruence|].
  rewrite fmap_cons in H. cbn [rbind] in H. rewrite <- fmap_cons in H.
  set (srs := res0 :: srs0) in *.
  apply rbind_Ok in H as (labels & Hlabels & H).
  peel H. injection H as <-. cbn [tg_labels].
  rewrite <- list_fmap_compose in Hlabels. unfold compose, assigned in Hlabels.
  cbn [tg_labels] in Hlabels.
  destruct (cat0_stacked srs [] (fun res => data (pos_gt_labels res))
              (Z.of_nat (num_classes self)) Hne) as (t1 & Ht1 & _ & Hd & _).
  { eapply Forall_impl; [exact Hok|]. intros res Hres.
    apply well_shaped_length, Hres. }
  rewrite Ht1 in Hlabels. injection Hlabels as <-. rewrite Hd.
  f_equal. apply list_fmap_ext. intros i res _.
  change (numel_of []) with 1. rewrite Nat.mul_1_r. reflexivity.
Qed.

Lemma foreground_background (C : nat) : foreground C (Z.of_nat C) = false.
Proof.
  unfold foreground. rewrite (bool_decide_eq_false_2 (Z.of_nat C < Z.of_nat C)%Z) by lia.
  apply andb_false_r.
Qed.

(** X27: the labels that [get_targets] returns are class labels exactly on
    the rows of the sampled positives, provided the matched labels are
    class indices: the mask [(labels >= 0) & (labels < num_classes)] of
    [loss] is true on the positives of every image and false on its
    negatives. *)
Theorem loss_mask_is_sampled_positives (E : Imports) (self : VRBBoxHead)
    (cfg : TrainCfg) (srs : list SamplingResult) (gt_bboxes : list (Tensor Qc))
    (gt_labels : list (Tensor Z)) (t : Targets) :
  srs <> [] ->
  Forall (sampling_ok E self) srs ->
  Forall (fun res => Forall (fun l => (0 <= l < Z.of_nat (num_classes self))%Z)
                       (data (pos_gt_labels res))) srs ->
  get_targets E self srs gt_bboxes gt_labels cfg true = Ok (Concatenated t) ->
  foreground (num_classes self) <$> data (tg_labels t) = sampled_positive_mask srs.
Proof.
  intros Hne Hok Hcls H.
  rewrite (get_targets_labels E self cfg srs gt_bboxes gt_labels t Hne Hok H).
  unfold sampled_positive_mask. clear H Hne.
  induction srs as [|res srs IH]; [reflexivity|].
  apply Forall_cons in Hok as [Hres Hok]. apply Forall_cons in Hcls as [Hl Hcls].
  rewrite !fmap_cons. cbn [concat]. rewrite fmap_app, IH by assumption.
  f_equal. rewrite fmap_app, fmap_replicate, foreground_background. f_equal.
  rewrite (foreground_all _ _ Hl). f_equal.
  destruct Hres as (_ & _ & [Hs Hw] & _).
  apply (wf_length_vector _ _ Hs Hw).
Qed.

Lemma loss_mask_is_sampled_positives_witness :
  exists t,
    get_targets demo_imports (demo_head 2 2 false) [demo_sampling; demo_negatives]
      [] [] demo_cfg true = Ok (Concatenated t)
    /\ foreground 2 <$> data (tg_labels t)
       = sampled_positive_mask [demo_sampling; demo_negatives].
Proof.
  eexists. split; [vm_compute; reflexivity|].
  eapply (loss_mask_is_sampled_positives demo_imports (demo_head 2 2 false) demo_cfg
            [demo_sampling; demo_negatives] [] []).
  - discriminate.
  - repeat constructor; try discriminate.
  - repeat constructor; simpl; lia.
  - vm_compute. reflexivity.
Defined.

Lemma no_positive_labels (E : Imports) (self : VRBBoxHead) (srs : list SamplingResult) :
  Forall (sampling_ok E self) srs ->
  Forall (fun res => n_pos res = 0) srs ->
  Forall (fun l => ~ (0 <= l < Z.of_nat (num_classes self))%Z)
    (concat ((fun res => data (pos_gt_labels res)
                         ++ replicate (n_neg res) (Z.of_nat (num_classes self)))
               <$> srs)).
Proof.
  intros Hok Hnone. induction srs as [|res srs IH]; [constructor|].
  apply Forall_cons in Hok as [Hres Hok]. apply Forall_cons in Hnone as [H0 Hnone].
  rewrite fmap_cons. cbn [concat]. apply Forall_app. split; [|apply IH; assumption].
  destruct Hres as (_ & _ & [Hs Hw] & _).
  pose proof (wf_length_vector _ _ Hs Hw) as Hlen. rewrite H0 in Hlen.
  apply nil_length_inv in Hlen. rewrite Hlen. cbn [app].
  apply Forall_replicate. lia.
Qed.

(** X28: a batch in which no image has a positive RoI regresses nothing:
    when the targets that [get_targets] returns for it are handed to
    [loss], the call returns, and the box, bin-classification, bin-offset
    and ratio losses are the sums of the predictions times zero: zero for
    every prediction whose sum is finite, NaN for one whose sum has
    overflowed to an infinity. *)
Theorem batch_without_positives_regresses_nothing (E : Imports) (self : VRBBoxHead)
    (cfg : TrainCfg) (srs : list SamplingResult) (gt_bboxes : list (Tensor Qc))
    (gt_labels : list (Tensor Z)) (t : Targets)
    (cls_score bbox_pred bin_cls_pred bin_offset_pred ratio_pred rois : Tensor Qc)
    (reduction_override : option string) :
  srs <> [] ->
  Forall (sampling_ok E self) srs ->
  Forall (fun res => n_pos res = 0) srs ->
  get_targets E self srs gt_bboxes gt_labels cfg true = Ok (Concatenated t) ->
  exists losses : gmap string Scalar,
    loss E self cls_score bbox_pred bin_cls_pred bin_offset_pred ratio_pred rois
      (tg_labels t) (tg_label_weights t) (tg_bbox_targets t) (tg_bbox_weights t)
      (tg_bin_cls_targets t) (tg_bin_cls_weights t) (tg_bin_offset_targets t)
      (tg_bin_offset_weights t) (tg_ratio_targets t) (tg_ratio_weights t)
      reduction_override = Ok losses
    /\ zero_reduction_of bbox_pred (losses !! "loss_bbox")
    /\ zero_reduction_of bin_cls_pred (losses !! "loss_bin_cls")
    /\ zero_reduction_of bin_offset_pred (losses !! "loss_bin_offset")
    /\ zero_reduction_of ratio_pred (losses !! "loss_ratio").
Proof.
  intros Hne Hok Hnone H.
  pose proof (no_positive_labels E self srs Hok Hnone) as Hneg.
  rewrite <- (get_targets_labels E self cfg srs gt_bboxes gt_labels t Hne Hok H) in Hneg.
  unfold loss. cbn [tmap data].
  rewrite (no_positive_mask _ _ Hneg).
  eexists. split; [reflexivity|].
  repeat split; simplify_map_eq; apply zero_reduction_times.
Qed.

Lemma batch_without_positives_regresses_nothing_witness :
  exists t,
    get_targets demo_imports (demo_head 2 2 false) [demo_negatives; demo_negatives]
      [] [] demo_cfg true = Ok (Concatenated t)
    /\ exists losses : gmap string Scalar,
         loss demo_imports (demo_head 2 2 false)
           (qt [4; 3] (Z.of_nat <$> seq 0 12)) (qt [4; 8] (Z.of_nat <$> seq 0 32))
           (qt [4; 16] (Z.of_nat <$> seq 0 64)) (qt [4; 8] (Z.of_nat <$> seq 0 32))
           (qt [4; 2] (Z.of_nat <$> seq 0 8)) (qt [4; 5] (replicate 20 0%Z))
           (tg_labels t) (tg_label_weights t) (tg_bbox_targets t) (tg_bbox_weights t)
           (tg_bin_cls_targets t) (tg_bin_cls_weights t) (tg_bin_offset_targets t)
           (tg_bin_offset_weights t) (tg_ratio_targets t) (tg_ratio_weights t)
           None = Ok losses
         /\ zero_reduction_of (qt [4; 8] (Z.of_nat <$> seq 0 32)) (losses !! "loss_bbox")
         /\ zero_reduction_of (qt [4; 16] (Z.of_nat <$> seq 0 64))
              (losses !! "loss_bin_cls")
         /\ zero_reduction_of (qt [4; 8] (Z.of_nat <$> seq 0 32))
              (losses !! "loss_bin_offset")
         /\ zero_reduction_of (qt [4; 2] (Z.of_nat <$> seq 0 8)) (losses !! "loss_ratio").
Proof.
  eexists. split; [vm_compute; reflexivity|].
  eapply (batch_without_positives_regresses_nothing demo_imports (demo_head 2 2 false)
            demo_cfg [demo_negatives; demo_negatives] [] []).
  - discriminate.
  - repeat constructor; try discriminate.
  - repeat constructor.
  - vm_compute. reflexivity.
Defined.

(** ** [regress_by_class] in class-aware mode with several bins *)

Lemma gather1_leading_rows (pred : Tensor Qc) (C w n R : nat) (ls : list Z)
    (ix : Z -> list Z) :
  shape pred = [R; C * w] ->
  wf pred ->
  n <= R ->
  length ls = n ->
  Forall (fun l => (0 <= l < Z.of_nat C)%Z) ls ->
  (forall l, (0 <= l < Z.of_nat C)%Z -> ix l = Z.of_nat <$> seq (Z.to_nat l * w) w) ->
  gather1 pred (mkTensor [n; w] (concat (ix <$> ls))) = Ok (class_slices C w pred ls).
Proof.
  intros Hs Hwf HR Hlen Hall Hix.
  assert (length (data pred) = R * (C * w)) as Hd
    by (unfold wf, numel in Hwf; rewrite Hwf, Hs; unfold numel_of; simpl; lia).
  unfold gather1. rewrite Hs. cbn [shape data].
  rewrite decide_True by exact HR.
  assert (chunks n w (concat (ix <$> ls)) = ix <$> ls) as ->.
  { rewrite <- Hlen, <- (length_fmap ix). apply chunks_concat.
    apply Forall_fmap. eapply Forall_impl; [exact Hall|].
    intros l Hl. cbn. rewrite (Hix l Hl), length_fmap, length_seq. reflexivity. }
  rewrite <- Hlen.
  pose proof (gather_rows_by_class C w ix (data pred)) as Hg.
  specialize (Hg ltac:(intros l r Hl Hr; rewrite (Hix l Hl);
                       apply gather_row_range; rewrite Hr; nia)).
  specialize (Hg ls 0 Hall ltac:(rewrite Hd, Hlen; apply Nat.mul_le_mono_r; lia)).
  rewrite drop_0 in Hg. rewrite Hg.
  cbn [of_option rbind]. unfold class_slices. reflexivity.
Qed.

Lemma view_columns {A} (t : Tensor A) (m k : nat) :
  0 < k -> numel t = m * k -> view t [None; Some k] = Ok (mkTensor [m; k] (data t)).
Proof.
  intros Hk Hm. unfold view.
  assert (length (filter (fun d : option nat => d = None) [None; Some k]) = 1)
    as -> by reflexivity.
  rewrite decide_False by lia. rewrite decide_True by reflexivity.
  assert (known_dims [None; Some k] = k) as ->
    by (unfold known_dims; cbn; lia).
  rewrite decide_False by lia.
  rewrite Hm, Nat.Div0.mod_mul, Nat.div_mul by lia.
  rewrite decide_True by reflexivity. reflexivity.
Qed.

Lemma view_columns_remainder {A} (t : Tensor A) (k : nat) :
  0 < k -> numel t `mod` k <> 0 -> view t [None; Some k] = Raise RuntimeError.
Proof.
  intros Hk Hm. unfold view.
  assert (length (filter (fun d : option nat => d = None) [None; Some k]) = 1)
    as -> by reflexivity.
  rewrite decide_False by lia. rewrite decide_True by reflexivity.
  assert (known_dims [None; Some k] = k) as ->
    by (unfold known_dims; cbn; lia).
  rewrite decide_False by lia. rewrite decide_False by exact Hm. reflexivity.
Qed.

(** X29: in class-aware mode, on labels that name classes and predictions
    of the documented shapes, the gathered bin classification is reshaped
    from [n] rows of 4 columns to rows of [4 * num_bins] columns: whenever
    [num_bins] does not divide the number [n] of RoIs, the call ends with
    [RuntimeError]. *)
Theorem regress_by_class_needs_multiple_of_bins (E : Imports) (self : VRBBoxHead)
    (rois : Tensor Qc) (label : Tensor Z)
    (bbox_pred bin_cls_pred bin_offset_pred ratio_pred : Tensor Qc)
    (img_meta : gmap string (list nat)) (n c : nat) :
  reg_class_agnostic self = false ->
  shape rois = [n; c] ->
  c = 4 \/ c = 5 ->
  well_shaped label [n] ->
  Forall (fun l => (0 <= l < Z.of_nat (num_classes self))%Z) (data label) ->
  (4 * Z.of_nat (num_classes self) < 2 ^ 63)%Z ->
  well_shaped bbox_pred [n; 4 * num_classes self] ->
  well_shaped bin_cls_pred [n; 4 * num_bins self * num_classes self] ->
  well_shaped bin_offset_pred [n; 4 * num_classes self] ->
  well_shaped ratio_pred [n; num_classes self] ->
  0 < num_bins self ->
  ~ (num_bins self | n) ->
  regress_by_class E self rois label bbox_pred bin_cls_pred bin_offset_pred
    ratio_pred img_meta = Raise RuntimeError.
Proof.
  intros Hag Hr Hc [Hl Hlw] Hall HC [Hb Hbw] [Hk Hkw] [Ho How] [Hq Hqw] HB Hdiv.
  pose proof (wf_length_vector _ _ Hl Hlw) as Hlen.
  set (C := num_classes self) in *. set (B := num_bins self) in *.
  assert (0 < n) as Hn.
  { destruct n; [|lia]. exfalso. apply Hdiv. exists 0. reflexivity. }
  assert (0 < C) as HCpos.
  { destruct (data label) as [|l ls]; [cbn in Hlen; lia|].
    apply Forall_cons in Hall as [Hl0 _]. lia. }
  rewrite (Nat.mul_comm 4 C) in Hb, Ho.
  assert (shape ratio_pred = [n; C * 1]) as Hq1 by (rewrite Nat.mul_1_r; exact Hq).
  unfold regress_by_class.
  rewrite (size1_matrix _ _ _ Hr), Hag. cbn [rbind].
  assert (bool_decide (c = 4) || bool_decide (c = 5) = true) as ->.
  { destruct Hc as [-> | ->]; reflexivity. }
  cbn [assert rbind].
  unfold gather_by_class, unsqueeze1. rewrite Hl. cbn [rbind].
  rewrite <- (concat_singletons (data label)) at 1.
  rewrite (gather1_class_slices ratio_pred C 1 n (data label) (fun l => [l]));
    try assumption.
  2:{ intros l Hx. cbn [seq fmap list_fmap]. rewrite Nat.mul_1_r, Z2Nat.id by lia.
      reflexivity. }
  cbn [rbind]. fold C B.
  rewrite (view_columns bin_cls_pred (n * B) (4 * C)).
  2: lia.
  2:{ unfold numel. rewrite Hk. unfold numel_of. cbn [foldr]. lia. }
  cbn [rbind].
  rewrite (stack4_offsets_rows_of label n Hl Hlw). cbn [rbind].
  rewrite (gather1_class_slices bbox_pred C 4 n (data label)); try assumption.
  2:{ intros l Hx. apply (offsets_of_class C); assumption. }
  cbn [rbind].
  rewrite (gather1_leading_rows (mkTensor [n * B; 4 * C] (data bin_cls_pred)) C 4 n
             (n * B) (data label)); try assumption.
  2:{ cbn [shape]. do 2 f_equal. lia. }
  2:{ unfold wf, numel, numel_of in *. cbn [shape data foldr].
      rewrite Hkw, Hk. cbn [foldr]. lia. }
  2: nia.
  2:{ intros l Hx. apply (offsets_of_class C); assumption. }
  cbn [rbind].
  rewrite (gather1_class_slices bin_offset_pred C 4 n (data label)); try assumption.
  2:{ intros l Hx. apply (offsets_of_class C); assumption. }
  cbn [rbind].
  rewrite view_columns_remainder; [reflexivity | lia |].
  unfold class_slices, numel, numel_of. cbn [shape foldr]. rewrite Hlen.
  intros Hmod. apply Hdiv.
  apply Nat.Lcm0.mod_divide in Hmod. destruct Hmod as [q Hq'].
  exists q. nia.
Qed.

Lemma regress_by_class_needs_multiple_of_bins_witness :
  regress_by_class demo_imports (demo_head 2 2 false)
    (qt [3; 4] [0; 0; 10; 10; 0; 0; 20; 20; 0; 0; 30; 30]%Z) (mkTensor [3] [0; 1; 1]%Z)
    (qt [3; 8] (Z.of_nat <$> seq 0 24)) (qt [3; 16] (Z.of_nat <$> seq 0 48))
    (qt [3; 8] (Z.of_nat <$> seq 0 24)) (tenths [3; 2] [9; 9; 9; 9; 9; 9]%Z) demo_meta
  = Raise RuntimeError.
Proof.
  apply (regress_by_class_needs_multiple_of_bins demo_imports (demo_head 2 2 false)
           (qt [3; 4] [0; 0; 10; 10; 0; 0; 20; 20; 0; 0; 30; 30]%Z)
           (mkTensor [3] [0; 1; 1]%Z)
           (qt [3; 8] (Z.of_nat <$> seq 0 24)) (qt [3; 16] (Z.of_nat <$> seq 0 48))
           (qt [3; 8] (Z.of_nat <$> seq 0 24)) (tenths [3; 2] [9; 9; 9; 9; 9; 9]%Z)
           demo_meta 3 4);
    try reflexivity; try (split; reflexivity).
  - left. reflexivity.
  - repeat constructor; simpl; lia.
  - simpl. lia.
  - intros [q Hq]. simpl in Hq. lia.
Defined.

(** ** [init_weights]: the biases are zero *)









